(** * sbir-search: orchestrator, matcher and dedup state, embedded in Rocq

    A shallow embedding of the Python package [sbir_search]
    (matcher.py, sources.py, state.py, cli.py, notify.py, sbir.py) together
    with the properties its specification states about it.

    Conventions of the embedding.
    - Python [str] is [string] over 8-bit characters; [str.lower],
      [str.upper], [str.isalnum], [str.strip] and the regular-expression
      flag [re.IGNORECASE] act on the ASCII range and leave the other
      characters alone.
    - Python exceptions are values of [exn]; a function that can raise
      returns a [result], and a loop that can raise stops at the first
      exception.
    - The outside world (HTTP responses, the state file, the Discord
      transport) is an explicit argument of the function that talks to it;
      what a function does to the world (requests made, seconds slept, the
      file written) is part of what it returns.
    - [re] is embedded on the fragment of patterns [_compile_keyword] can
      produce; [json.loads], [httpx] and [feedparser] are taken by their
      results. *)

From Stdlib Require Import ZArith QArith Ascii String.
From stdpp Require Import gmap strings list sorting pretty.

Set Warnings "-register-all".

Local Open Scope string_scope.
Local Open Scope list_scope.
Local Open Scope Z_scope.

(** ** Exceptions and fallible computations *)

Inductive exn_class :=
  | TypeError
  | RuntimeError
  | ReError
  | HTTPStatusError (status : Z)
  | RequestError
  | OtherError.

Record exn := Exn { exn_cls : exn_class; exn_msg : string }.

Inductive result (A : Type) :=
  | Ok (a : A)
  | Raise (e : exn).
Arguments Ok {A} a.
Arguments Raise {A} e.

Definition bind {A B} (r : result A) (k : A -> result B) : result B :=
  match r with
  | Ok a => k a
  | Raise e => Raise e
  end.

Notation "'let*' x ':=' c 'in' k" := (bind c (fun x => k))
  (at level 10, x name, c at level 100, k at level 200).

Definition raises {A} (r : result A) : bool :=
  match r with Ok _ => false | Raise _ => true end.

Fixpoint mapM {A B} (f : A -> result B) (l : list A) : result (list B) :=
  match l with
  | [] => Ok []
  | a :: l' => let* b := f a in let* bs := mapM f l' in Ok (b :: bs)
  end.

(** ** Characters and strings (ASCII view of Python [str]) *)

Module Str.

Definition code (c : ascii) : nat := nat_of_ascii c.

Definition is_upper (c : ascii) : bool :=
  (65 <=? code c)%nat && (code c <=? 90)%nat.
Definition is_lower (c : ascii) : bool :=
  (97 <=? code c)%nat && (code c <=? 122)%nat.
Definition is_digit (c : ascii) : bool :=
  (48 <=? code c)%nat && (code c <=? 57)%nat.
Definition is_alnum (c : ascii) : bool :=
  is_upper c || is_lower c || is_digit c.

(** Whitespace as [str.strip] sees it in the ASCII range: space,
    \t \n \v \f \r and the separators 0x1c..0x1f. *)
Definition is_space (c : ascii) : bool :=
  (code c =? 32)%nat || ((9 <=? code c)%nat && (code c <=? 13)%nat)
  || ((28 <=? code c)%nat && (code c <=? 31)%nat).

Definition lower_char (c : ascii) : ascii :=
  if is_upper c then ascii_of_nat (code c + 32) else c.
Definition upper_char (c : ascii) : ascii :=
  if is_lower c then ascii_of_nat (code c - 32) else c.

Fixpoint map (f : ascii -> ascii) (s : string) : string :=
  match s with
  | EmptyString => EmptyString
  | String c s' => String (f c) (map f s')
  end.

Fixpoint forallb (p : ascii -> bool) (s : string) : bool :=
  match s with
  | EmptyString => true
  | String c s' => p c && forallb p s'
  end.

(** [s.lower()], [s.upper()] *)
Definition lower (s : string) : string := map lower_char s.
Definition upper (s : string) : string := map upper_char s.

(** [bool(s)]: a string is truthy when it is not empty. *)
Definition truthy (s : string) : bool :=
  match s with EmptyString => false | String _ _ => true end.

(** [s.isalnum()]: at least one character and all of them alphanumeric. *)
Definition isalnum (s : string) : bool := truthy s && forallb is_alnum s.

(** [sep.join(parts)] *)
Fixpoint join (sep : string) (parts : list string) : string :=
  match parts with
  | [] => ""
  | [p] => p
  | p :: ps => p +:+ sep +:+ join sep ps
  end.

Fixpoint lstrip (s : string) : string :=
  match s with
  | EmptyString => EmptyString
  | String c s' => if is_space c then lstrip s' else s
  end.

Fixpoint rstrip (s : string) : string :=
  match s with
  | EmptyString => EmptyString
  | String c s' =>
      match rstrip s' with
      | EmptyString => if is_space c then EmptyString else String c EmptyString
      | r => String c r
      end
  end.

(** [s.strip()] *)
Definition strip (s : string) : string := rstrip (lstrip s).

(** Case-insensitive comparison of two characters, as [re.IGNORECASE]
    does it on ASCII text. *)
Definition eqb_ci (c d : ascii) : bool := Ascii.eqb (lower_char c) (lower_char d).

(** [prefix_ci p s]: [p] is a prefix of [s] up to case. *)
Fixpoint prefix_ci (p s : string) : bool :=
  match p, s with
  | EmptyString, _ => true
  | String _ _, EmptyString => false
  | String c p', String d s' => eqb_ci c d && prefix_ci p' s'
  end.

(** [occurs_ci p s]: [p] occurs in [s] as a substring up to case. *)
Fixpoint occurs_ci (p s : string) : bool :=
  prefix_ci p s ||
  match s with
  | EmptyString => false
  | String _ s' => occurs_ci p s'
  end.

End Str.

(** ** The regular expressions that [matcher.py] builds

    [_compile_keyword] only ever hands [re.compile] a pattern made of
    ordinary characters and backslash escapes, so the embedding of [re]
    covers that fragment: an ordinary character matches itself, a backslash
    followed by a non-alphanumeric character matches that character, and
    backslash-b is the word-boundary assertion. Anything else (an unescaped
    metacharacter, another alphanumeric escape, a trailing backslash) is
    outside the fragment and reported as [None]. *)

Module Re.

Inductive item :=
  | Lit (c : ascii)
  | WordBoundary.

Definition pattern := list item.

Definition in_chars (c : ascii) (l : list ascii) : bool :=
  existsb (Ascii.eqb c) l.

(** The characters [re.escape] puts a backslash in front of
    (CPython's [_special_chars_map]). *)
Definition special_chars : list ascii :=
  list_ascii_of_string "()[]{}?*+-|^$\.&~# "
  ++ ["009"; "010"; "013"; "011"; "012"]%char.

(** The characters with a meaning of their own in a pattern. *)
Definition meta_chars : list ascii :=
  list_ascii_of_string ".^$*+?{}[]|()".

(** [re.escape(s)] *)
Fixpoint escape (s : string) : string :=
  match s with
  | EmptyString => EmptyString
  | String c s' =>
      if in_chars c special_chars
      then String "\" (String c (escape s'))
      else String c (escape s')
  end.

(** The parser behind [re.compile], on the fragment above. *)
Fixpoint parse (p : string) : option pattern :=
  match p with
  | EmptyString => Some []
  | String c rest =>
      if Ascii.eqb c "\" then
        match rest with
        | EmptyString => None
        | String d rest' =>
            if Ascii.eqb d "b" then cons WordBoundary <$> parse rest'
            else if Str.is_alnum d then None
            else cons (Lit d) <$> parse rest'
        end
      else if in_chars c meta_chars then None
      else cons (Lit c) <$> parse rest
  end.

(** A word character, as backslash-w and backslash-b understand it. *)
Definition is_word (c : ascii) : bool := Str.is_alnum c || Ascii.eqb c "_".

(** The position between [prev] (the character just consumed, if any) and
    the rest [s] of the text is a word boundary. *)
Definition at_boundary (prev : option ascii) (s : string) : bool :=
  xorb (from_option is_word false prev)
       (match s with EmptyString => false | String c _ => is_word c end).

(** The pattern matches at the current position. *)
Fixpoint match_here (p : pattern) (prev : option ascii) (s : string) : bool :=
  match p with
  | [] => true
  | WordBoundary :: p' => at_boundary prev s && match_here p' prev s
  | Lit c :: p' =>
      match s with
      | EmptyString => false
      | String d s' => Str.eqb_ci c d && match_here p' (Some d) s'
      end
  end.

Fixpoint search_from (p : pattern) (prev : option ascii) (s : string) : bool :=
  match_here p prev s ||
  match s with
  | EmptyString => false
  | String d s' => search_from p (Some d) s'
  end.

(** [bool(pattern.search(text))] *)
Definition search (p : pattern) (text : string) : bool := search_from p None text.

(** [re.compile(p, re.IGNORECASE)]: [re.error] outside the fragment. *)
Definition compile (p : string) : result pattern :=
  match parse p with
  | Some r => Ok r
  | None => Raise (Exn ReError "bad pattern")
  end.

End Re.

(** ** matcher.py: keyword compilation *)

(** [_compile_keyword(keyword)]. The two string constants are the raw
    f-string pieces of the source, character for character (a Rocq string,
    like a Python raw string, gives the backslash no special meaning). *)
Definition _compile_keyword (keyword : string) : result Re.pattern :=
  let escaped := Re.escape keyword in
  if Str.isalnum keyword && (String.length keyword <=? 3)%nat
  then Re.compile ("\\b" +:+ escaped +:+ "\\b")
  else Re.compile escaped.

(** [_first_excluded(text, patterns, keywords)] *)
Fixpoint _first_excluded (text : string) (patterns : list Re.pattern)
    (keywords : list string) : option string :=
  match keywords, patterns with
  | kw :: keywords', pattern :: patterns' =>
      if Re.search pattern text then Some kw
      else _first_excluded text patterns' keywords'
  | _, _ => None
  end.

(** ** JSON values, as [json.loads] and the HTTP clients deliver them *)

Inductive json :=
  | JNull
  | JBool (b : bool)
  | JNum (n : Z)
  | JStr (s : string)
  | JArr (items : list json)
  | JObj (fields : list (string * json)).

(** A Python [dict] with string keys, as an association list in insertion
    order; a later binding of a key overrides an earlier one. *)
Definition dict := list (string * json).

(** [d.get(key)] *)
Fixpoint dict_get (d : dict) (key : string) : option json :=
  match d with
  | [] => None
  | (k, v) :: d' =>
      match dict_get d' key with
      | Some v' => Some v'
      | None => if String.eqb k key then Some v else None
      end
  end.

(** ** models.py *)

Module Opportunity.
Record t := mk {
  id : string;
  source : option string;
  solicitation_title : string;
  solicitation_number : option string;
  agency : option string;
  branch : option string;
  open_date : option string;
  close_date : option string;
  topic_title : option string;
  topic_number : option string;
  topic_description : option string;
  subtopic_title : option string;
  subtopic_description : option string;
  url : option string;
  raw : dict
}.
End Opportunity.

Module Match.
Record t := mk {
  opportunity : Opportunity.t;
  score : nat;
  matched_keywords : list string;
  matched_text : string
}.
End Match.

(** ** config.py (the fields the embedded functions read) *)

Module MatchConfig.
Record t := mk {
  keywords : list string;
  exclude_keywords : list string;
  min_score : Z;
  agencies : list string;
  always_include_sources : list string;
  match_fields : list string;
  retry_max : Z;
  retry_backoff_seconds : Q
}.
End MatchConfig.

Module NotifyConfig.
Record t := mk {
  discord_webhook_url : option string;
  discord_bot_token : option string;
  discord_channel_id : option string;
  discord_client_enabled : bool;
  dry_run : bool
}.
End NotifyConfig.

(** [SamConfig], [RssConfig], [DodConfig], [NsfConfig] and [NihConfig]
    share the two flags the orchestrator reads. *)
Module SourceConfig.
Record t := mk {
  enabled : bool;
  fallback_only : bool
}.
End SourceConfig.

Module AppConfig.
Record t := mk {
  match_ : MatchConfig.t;
  notify : NotifyConfig.t;
  sam : SourceConfig.t;
  rss : SourceConfig.t;
  dod : SourceConfig.t;
  nsf : SourceConfig.t;
  nih : SourceConfig.t;
  fail_on_no_results : bool
}.
End AppConfig.

(** ** matcher.py *)

(** [Evaluation.reason]: the source's strings [agency_filtered], [no_text],
    [excluded_keyword:<kw>], [score<<min>] and [source_whitelist], kept
    structured. *)
Inductive reason :=
  | agency_filtered
  | no_text
  | excluded_keyword (kw : string)
  | score_below (min_score : Z)
  | source_whitelist.

Module Evaluation.
Record t := mk {
  opportunity : Opportunity.t;
  score : nat;
  matched_keywords : list string;
  reason : option reason
}.
End Evaluation.

Module MatchResult.
Record t := mk {
  matches : list Match.t;
  skipped : nat;
  evaluations : list Evaluation.t
}.
End MatchResult.

(** What [getattr(opportunity, name, None)] can give: [None], a [str], the
    dict of [raw], or some other object, of which only the truth value
    matters. *)
Inductive attr :=
  | AttrNone
  | AttrStr (s : string)
  | AttrDict (d : dict)
  | AttrObject (truthy : bool).

(** What [getattr] finds under a name that is not a field of the dataclass:
    an attribute of the class, such as [__doc__] and [__module__] (strings),
    [__slots__], [__class__] and the methods (other objects), or nothing,
    which is [AttrNone]. Which names the class has depends on the Python
    that runs the program. *)
Class ClassAttrs := class_attr : string -> attr.

Definition attr_of_option (o : option string) : attr :=
  match o with Some s => AttrStr s | None => AttrNone end.

(** [getattr(opportunity, field_name, None)]: the fields of the dataclass,
    which come first in the lookup, then the attributes of the class; a
    name under which nothing is found gives the default. *)
Definition getattr {attrs : ClassAttrs} (o : Opportunity.t) (field_name : string) : attr :=
  if String.eqb field_name "id" then AttrStr (Opportunity.id o)
  else if String.eqb field_name "source" then attr_of_option (Opportunity.source o)
  else if String.eqb field_name "solicitation_title"
    then AttrStr (Opportunity.solicitation_title o)
  else if String.eqb field_name "solicitation_number"
    then attr_of_option (Opportunity.solicitation_number o)
  else if String.eqb field_name "agency" then attr_of_option (Opportunity.agency o)
  else if String.eqb field_name "branch" then attr_of_option (Opportunity.branch o)
  else if String.eqb field_name "open_date" then attr_of_option (Opportunity.open_date o)
  else if String.eqb field_name "close_date" then attr_of_option (Opportunity.close_date o)
  else if String.eqb field_name "topic_title" then attr_of_option (Opportunity.topic_title o)
  else if String.eqb field_name "topic_number"
    then attr_of_option (Opportunity.topic_number o)
  else if String.eqb field_name "topic_description"
    then attr_of_option (Opportunity.topic_description o)
  else if String.eqb field_name "subtopic_title"
    then attr_of_option (Opportunity.subtopic_title o)
  else if String.eqb field_name "subtopic_description"
    then attr_of_option (Opportunity.subtopic_description o)
  else if String.eqb field_name "url" then attr_of_option (Opportunity.url o)
  else if String.eqb field_name "raw" then AttrDict (Opportunity.raw o)
  else class_attr field_name.

(** The loop of [build_text]: the truthy attribute values, in the order of
    [match_fields]. *)
Fixpoint collect_fields {attrs : ClassAttrs} (o : Opportunity.t) (match_fields : list string)
    : list attr :=
  match match_fields with
  | [] => []
  | field_name :: rest =>
      match getattr o field_name with
      | AttrNone => collect_fields o rest
      | AttrStr s =>
          if Str.truthy s then AttrStr s :: collect_fields o rest
          else collect_fields o rest
      | AttrDict d =>
          match d with
          | [] => collect_fields o rest
          | _ :: _ => AttrDict d :: collect_fields o rest
          end
      | AttrObject truthy =>
          if truthy then AttrObject truthy :: collect_fields o rest
          else collect_fields o rest
      end
  end.

(** ["\n".join(fields)]: a [TypeError] when an item is not a [str]. *)
Fixpoint join_lines (fields : list attr) : result (list string) :=
  match fields with
  | [] => Ok []
  | AttrStr s :: rest => let* ss := join_lines rest in Ok (s :: ss)
  | _ :: _ => Raise (Exn TypeError "sequence item: expected str instance")
  end.

Definition newline : string := String "010" EmptyString.

(** [build_text(opportunity, config)] *)
Definition build_text {attrs : ClassAttrs}
    (o : Opportunity.t) (config : AppConfig.t) : result string :=
  let fields := collect_fields o (MatchConfig.match_fields (AppConfig.match_ config)) in
  let* parts := join_lines fields in
  Ok (Str.lower (Str.join newline parts)).

(** A [for] loop whose body may raise: the accumulator is threaded through
    the items in order and the first exception ends the loop. *)
Fixpoint for_each {S A : Type} (body : S -> A -> result S) (acc : S) (l : list A)
    : result S :=
  match l with
  | [] => Ok acc
  | a :: l' => let* acc' := body acc a in for_each body acc' l'
  end.

(** [bool(x)] for [x : str | None]. *)
Definition opt_truthy (o : option string) : bool :=
  match o with Some s => Str.truthy s | None => false end.

(** [x or ""] for [x : str | None]. *)
Definition or_empty (o : option string) : string := default "" o.

(** [[kw for kw, pattern in zip(keywords, compiled) if pattern.search(text)]] *)
Fixpoint matching_keywords (text : string) (keywords : list string)
    (compiled : list Re.pattern) : list string :=
  match keywords, compiled with
  | kw :: keywords', pattern :: compiled' =>
      if Re.search pattern text
      then kw :: matching_keywords text keywords' compiled'
      else matching_keywords text keywords' compiled'
  | _, _ => []
  end.

(** The first test of the loop body: a non-empty agency allow-list that
    does not hold the record's upper-cased agency. *)
Definition agency_rejected (config : AppConfig.t) (o : Opportunity.t) : bool :=
  let agencies := MatchConfig.agencies (AppConfig.match_ config) in
  match agencies with
  | [] => false
  | _ :: _ => negb (bool_decide (Str.upper (or_empty (Opportunity.agency o)) ∈ agencies))
  end.

Section match_loop.
Variable config : AppConfig.t.
Variables keywords excludes : list string.
Variable always_include : gset string.
Variables compiled compiled_excludes : list Re.pattern.

(** [skipped += 1; evaluations.append(ev); continue] *)
Definition skip (acc : MatchResult.t) (ev : Evaluation.t) : MatchResult.t :=
  MatchResult.mk (MatchResult.matches acc)
                 (S (MatchResult.skipped acc))
                 (MatchResult.evaluations acc ++ [ev]).

(** [matches.append(m); evaluations.append(ev)] *)
Definition accept (acc : MatchResult.t) (m : Match.t) (ev : Evaluation.t)
    : MatchResult.t :=
  MatchResult.mk (MatchResult.matches acc ++ [m])
                 (MatchResult.skipped acc)
                 (MatchResult.evaluations acc ++ [ev]).

(** One iteration of the loop of [match_opportunities]. *)
Definition match_one {attrs : ClassAttrs}
    (acc : MatchResult.t) (opportunity : Opportunity.t)
    : result MatchResult.t :=
  let min_score := MatchConfig.min_score (AppConfig.match_ config) in
  let source := Str.lower (or_empty (Opportunity.source opportunity)) in
  let whitelisted := bool_decide (source ∈ always_include) in
  if agency_rejected config opportunity then
    Ok (skip acc (Evaluation.mk opportunity 0 [] (Some agency_filtered)))
  else
    let* text := build_text opportunity config in
    if negb (Str.truthy text) && negb whitelisted then
      Ok (skip acc (Evaluation.mk opportunity 0 [] (Some no_text)))
    else
      let excluded :=
        if Str.truthy text then _first_excluded text compiled_excludes excludes
        else None in
      if opt_truthy excluded then
        Ok (skip acc (Evaluation.mk opportunity 0 []
                        (Some (excluded_keyword (or_empty excluded)))))
      else
        let matched_keywords :=
          if Str.truthy text then matching_keywords text keywords compiled
          else [] in
        let score := length matched_keywords in
        if (Z.of_nat score <? min_score) && negb whitelisted then
          Ok (skip acc (Evaluation.mk opportunity score matched_keywords
                          (Some (score_below min_score))))
        else
          Ok (accept acc
                (Match.mk opportunity score matched_keywords text)
                (Evaluation.mk opportunity score matched_keywords
                   (if min_score <=? Z.of_nat score then None
                    else Some source_whitelist))).
End match_loop.

(** [match_opportunities(opportunities, config)] *)
Definition match_opportunities {attrs : ClassAttrs} (opportunities : list Opportunity.t)
    (config : AppConfig.t) : result MatchResult.t :=
  let keywords := map Str.lower (MatchConfig.keywords (AppConfig.match_ config)) in
  let excludes :=
    map Str.lower (MatchConfig.exclude_keywords (AppConfig.match_ config)) in
  let always_include : gset string :=
    list_to_set
      (map Str.lower (MatchConfig.always_include_sources (AppConfig.match_ config))) in
  let* compiled := mapM _compile_keyword keywords in
  let* compiled_excludes := mapM _compile_keyword excludes in
  for_each (match_one config keywords excludes always_include compiled compiled_excludes)
           (MatchResult.mk [] 0 []) opportunities.

(** ** sbir.py: from solicitation records to opportunities *)

(** [_build_id(solicitation_number, topic_number, subtopic_title)] *)
Definition _build_id (solicitation_number topic_number subtopic_title : option string)
    : string :=
  let parts :=
    flat_map (fun part : option string => if opt_truthy part then [or_empty part] else [])
             [solicitation_number; topic_number; subtopic_title] in
  match parts with
  | [] => "unknown"
  | _ :: _ => Str.join "::" parts
  end.

(** The keyword arguments [_base_fields] prepares for [Opportunity]. *)
Module BaseFields.
Record t := mk {
  solicitation_title : string;
  solicitation_number : option string;
  agency : option string;
  branch : option string;
  open_date : option string;
  close_date : option string
}.
End BaseFields.

Section sbir.
(** The built-in [str(value)] on a value that is neither [None] nor a
    [str]; the source only strips its result. *)
Variable py_str : json -> string.

Definition nonempty (s : string) : option string :=
  if Str.truthy s then Some s else None.

(** [_to_str(value)], where [value] comes from [d.get(key)]. *)
Definition _to_str (value : option json) : option string :=
  match value with
  | None => None
  | Some JNull => None
  | Some (JStr s) => nonempty (Str.strip s)
  | Some v => nonempty (Str.strip (py_str v))
  end.

(** [_base_fields(solicitation)] *)
Definition _base_fields (solicitation : dict) : BaseFields.t :=
  BaseFields.mk
    (or_empty (_to_str (dict_get solicitation "solicitation_title")))
    (_to_str (dict_get solicitation "solicitation_number"))
    (_to_str (dict_get solicitation "agency"))
    (_to_str (dict_get solicitation "branch"))
    (_to_str (dict_get solicitation "open_date"))
    (_to_str (dict_get solicitation "close_date")).

Definition url_keys : list string :=
  ["sbir_subtopic_link"; "sbir_topic_link"; "sbir_solicitation_link";
   "solicitation_agency_url"].

(** The inner loop of [_best_url] over the four link keys. *)
Fixpoint first_url (source : dict) (keys : list string) : option string :=
  match keys with
  | [] => None
  | key :: keys' =>
      let value := _to_str (dict_get source key) in
      if opt_truthy value then value else first_url source keys'
  end.

(** The outer loop of [_best_url]; [None] and the empty dict are skipped. *)
Fixpoint best_url_in (sources : list (option dict)) : option string :=
  match sources with
  | [] => None
  | None :: sources' => best_url_in sources'
  | Some [] :: sources' => best_url_in sources'
  | Some d :: sources' =>
      match first_url d url_keys with
      | Some value => Some value
      | None => best_url_in sources'
      end
  end.

(** [_best_url(solicitation, topic, subtopic)] *)
Definition _best_url (solicitation : dict) (topic subtopic : option dict)
    : option string :=
  best_url_in [subtopic; topic; Some solicitation].

(** [bool(d)] for [d : dict | None]. *)
Definition dict_truthy (d : option dict) : bool :=
  match d with Some (_ :: _) => true | _ => false end.

Definition json_of_opt_dict (d : option dict) : json :=
  match d with Some f => JObj f | None => JNull end.

(** [_opportunity_from_topic(base_kwargs, solicitation, topic, subtopic)] *)
Definition _opportunity_from_topic (base_kwargs : BaseFields.t)
    (solicitation topic : dict) (subtopic : option dict) : Opportunity.t :=
  let topic_title := _to_str (dict_get topic "topic_title") in
  let topic_number := _to_str (dict_get topic "topic_number") in
  let topic_description := _to_str (dict_get topic "topic_description") in
  let subtopic_title :=
    if dict_truthy subtopic
    then _to_str (dict_get (default [] subtopic) "subtopic_title") else None in
  let subtopic_description :=
    if dict_truthy subtopic
    then _to_str (dict_get (default [] subtopic) "subtopic_description") else None in
  let url := _best_url solicitation (Some topic) subtopic in
  let identifier :=
    _build_id (BaseFields.solicitation_number base_kwargs) topic_number subtopic_title in
  Opportunity.mk identifier (Some "sbir")
    (BaseFields.solicitation_title base_kwargs)
    (BaseFields.solicitation_number base_kwargs)
    (BaseFields.agency base_kwargs)
    (BaseFields.branch base_kwargs)
    (BaseFields.open_date base_kwargs)
    (BaseFields.close_date base_kwargs)
    topic_title topic_number topic_description
    subtopic_title subtopic_description url
    [("solicitation", JObj solicitation); ("topic", JObj topic);
     ("subtopic", json_of_opt_dict subtopic)].

(** [x or []] followed by the [isinstance(x, list)] test. *)
Definition list_or_empty (value : option json) : list json :=
  match value with Some (JArr items) => items | _ => [] end.

(** The body of the loop over [topics] in [iter_opportunities]. *)
Definition opportunities_of_topic (base_kwargs : BaseFields.t) (solicitation : dict)
    (topic : json) : list Opportunity.t :=
  match topic with
  | JObj t =>
      match list_or_empty (dict_get t "subtopics") with
      | [] => [_opportunity_from_topic base_kwargs solicitation t None]
      | subtopics =>
          flat_map (fun subtopic =>
                      match subtopic with
                      | JObj s =>
                          [_opportunity_from_topic base_kwargs solicitation t (Some s)]
                      | _ => []
                      end) subtopics
      end
  | _ => []
  end.

(** [list(iter_opportunities(solicitation))] *)
Definition iter_opportunities (solicitation : dict) : list Opportunity.t :=
  let topics := list_or_empty (dict_get solicitation "solicitation_topics") in
  let base_kwargs := _base_fields solicitation in
  match topics with
  | [] =>
      [Opportunity.mk
         (_build_id (BaseFields.solicitation_number base_kwargs) None None)
         (Some "sbir")
         (BaseFields.solicitation_title base_kwargs)
         (BaseFields.solicitation_number base_kwargs)
         (BaseFields.agency base_kwargs)
         (BaseFields.branch base_kwargs)
         (BaseFields.open_date base_kwargs)
         (BaseFields.close_date base_kwargs)
         None None None None None
         (_best_url solicitation None None)
         solicitation]
  | _ :: _ => flat_map (opportunities_of_topic base_kwargs solicitation) topics
  end.
End sbir.

(** ** sbir.py: the retry loop of [_fetch_page] *)

Module ApiResponse.
Record t := mk {
  records : list dict;
  source_url : string
}.
End ApiResponse.

Definition dicts_of (items : list json) : list dict :=
  flat_map (fun item => match item with JObj d => [d] | _ => [] end) items.

(** The loop of [_extract_records] over the candidate keys of a dict. *)
Fixpoint first_list_under (data : dict) (keys : list string) : list dict :=
  match keys with
  | [] => []
  | key :: keys' =>
      match dict_get data key with
      | Some (JArr value) => dicts_of value
      | _ => first_list_under data keys'
      end
  end.

(** [_extract_records(data)] *)
Definition _extract_records (data : json) : list dict :=
  match data with
  | JArr items => dicts_of items
  | JObj d => first_list_under d ["solicitations"; "results"; "data"; "items"]
  | _ => []
  end.

(** Python's [max(a, b)] on rationals: [b] when it is strictly larger. *)
Definition qmax (a b : Q) : Q := if Qle_bool b a then a else b.

(** [backoff * (2**attempt)]. Scaling by a power of two is exact in binary
    floating point, so the delays are modelled as rationals. *)
Definition backoff_delay (backoff : Q) (attempt : nat) : Q :=
  Qmult backoff (inject_Z (2 ^ Z.of_nat attempt)).

(** [status in {429, 500, 502, 503, 504}] *)
Definition retryable_status (status : Z) : bool :=
  bool_decide (status ∈ [429; 500; 502; 503; 504]).

(** What one call of [_fetch_page] did: its result, the arguments of its
    calls to [time.sleep] in order (a call that raised included), and the
    number of GET requests made. *)
Module FetchRun.
Record t := mk {
  outcome : result ApiResponse.t;
  slept : list Q;
  attempts : nat
}.
End FetchRun.

Section fetch_page.
(** [http attempt]: what the GET of iteration [attempt] gives, either the
    decoded body with the final URL, or the exception raised inside the
    [try] block. *)
Variable http : nat -> result (json * string).
(** [sleep delay]: what [time.sleep(delay)] raises, if anything. It is
    called inside the [except] blocks, so what it raises leaves
    [_fetch_page]. *)
Variable sleep : Q -> option exn.
Variable retries : nat.
Variable backoff : Q.

(** The [for attempt in range(retries + 1)] loop, over the attempts still
    to make, followed by the statements after the loop. *)
Fixpoint fetch_loop (todo : list nat) (slept : list Q) (made : nat)
    (last_error : option exn) : FetchRun.t :=
  match todo with
  | [] =>
      match last_error with
      | Some e => FetchRun.mk (Raise e) slept made
      | None =>
          FetchRun.mk (Raise (Exn RuntimeError "SBIR API request failed")) slept made
      end
  | attempt :: todo' =>
      match http attempt with
      | Ok (data, url) =>
          FetchRun.mk (Ok (ApiResponse.mk (_extract_records data) url)) slept (S made)
      | Raise exc =>
          match exn_cls exc with
          | HTTPStatusError status =>
              if retryable_status status && (attempt <? retries)%nat then
                let delay := backoff_delay backoff attempt in
                let delay := if status =? 429 then qmax delay 10 else delay in
                match sleep delay with
                | None => fetch_loop todo' (slept ++ [delay]) (S made) (Some exc)
                | Some failure => FetchRun.mk (Raise failure) (slept ++ [delay]) (S made)
                end
              else FetchRun.mk (Raise exc) slept (S made)
          | RequestError =>
              if (attempt <? retries)%nat then
                let delay := backoff_delay backoff attempt in
                match sleep delay with
                | None => fetch_loop todo' (slept ++ [delay]) (S made) (Some exc)
                | Some failure => FetchRun.mk (Raise failure) (slept ++ [delay]) (S made)
                end
              else FetchRun.mk (Raise exc) slept (S made)
          | _ => FetchRun.mk (Raise exc) slept (S made)
          end
      end
  end.
End fetch_page.

(** [_fetch_page(base_url, params, config)] against the server [http]. *)
Definition _fetch_page (sleep : Q -> option exn) (config : AppConfig.t)
    (http : nat -> result (json * string)) : FetchRun.t :=
  let retries := Z.to_nat (Z.max 0 (MatchConfig.retry_max (AppConfig.match_ config))) in
  let backoff :=
    qmax (1 # 10) (MatchConfig.retry_backoff_seconds (AppConfig.match_ config)) in
  fetch_loop http sleep retries backoff (seq 0 (retries + 1)) [] 0 None.

(** [time.sleep] as CPython has it: the delay is turned into a signed
    64-bit number of nanoseconds, and one that does not fit is refused
    with an [OverflowError]. The delays of the loop are positive. *)
Definition time_sleep (delay : Q) : option exn :=
  if Qle_bool (inject_Z (2 ^ 63)) (Qmult delay (inject_Z (10 ^ 9)))
  then Some (Exn OtherError "OverflowError: timestamp too large to convert to C _PyTime_t")
  else None.

(** ** sources.py *)

Module SourceReport.
Record t := mk {
  name : string;
  count : nat
}.
End SourceReport.

(** The adapters, in the order [collect_opportunities] consults them. *)
Inductive adapter := sbir | dod_darpa | nsf_seedfund | nih_guide | grants_rss | sam.

Global Instance adapter_eq_dec : EqDecision adapter.
Proof. solve_decision. Defined.

(** What the adapters would return or raise if called during this run. *)
Module Adapters.
Record t := mk {
  fetch_solicitations : result (list dict);
  fetch_dod_darpa_opportunities : result (list Opportunity.t);
  fetch_nsf_seedfund_opportunities : result (list Opportunity.t);
  fetch_nih_guide_opportunities : result (list Opportunity.t);
  fetch_rss_opportunities : result (list Opportunity.t);
  fetch_sam_opportunities : result (list Opportunity.t)
}.
End Adapters.

(** The three lists [collect_opportunities] fills, and the adapters it has
    called so far with [true] for a call that returned ([calls] is the
    trace of the run, not a variable of the source). *)
Module Collected.
Record t := mk {
  opportunities : list Opportunity.t;
  reports : list SourceReport.t;
  errors : list string;
  calls : list (adapter * bool)
}.
End Collected.

(** The [name] each adapter reports under, and the label its error
    message is prefixed with. *)
Definition source_name (who : adapter) : string :=
  match who with
  | sbir => "sbir"
  | dod_darpa => "dod_darpa"
  | nsf_seedfund => "nsf_seedfund"
  | nih_guide => "nih_guide"
  | grants_rss => "grants_rss"
  | sam => "sam"
  end.

Definition error_label (who : adapter) : string :=
  match who with
  | sbir => "SBIR.gov"
  | dod_darpa => "DARPA topics"
  | nsf_seedfund => "NSF solicitations"
  | nih_guide => "NIH Guide"
  | grants_rss => "Grants.gov RSS"
  | sam => "SAM.gov"
  end.

(** One [try: ... except Exception as exc: ...] block: on success the
    records and a report are appended, on failure the labelled message;
    the boolean is the block's [*_failed] flag. *)
Definition try_source (who : adapter) (fetched : result (list Opportunity.t))
    (st : Collected.t) : Collected.t * bool :=
  match fetched with
  | Ok opps =>
      (Collected.mk (Collected.opportunities st ++ opps)
                    (Collected.reports st
                     ++ [SourceReport.mk (source_name who) (length opps)])
                    (Collected.errors st)
                    (Collected.calls st ++ [(who, true)]),
       false)
  | Raise exc =>
      (Collected.mk (Collected.opportunities st)
                    (Collected.reports st)
                    (Collected.errors st ++ [error_label who +:+ ": " +:+ exn_msg exc])
                    (Collected.calls st ++ [(who, false)]),
       true)
  end.

(** A guarded block: [if cond: try ...], the flag staying [False] when the
    block is not entered. *)
Definition guarded (cond : bool) (who : adapter)
    (fetched : result (list Opportunity.t)) (st : Collected.t) : Collected.t * bool :=
  if cond then try_source who fetched st else (st, false).

Module CollectRun.
Record t := mk {
  outcome : result (list Opportunity.t * list SourceReport.t * list string);
  calls : list (adapter * bool)
}.
End CollectRun.

Section collect.
Variable py_str : json -> string.

(** What calling an adapter gives in [world]; for the primary, the
    solicitations flattened into opportunities. *)
Definition fetched (world : Adapters.t) (who : adapter) : result (list Opportunity.t) :=
  match who with
  | sbir =>
      let* solicitations := Adapters.fetch_solicitations world in
      Ok (flat_map (iter_opportunities py_str) solicitations)
  | dod_darpa => Adapters.fetch_dod_darpa_opportunities world
  | nsf_seedfund => Adapters.fetch_nsf_seedfund_opportunities world
  | nih_guide => Adapters.fetch_nih_guide_opportunities world
  | grants_rss => Adapters.fetch_rss_opportunities world
  | sam => Adapters.fetch_sam_opportunities world
  end.

(** The six [try] blocks of [collect_opportunities], in source order. *)
Definition run_sources (config : AppConfig.t) (world : Adapters.t) : Collected.t :=
  let st := Collected.mk [] [] [] [] in
  let '(st, sbir_failed) := try_source sbir (fetched world sbir) st in
  let '(st, dod_failed) :=
    guarded (SourceConfig.enabled (AppConfig.dod config)
             && (sbir_failed || negb (SourceConfig.fallback_only (AppConfig.dod config))))
      dod_darpa (fetched world dod_darpa) st in
  let '(st, nsf_failed) :=
    guarded (SourceConfig.enabled (AppConfig.nsf config)
             && (sbir_failed || negb (SourceConfig.fallback_only (AppConfig.nsf config))))
      nsf_seedfund (fetched world nsf_seedfund) st in
  let '(st, nih_failed) :=
    guarded (SourceConfig.enabled (AppConfig.nih config)
             && (sbir_failed || negb (SourceConfig.fallback_only (AppConfig.nih config))))
      nih_guide (fetched world nih_guide) st in
  let '(st, rss_failed) :=
    guarded (SourceConfig.enabled (AppConfig.rss config)
             && (sbir_failed || negb (SourceConfig.fallback_only (AppConfig.rss config))))
      grants_rss (fetched world grants_rss) st in
  let '(st, _) :=
    guarded (SourceConfig.enabled (AppConfig.sam config)
             && (sbir_failed || rss_failed || dod_failed || nsf_failed || nih_failed
                 || negb (SourceConfig.fallback_only (AppConfig.sam config))))
      sam (fetched world sam) st in
  st.

(** [collect_opportunities(config)], the adapters answering as [world]
    says: the six blocks, then the [fail_on_no_results] test. *)
Definition collect_opportunities (config : AppConfig.t) (world : Adapters.t)
    : CollectRun.t :=
  let st := run_sources config world in
  match Collected.opportunities st, Collected.errors st with
  | [], _ :: _ =>
      if AppConfig.fail_on_no_results config
      then CollectRun.mk
             (Raise (Exn RuntimeError
                       ("All sources failed: " +:+ Str.join "; " (Collected.errors st))))
             (Collected.calls st)
      else CollectRun.mk
             (Ok (Collected.opportunities st, Collected.reports st, Collected.errors st))
             (Collected.calls st)
  | _, _ =>
      CollectRun.mk
        (Ok (Collected.opportunities st, Collected.reports st, Collected.errors st))
        (Collected.calls st)
  end.
End collect.

(** ** state.py *)

(** [State.seen_ids]. Only [str] members are kept: an opportunity id is a
    [str], and no member of another type compares equal to one. *)
Module State.
Record t := mk { seen_ids : gset string }.
End State.

(** The state file, by what [path.exists()] and [json.loads(path.read_text())]
    make of it: absent, text that is not JSON, or JSON. A file that cannot
    be read as text is not among them. *)
Inductive file :=
  | Missing
  | Unparsable
  | Parsed (data : json).

Fixpoint chars_of (s : string) : list string :=
  match s with
  | EmptyString => []
  | String c s' => String c EmptyString :: chars_of s'
  end.

(** Building a set from the items of a list: lists and dicts are
    unhashable. The seen ids are kept as a set of strings, which is what
    [save_state] writes; a member that is null, a bool or a number has no
    place in it and is passed over. *)
Fixpoint set_of_items (items : list json) : result (gset string) :=
  match items with
  | [] => Ok ∅
  | JStr s :: items' => let* rest := set_of_items items' in Ok ({[ s ]} ∪ rest)
  | JArr _ :: _ => Raise (Exn TypeError "unhashable type: 'list'")
  | JObj _ :: _ => Raise (Exn TypeError "unhashable type: 'dict'")
  | _ :: items' => set_of_items items'
  end.

(** [set(value)]: the items of a list, the characters of a string, the keys
    of a dict; anything else is not iterable. *)
Definition py_set (value : json) : result (gset string) :=
  match value with
  | JArr items => set_of_items items
  | JStr s => Ok (list_to_set (chars_of s))
  | JObj d => Ok (list_to_set (map fst d))
  | JNull => Raise (Exn TypeError "'NoneType' object is not iterable")
  | JBool _ => Raise (Exn TypeError "'bool' object is not iterable")
  | JNum _ => Raise (Exn TypeError "'int' object is not iterable")
  end.

(** [load_state(path)] *)
Definition load_state (f : file) : result State.t :=
  match f with
  | Missing => Ok (State.mk ∅)
  | Unparsable => Ok (State.mk ∅)
  | Parsed (JObj data) =>
      let* seen := py_set (default (JArr []) (dict_get data "seen_ids")) in
      Ok (State.mk seen)
  | Parsed _ => Ok (State.mk ∅)
  end.

(** [save_state(path, state)]: the file afterwards. *)
Definition save_state (state : State.t) : file :=
  Parsed (JObj [("seen_ids",
                 JArr (map JStr (merge_sort String.le (elements (State.seen_ids state)))))]).

(** ** notify.py *)

(** The Discord side of a run: what posting a message body through the
    webhook, or through the bot (client library or HTTP fallback), raises,
    if anything. *)
Module Discord.
Record t := mk {
  post_webhook : string -> option exn;
  post_bot : string -> option exn
}.
End Discord.

(** [_format_match(match)] *)
Definition _format_match (m : Match.t) : string :=
  let opp := Match.opportunity m in
  let source :=
    if opt_truthy (Opportunity.source opp) then or_empty (Opportunity.source opp)
    else "sbir" in
  let title :=
    if opt_truthy (Opportunity.topic_title opp) then or_empty (Opportunity.topic_title opp)
    else Opportunity.solicitation_title opp in
  let agency := or_empty (Opportunity.agency opp) in
  let close_date := or_empty (Opportunity.close_date opp) in
  let url := or_empty (Opportunity.url opp) in
  let keyword_list := Str.join ", " (Match.matched_keywords m) in
  Str.strip ("- [" +:+ source +:+ "] **" +:+ title +:+ "** (" +:+ agency +:+ ") close "
             +:+ close_date +:+ " score " +:+ pretty (Match.score m)
             +:+ " [" +:+ keyword_list +:+ "] " +:+ url).

(** The loop of [_build_payloads]: [lines] is the message being filled,
    [len] its running length, [payloads] the messages already closed. *)
Fixpoint build_payloads_loop (matches : list Match.t) (lines : list string)
    (len : nat) (payloads : list string) : list string :=
  match matches with
  | [] =>
      match lines with
      | [] => payloads
      | _ :: _ => payloads ++ [Str.join newline lines]
      end
  | m :: matches' =>
      let line := _format_match m in
      if (1800 <? len + String.length line + 1)%nat then
        let header := "**SBIR matches (cont.):**" in
        build_payloads_loop matches' ([header] ++ [line])
          (String.length header + (String.length line + 1))
          (payloads ++ [Str.join newline lines])
      else
        build_payloads_loop matches' (lines ++ [line])
          (len + (String.length line + 1)) payloads
  end.

(** [_build_payloads(matches)]: the [content] of each payload. *)
Definition _build_payloads (matches : list Match.t) : list string :=
  let header := "**SBIR matches:**" in
  build_payloads_loop matches [header] (String.length header) [].

(** A loop of posts that stops at the first one that raises. *)
Fixpoint post_all (post : string -> option exn) (payloads : list string) : result unit :=
  match payloads with
  | [] => Ok tt
  | payload :: payloads' =>
      match post payload with
      | Some exc => Raise exc
      | None => post_all post payloads'
      end
  end.

(** [_send_payloads(payloads, config)] *)
Definition _send_payloads (payloads : list string) (config : AppConfig.t)
    (discord : Discord.t) : result nat :=
  let cfg := AppConfig.notify config in
  if opt_truthy (NotifyConfig.discord_webhook_url cfg) then
    let* _ := post_all (Discord.post_webhook discord) payloads in
    Ok (length payloads)
  else if opt_truthy (NotifyConfig.discord_bot_token cfg)
          && opt_truthy (NotifyConfig.discord_channel_id cfg) then
    let* _ := post_all (Discord.post_bot discord) payloads in
    Ok (length payloads)
  else
    Raise (Exn RuntimeError
             "Discord credentials not configured. Set DISCORD_WEBHOOK_URL or DISCORD_TOKEN + DISCORD_CHANNEL_ID.").

Module NotifyResult.
Record t := mk { sent : nat; skipped : nat }.
End NotifyResult.

(** [notify(matches, config)] *)
Definition notify (matches : list Match.t) (config : AppConfig.t) (discord : Discord.t)
    : result NotifyResult.t :=
  match matches with
  | [] => Ok (NotifyResult.mk 0 0)
  | _ :: _ =>
      if NotifyConfig.dry_run (AppConfig.notify config) then
        Ok (NotifyResult.mk 0 (length matches))
      else
        let payloads := _build_payloads matches in
        let* sent := _send_payloads payloads config discord in
        Ok (NotifyResult.mk sent 0)
  end.

(** ** cli.py *)

(** [_filter_new(matches, state)] *)
Fixpoint _filter_new (matches : list Match.t) (state : State.t) : list Match.t :=
  match matches with
  | [] => []
  | m :: matches' =>
      if bool_decide (Opportunity.id (Match.opportunity m) ∉ State.seen_ids state)
      then m :: _filter_new matches' state
      else _filter_new matches' state
  end.

(** [_remember(state, matches)]: the state object after the loop. *)
Fixpoint _remember (state : State.t) (matches : list Match.t) : State.t :=
  match matches with
  | [] => state
  | m :: matches' =>
      _remember (State.mk ({[ Opportunity.id (Match.opportunity m) ]} ∪ State.seen_ids state))
                matches'
  end.

(** [RunSummary]; [evaluations] holds the evaluations that [_explain]
    renders (empty unless [explain] is set), not their JSON rendering. *)
Module RunSummary.
Record t := mk {
  total_opportunities : nat;
  matched : nat;
  new_matches : nat;
  skipped : nat;
  sources : list string;
  errors : list string;
  evaluations : list Evaluation.t
}.
End RunSummary.

(** Everything a run touches outside the process. *)
Module World.
Record t := mk {
  adapters : Adapters.t;
  state_file : file;
  discord : Discord.t
}.
End World.

(** What a run leaves behind: its summary or the exception that ended it,
    the [State] object as it stands (if [load_state] returned one), the
    state file, and how many times [save_state] ran. *)
Module Run.
Record t := mk {
  outcome : result RunSummary.t;
  state : option State.t;
  state_file : file;
  saves : nat
}.
End Run.

Section run.
Variable py_str : json -> string.

(** [run(config, explain)] in the world [w]. *)
Definition run {attrs : ClassAttrs}
    (config : AppConfig.t) (explain : bool) (w : World.t) : Run.t :=
  let disk := World.state_file w in
  match CollectRun.outcome (collect_opportunities py_str config (World.adapters w)) with
  | Raise exc => Run.mk (Raise exc) None disk 0
  | Ok (opportunities, reports, errors) =>
      match load_state disk with
      | Raise exc => Run.mk (Raise exc) None disk 0
      | Ok state =>
          match match_opportunities opportunities config with
          | Raise exc => Run.mk (Raise exc) (Some state) disk 0
          | Ok match_result =>
              let new_matches := _filter_new (MatchResult.matches match_result) state in
              let summary :=
                RunSummary.mk
                  (length opportunities)
                  (length (MatchResult.matches match_result))
                  (length new_matches)
                  (MatchResult.skipped match_result)
                  (map (fun report =>
                          SourceReport.name report +:+ ":"
                          +:+ pretty (SourceReport.count report)) reports)
                  errors
                  (if explain then MatchResult.evaluations match_result else []) in
              match new_matches with
              | [] => Run.mk (Ok summary) (Some state) disk 0
              | _ :: _ =>
                  match notify new_matches config (World.discord w) with
                  | Raise exc => Run.mk (Raise exc) (Some state) disk 0
                  | Ok _ =>
                      let state' := _remember state new_matches in
                      Run.mk (Ok summary) (Some state') (save_state state') 1
                  end
              end
          end
      end
  end.
End run.

(** * Notions used in the statements

    The specification's own readings of the rules (to set against the
    code), names for the values the source computes inline, and the
    concrete configurations and worlds of the examples. *)

(** ** The keyword rule *)

(** The specification's words, to set against [_compile_keyword]: a short
    alphanumeric keyword is anchored at word boundaries, any other keyword
    is its literal text. *)
Definition spec_compile_keyword (keyword : string) : Re.pattern :=
  let literal := map Re.Lit (list_ascii_of_string keyword) in
  if Str.isalnum keyword && (String.length keyword <=? 3)%nat
  then (Re.WordBoundary :: literal ++ [Re.WordBoundary])%list
  else literal.

(** [bool(_compile_keyword(keyword).search(text))] *)
Definition keyword_found (keyword text : string) : result bool :=
  let* pattern := _compile_keyword keyword in Ok (Re.search pattern text).

(** The pattern made of the characters of [s], each a literal. *)
Definition lits (s : string) : Re.pattern := map Re.Lit (list_ascii_of_string s).

(** The text [_compile_keyword] ends up looking for, literally. *)
Definition compiled_literal (keyword : string) : string :=
  if Str.isalnum keyword && (String.length keyword <=? 3)%nat
  then "\b" +:+ keyword +:+ "\b"
  else keyword.

(** ** The matching loop *)

(** The names [match_opportunities] binds before its loop. *)
Definition cfg_keywords (config : AppConfig.t) : list string :=
  map Str.lower (MatchConfig.keywords (AppConfig.match_ config)).
Definition cfg_excludes (config : AppConfig.t) : list string :=
  map Str.lower (MatchConfig.exclude_keywords (AppConfig.match_ config)).
Definition cfg_always_include (config : AppConfig.t) : gset string :=
  list_to_set (map Str.lower (MatchConfig.always_include_sources (AppConfig.match_ config))).
Definition compiled_of (keywords : list string) : list Re.pattern :=
  map (fun kw => lits (compiled_literal kw)) keywords.

(** The record's source is in the whitelist. *)
Definition whitelisted (config : AppConfig.t) (o : Opportunity.t) : bool :=
  bool_decide (Str.lower (or_empty (Opportunity.source o)) ∈ cfg_always_include config).

(** The value of [excluded] in the loop body, for a record with text [text]. *)
Definition excluded_in (config : AppConfig.t) (text : string) : option string :=
  if Str.truthy text
  then _first_excluded text (compiled_of (cfg_excludes config)) (cfg_excludes config)
  else None.

(** The value of [matched_keywords] in the loop body. *)
Definition matched_in (config : AppConfig.t) (text : string) : list string :=
  if Str.truthy text
  then matching_keywords text (cfg_keywords config) (compiled_of (cfg_keywords config))
  else [].

(** A value [build_text] collects and cannot join: one that is truthy and
    not a [str]. *)
Definition unjoinable (value : attr) : bool :=
  match value with
  | AttrDict (_ :: _) => true
  | AttrObject true => true
  | _ => false
  end.

(** The fields of [Opportunity] that hold a [str] or [None]: all of them
    but [raw]. *)
Definition text_field_names : list string :=
  ["id"; "source"; "solicitation_title"; "solicitation_number"; "agency"; "branch";
   "open_date"; "close_date"; "topic_title"; "topic_number"; "topic_description";
   "subtopic_title"; "subtopic_description"; "url"].

(** The record reaches [matches.append]: none of the four [continue]
    branches of the loop body is taken. *)
Definition accepted_by {attrs : ClassAttrs}
    (config : AppConfig.t) (o : Opportunity.t) : bool :=
  negb (agency_rejected config o) &&
  match build_text o config with
  | Ok text =>
      (Str.truthy text || whitelisted config o)
      && negb (opt_truthy (excluded_in config text))
      && negb ((Z.of_nat (length (matched_in config text))
                <? MatchConfig.min_score (AppConfig.match_ config))
               && negb (whitelisted config o))
  | Raise _ => false
  end.

(** Some configured exclude keyword's compiled pattern matches the text. *)
Definition some_exclude_matches (config : AppConfig.t) (text : string) : bool :=
  existsb (fun kw => Str.occurs_ci (compiled_literal kw) text) (cfg_excludes config).

(** ** The orchestrator's trace *)

(** The adapters in the order [collect_opportunities] consults them. *)
Definition priority_order : list adapter :=
  [sbir; dod_darpa; nsf_seedfund; nih_guide; grants_rss; sam].

(** The adapters consulted strictly before [who]. *)
Definition earlier (who : adapter) : list adapter :=
  match who with
  | sbir => []
  | dod_darpa => [sbir]
  | nsf_seedfund => [sbir; dod_darpa]
  | nih_guide => [sbir; dod_darpa; nsf_seedfund]
  | grants_rss => [sbir; dod_darpa; nsf_seedfund; nih_guide]
  | sam => [sbir; dod_darpa; nsf_seedfund; nih_guide; grants_rss]
  end.

(** The two flags of a secondary adapter; the primary has none and always
    runs. *)
Definition source_flags (config : AppConfig.t) (who : adapter) : SourceConfig.t :=
  match who with
  | sbir => SourceConfig.mk true false
  | dod_darpa => AppConfig.dod config
  | nsf_seedfund => AppConfig.nsf config
  | nih_guide => AppConfig.nih config
  | grants_rss => AppConfig.rss config
  | sam => AppConfig.sam config
  end.

(** Reading the trace of a run: the adapter was called; it was called and
    raised. *)
Definition executed (log : list (adapter * bool)) (who : adapter) : bool :=
  bool_decide (who ∈ map fst log).
Definition failed (log : list (adapter * bool)) (who : adapter) : bool :=
  bool_decide ((who, false) ∈ log).

(** The specification's rule for a secondary adapter, in its words: enabled,
    and either not fallback-only or some adapter that executed strictly
    before it in priority order has failed. *)
Definition spec_should_execute (config : AppConfig.t) (log : list (adapter * bool))
    (who : adapter) : bool :=
  SourceConfig.enabled (source_flags config who)
  && (negb (SourceConfig.fallback_only (source_flags config who))
      || existsb (failed log) (earlier who)).

(** The records a call delivered, and the error line it left. *)
Definition records_of (r : result (list Opportunity.t)) : list Opportunity.t :=
  match r with Ok opps => opps | Raise _ => [] end.
Definition error_of (who : adapter) (r : result (list Opportunity.t)) : list string :=
  match r with
  | Ok _ => []
  | Raise exc => [error_label who +:+ ": " +:+ exn_msg exc]
  end.
Definition report_of (who : adapter) (r : result (list Opportunity.t))
    : list SourceReport.t :=
  match r with
  | Ok opps => [SourceReport.mk (source_name who) (length opps)]
  | Raise _ => []
  end.

(** The effect of one block on the accumulated lists, [cond] telling
    whether the block is entered. *)
Definition record_call (st : Collected.t) (who : adapter)
    (r : result (list Opportunity.t)) (cond : bool) : Collected.t :=
  Collected.mk
    (Collected.opportunities st ++ (if cond then records_of r else []))
    (Collected.reports st ++ (if cond then report_of who r else []))
    (Collected.errors st ++ (if cond then error_of who r else []))
    (Collected.calls st ++ (if cond then [(who, negb (raises r))] else [])).

Section collect_view.
Variable py_str : json -> string.
Variable config : AppConfig.t.
Variable world : Adapters.t.

(** The adapter raises if it is called in this world. *)
Definition fails (who : adapter) : bool := raises (fetched py_str world who).

(** The guard of the four middle blocks: only the primary's failure counts. *)
Definition primary_gate (who : adapter) : bool :=
  SourceConfig.enabled (source_flags config who)
  && (fails sbir || negb (SourceConfig.fallback_only (source_flags config who))).

(** The block of [who] is entered in this run. *)
Definition entered (who : adapter) : bool :=
  match who with
  | sbir => true
  | sam =>
      SourceConfig.enabled (AppConfig.sam config)
      && (fails sbir
          || primary_gate grants_rss && fails grants_rss
          || primary_gate dod_darpa && fails dod_darpa
          || primary_gate nsf_seedfund && fails nsf_seedfund
          || primary_gate nih_guide && fails nih_guide
          || negb (SourceConfig.fallback_only (AppConfig.sam config)))
  | _ => primary_gate who
  end.

End collect_view.

(** ** The retry schedule *)

(** The specification's schedule: the delay before the retry that follows
    a failed attempt is [backoff * 2^attempt], and at least ten seconds when
    the failure is an HTTP 429. *)
Definition retry_delay (backoff : Q) (failure : exn) (attempt : nat) : Q :=
  match exn_cls failure with
  | HTTPStatusError status =>
      if status =? 429 then qmax (backoff_delay backoff attempt) 10
      else backoff_delay backoff attempt
  | _ => backoff_delay backoff attempt
  end.

(** The delay that follows attempt [attempt], whose outcome was [r]. *)
Definition delay_after (backoff : Q) (r : result (json * string)) (attempt : nat) : Q :=
  match r with
  | Raise failure => retry_delay backoff failure attempt
  | Ok _ => 0
  end.

(** The attempt failed in a way the loop retries: a retryable status or a
    transport error, with attempts left. *)
Definition retried (retries : nat) (r : result (json * string)) (attempt : nat) : bool :=
  match r with
  | Ok _ => false
  | Raise failure =>
      match exn_cls failure with
      | HTTPStatusError status => retryable_status status && (attempt <? retries)%nat
      | RequestError => (attempt <? retries)%nat
      | _ => false
      end
  end.

(** The attempt is retried and the sleep before the retry returns. *)
Definition slept_through (sleep : Q -> option exn) (retries : nat) (backoff : Q)
    (http : nat -> result (json * string)) (attempt : nat) : Prop :=
  retried retries (http attempt) attempt = true
  /\ sleep (delay_after backoff (http attempt) attempt) = None.

(** What [_fetch_page] makes of the attempt it stops at: the parsed page, or
    the attempt's own exception. *)
Definition page_result (r : result (json * string)) : result ApiResponse.t :=
  match r with
  | Ok (data, url) => Ok (ApiResponse.mk (_extract_records data) url)
  | Raise failure => Raise failure
  end.

(** ** Ids of the primary source *)

(** The id of an opportunity is [_build_id] of its own three key fields,
    and its source tag is "sbir". *)
Definition id_from_own_keys (o : Opportunity.t) : Prop :=
  Opportunity.source o = Some "sbir"
  /\ Opportunity.id o
     = _build_id (Opportunity.solicitation_number o) (Opportunity.topic_number o)
                 (Opportunity.subtopic_title o).

(** The key fields of an opportunity that are present and not empty: its
    solicitation number, topic number and subtopic title, in this order. *)
Definition natural_keys (o : Opportunity.t) : list string :=
  filter (fun key : string => key <> "")
         (omap (fun field : option string => field)
               [Opportunity.solicitation_number o; Opportunity.topic_number o;
                Opportunity.subtopic_title o]).

(** What the id of an opportunity with the key fields [keys] is: the keys
    joined by "::" with nothing before the first one, or "unknown" when
    there is no key. *)
Definition keys_joined (keys : list string) (identifier : string) : Prop :=
  match keys with
  | [] => identifier = "unknown"
  | [key] => identifier = key
  | key :: more => identifier = key +:+ "::" +:+ Str.join "::" more
  end.

(** ** Small helpers *)

(** [not l] for a list. *)
Definition is_empty {A : Type} (l : list A) : bool :=
  match l with [] => true | _ :: _ => false end.

(** ** Example configurations, records and worlds *)

(** The default of [MatchConfig.match_fields]. *)
Definition default_match_fields : list string :=
  ["solicitation_title"; "topic_title"; "topic_description"; "subtopic_title";
   "subtopic_description"].

(** A [MatchConfig] with the defaults of config.py ([min_score = 1], no
    agency filter, [retry_max = 3], two seconds of backoff). *)
Definition example_match_config (keywords exclude_keywords always_include : list string)
    : MatchConfig.t :=
  MatchConfig.mk keywords exclude_keywords 1 [] always_include default_match_fields
                 3 (2 # 1).

(** The defaults of [NotifyConfig]: no webhook, no bot token, no dry run. *)
Definition no_credentials : NotifyConfig.t := NotifyConfig.mk None None None true false.

(** A stand-in for [str()]; the example records hold strings only. *)
Definition str_of_nothing (v : json) : string := "".

(** Every secondary enabled and not restricted to fallback, with
    [fail_on_no_results] set. *)
Definition eager_config : AppConfig.t :=
  AppConfig.mk (example_match_config ["robotics"] [] []) no_credentials
    (SourceConfig.mk true false) (SourceConfig.mk true false)
    (SourceConfig.mk true false) (SourceConfig.mk true false)
    (SourceConfig.mk true false) true.

(** Every adapter answers, with no record. *)
Definition quiet_world : Adapters.t :=
  Adapters.mk (Ok []) (Ok []) (Ok []) (Ok []) (Ok []) (Ok []).

(** The DARPA scrape runs unconditionally; every other secondary is enabled
    as a fallback. *)
Definition dod_first_config : AppConfig.t :=
  AppConfig.mk (example_match_config ["robotics"] [] []) no_credentials
    (SourceConfig.mk true true) (SourceConfig.mk true true)
    (SourceConfig.mk true false) (SourceConfig.mk true true)
    (SourceConfig.mk true true) false.

(** The primary answers; the DARPA scrape fails. *)
Definition dod_down_world : Adapters.t :=
  Adapters.mk (Ok []) (Raise (Exn RequestError "connection refused"))
              (Ok []) (Ok []) (Ok []) (Ok []).

(** A record from a whitelisted source whose title holds an excluded word. *)
Definition classified_record : Opportunity.t :=
  Opportunity.mk "sam::1" (Some "sam") "Classified robotics study" None (Some "DOD")
                 None None None None None None None None None [].

(** SAM.gov is whitelisted; the exclude keywords are the empty string and
    "classified". *)
Definition empty_exclude_config : AppConfig.t :=
  AppConfig.mk (example_match_config ["robotics"] [""; "classified"] ["sam"])
    no_credentials
    (SourceConfig.mk true true) (SourceConfig.mk true true)
    (SourceConfig.mk true true) (SourceConfig.mk true true)
    (SourceConfig.mk true true) false.

(** The same rules without the empty exclude keyword. *)
Definition plain_exclude_config : AppConfig.t :=
  AppConfig.mk (example_match_config ["robotics"] ["classified"] ["sam"])
    no_credentials
    (SourceConfig.mk true true) (SourceConfig.mk true true)
    (SourceConfig.mk true true) (SourceConfig.mk true true)
    (SourceConfig.mk true true) false.

(** A world for the witness: the primary returns one solicitation about
    robotics, there is no state file, and Discord is not configured. *)
Definition robotics_solicitation : dict :=
  [("solicitation_title", JStr "Robotics research");
   ("solicitation_number", JStr "N241")].

(** The opportunity [iter_opportunities] builds from it. *)
Definition robotics_opportunity : Opportunity.t :=
  Opportunity.mk "N241" (Some "sbir") "Robotics research" (Some "N241")
                 None None None None None None None None None None
                 robotics_solicitation.

(** Only the primary source is enabled. *)
Definition primary_only_config : AppConfig.t :=
  AppConfig.mk (example_match_config ["robotics"] [] []) no_credentials
    (SourceConfig.mk false true) (SourceConfig.mk false true)
    (SourceConfig.mk false true) (SourceConfig.mk false true)
    (SourceConfig.mk false true) false.

(** The primary returns that solicitation; no state file; every post
    would go through. *)
Definition first_run_world : World.t :=
  World.mk
    (Adapters.mk (Ok [robotics_solicitation]) (Ok []) (Ok []) (Ok []) (Ok []) (Ok []))
    Missing
    (Discord.mk (fun _ => None) (fun _ => None)).

(** The exception [_send_payloads] raises without credentials. *)
Definition credentials_error : exn :=
  Exn RuntimeError
      "Discord credentials not configured. Set DISCORD_WEBHOOK_URL or DISCORD_TOKEN + DISCORD_CHANNEL_ID.".

(** A server that answers every request with 503. *)
Definition always_503 (attempt : nat) : result (json * string) :=
  Raise (Exn (HTTPStatusError 503) "Service Unavailable").

(** The defaults with [retry_max = -1]. *)
Definition negative_retry_config : AppConfig.t :=
  AppConfig.mk
    (MatchConfig.mk ["robotics"] [] 1 [] [] default_match_fields (-1) (2 # 1))
    no_credentials
    (SourceConfig.mk true true) (SourceConfig.mk true true)
    (SourceConfig.mk true true) (SourceConfig.mk true true)
    (SourceConfig.mk true true) false.


(** The defaults, matching on the given names instead of the default
    fields. *)
Definition config_matching_on (match_fields : list string) : AppConfig.t :=
  AppConfig.mk
    (MatchConfig.mk ["robotics"] [] 1 [] [] match_fields 3 (2 # 1))
    no_credentials
    (SourceConfig.mk true true) (SourceConfig.mk true true)
    (SourceConfig.mk true true) (SourceConfig.mk true true)
    (SourceConfig.mk true true) false.

(** Two announcements of the primary source without a solicitation number. *)
Definition autonomy_solicitation : dict := [("solicitation_title", JStr "Autonomy")].
Definition sensors_solicitation : dict := [("solicitation_title", JStr "Sensors")].

(** The two records of the specification's end-to-end scenario, and its
    rules: the single keyword "AI" with a minimum score of one. *)
Definition scenario_a : Opportunity.t :=
  Opportunity.mk "a" (Some "sbir") "AI robotics research" None (Some "DOD")
                 None None None None None None None None None [].
Definition scenario_b : Opportunity.t :=
  Opportunity.mk "b" (Some "sbir") "unrelated topic" None (Some "DOD")
                 None None None None None None None None None [].
Definition scenario_config : AppConfig.t :=
  AppConfig.mk (example_match_config ["AI"] [] []) no_credentials
    (SourceConfig.mk true true) (SourceConfig.mk true true)
    (SourceConfig.mk true true) (SourceConfig.mk true true)
    (SourceConfig.mk true true) false.

(** A server that answers 429, then 503, then with an empty page. *)
Definition flaky_server (attempt : nat) : result (json * string) :=
  match attempt with
  | 0%nat => Raise (Exn (HTTPStatusError 429) "Too Many Requests")
  | 1%nat => Raise (Exn (HTTPStatusError 503) "Service Unavailable")
  | _ => Ok (JArr [], "https://api.www.sbir.gov/public/api/solicitations")
  end.

(** A server that answers every request with 404. *)
Definition always_404 (attempt : nat) : result (json * string) :=
  Raise (Exn (HTTPStatusError 404) "Not Found").


(** * Further notions: the rest of the cited files *)

(** ** A second run *)

(** The world of the next run: the same sources and transport, the state
    file as the previous run left it. *)
Definition next_world (w : World.t) (previous : Run.t) : World.t :=
  World.mk (World.adapters w) (Run.state_file previous) (World.discord w).

(** The ids the state file lists are all strings, as [save_state] writes
    them; a file that lists none, or holds no table, qualifies. *)
Definition string_ids (f : file) : bool :=
  match f with
  | Parsed (JObj data) =>
      match dict_get data "seen_ids" with
      | Some (JArr items) =>
          forallb (fun item => match item with JStr _ => true | _ => false end) items
      | _ => true
      end
  | _ => true
  end.

(** The list [save_state] writes under [seen_ids]. *)
Definition saved_ids (state : State.t) : list string :=
  merge_sort String.le (elements (State.seen_ids state)).

(** Only the primary source, the keyword "robotics", and a webhook to post
    to. *)
Definition webhook_config : AppConfig.t :=
  AppConfig.mk (example_match_config ["robotics"] [] [])
    (NotifyConfig.mk (Some "https://discord.example/hook") None None true false)
    (SourceConfig.mk false true) (SourceConfig.mk false true)
    (SourceConfig.mk false true) (SourceConfig.mk false true)
    (SourceConfig.mk false true) false.

(** The same without credentials, in dry-run mode. *)
Definition dry_run_config : AppConfig.t :=
  AppConfig.mk (example_match_config ["robotics"] [] [])
    (NotifyConfig.mk None None None true true)
    (SourceConfig.mk false true) (SourceConfig.mk false true)
    (SourceConfig.mk false true) (SourceConfig.mk false true)
    (SourceConfig.mk false true) false.

(** The summary of a first run over [first_run_world] that delivers. *)
Definition first_run_summary : RunSummary.t :=
  RunSummary.mk 1 1 1 0 ["sbir:1"] [] [].

(** The match of that run and what the matcher returns for it. *)
Definition robotics_match : Match.t :=
  Match.mk robotics_opportunity 1 ["robotics"] "robotics research".
Definition robotics_match_result : MatchResult.t :=
  MatchResult.mk [robotics_match] 0
                 [Evaluation.mk robotics_opportunity 1 ["robotics"] None].

(** ** The matcher, record by record *)

(** The Evaluation the loop body appends for a record ([text] being its
    searchable text when the agency filter lets it through). *)
Definition evaluation_with (config : AppConfig.t) (o : Opportunity.t) (text : string)
    : Evaluation.t :=
  let min_score := MatchConfig.min_score (AppConfig.match_ config) in
  if negb (Str.truthy text) && negb (whitelisted config o) then
    Evaluation.mk o 0 [] (Some no_text)
  else if opt_truthy (excluded_in config text) then
    Evaluation.mk o 0 [] (Some (excluded_keyword (or_empty (excluded_in config text))))
  else if (Z.of_nat (length (matched_in config text)) <? min_score)
          && negb (whitelisted config o) then
    Evaluation.mk o (length (matched_in config text)) (matched_in config text)
                  (Some (score_below min_score))
  else
    Evaluation.mk o (length (matched_in config text)) (matched_in config text)
                  (if min_score <=? Z.of_nat (length (matched_in config text))
                   then None else Some source_whitelist).

Definition evaluation_of {attrs : ClassAttrs}
    (config : AppConfig.t) (o : Opportunity.t) : Evaluation.t :=
  if agency_rejected config o then Evaluation.mk o 0 [] (Some agency_filtered)
  else evaluation_with config o
         (match build_text o config with Ok text => text | Raise _ => "" end).

(** The Match the loop body appends for a record, if it accepts it. *)
Definition match_of {attrs : ClassAttrs}
    (config : AppConfig.t) (o : Opportunity.t) : list Match.t :=
  if accepted_by config o then
    match build_text o config with
    | Ok text =>
        [Match.mk o (length (matched_in config text)) (matched_in config text) text]
    | Raise _ => []
    end
  else [].

(** An Evaluation of an accepted record: no reason, or the whitelist. *)
Definition accepting (ev : Evaluation.t) : bool :=
  match Evaluation.reason ev with
  | None => true
  | Some source_whitelist => true
  | Some _ => false
  end.

(** Two results put end to end. *)
Definition merge_results (r1 r2 : MatchResult.t) : MatchResult.t :=
  MatchResult.mk (MatchResult.matches r1 ++ MatchResult.matches r2)
                 (MatchResult.skipped r1 + MatchResult.skipped r2)
                 (MatchResult.evaluations r1 ++ MatchResult.evaluations r2).


(** What the reason of an Evaluation says about its record. *)
Definition reason_sound (config : AppConfig.t) (ev : Evaluation.t) : Prop :=
  let o := Evaluation.opportunity ev in
  let min_score := MatchConfig.min_score (AppConfig.match_ config) in
  let scored := Evaluation.score ev = length (Evaluation.matched_keywords ev) in
  let unscored := Evaluation.score ev = 0%nat /\ Evaluation.matched_keywords ev = [] in
  match Evaluation.reason ev with
  | None => scored /\ (min_score <= Z.of_nat (Evaluation.score ev))%Z
  | Some source_whitelist =>
      scored /\ (Z.of_nat (Evaluation.score ev) < min_score)%Z
      /\ whitelisted config o = true
  | Some (score_below n) =>
      scored /\ n = min_score /\ (Z.of_nat (Evaluation.score ev) < min_score)%Z
      /\ whitelisted config o = false
  | Some agency_filtered => unscored /\ agency_rejected config o = true
  | Some no_text => unscored /\ whitelisted config o = false
  | Some (excluded_keyword kw) =>
      unscored /\ kw ∈ cfg_excludes config /\ Str.truthy kw = true
  end.

(** A Match and an Evaluation that report the same record the same way. *)
Definition same_report (m : Match.t) (ev : Evaluation.t) : Prop :=
  Match.opportunity m = Evaluation.opportunity ev
  /\ Match.score m = Evaluation.score ev
  /\ Match.matched_keywords m = Evaluation.matched_keywords ev.

(** ** The orchestrator's bookkeeping *)

(** The adapters that returned, and those that raised, in call order. *)
Definition succeeded (calls : list (adapter * bool)) : list adapter :=
  map fst (filter (fun c => snd c = true) calls).
Definition broke (calls : list (adapter * bool)) : list adapter :=
  map fst (filter (fun c => snd c = false) calls).

(** The secondary adapters, in the order they are consulted. *)
Definition secondaries : list adapter :=
  [dod_darpa; nsf_seedfund; nih_guide; grants_rss; sam].

(** The primary is down; every secondary answers with no record. *)
Definition primary_down_world : Adapters.t :=
  Adapters.mk (Raise (Exn RequestError "connection refused"))
              (Ok []) (Ok []) (Ok []) (Ok []) (Ok []).

(** The primary returns the robotics solicitation; the secondaries would
    answer with no record. *)
Definition primary_up_world : Adapters.t :=
  Adapters.mk (Ok [robotics_solicitation]) (Ok []) (Ok []) (Ok []) (Ok []) (Ok []).

(** ** The notification messages *)

Definition first_header : string := "**SBIR matches:**".
Definition cont_header : string := "**SBIR matches (cont.):**".

(** A message: its header line, then the lines of some matches. *)
Definition payload_of (header : string) (chunk : list string) : string :=
  Str.join newline (header :: chunk).

(** The transport [_send_payloads] posts through when credentials are
    configured: the webhook whenever its URL is set. *)
Definition transport (config : AppConfig.t) (discord : Discord.t)
    : string -> option exn :=
  if opt_truthy (NotifyConfig.discord_webhook_url (AppConfig.notify config))
  then Discord.post_webhook discord
  else Discord.post_bot discord.

(** A webhook and a bot are both configured. *)
Definition both_transports_config : AppConfig.t :=
  AppConfig.mk (example_match_config ["robotics"] [] [])
    (NotifyConfig.mk (Some "https://discord.example/hook") (Some "token") (Some "42")
                     true false)
    (SourceConfig.mk false true) (SourceConfig.mk false true)
    (SourceConfig.mk false true) (SourceConfig.mk false true)
    (SourceConfig.mk false true) false.

(** The webhook accepts every post; the bot API is down. *)
Definition webhook_only_discord : Discord.t :=
  Discord.mk (fun _ => None) (fun _ => Some (Exn RuntimeError "Discord API error 500")).

(** ** sbir.py: choosing the API address and paging through it *)

(** The query of one GET: the address and the [params] dict ([rows],
    [start], and [open] = 1 when set). *)
Module Request.
Record t := mk {
  base_url : string;
  rows : Z;
  start : Z;
  open : bool
}.
End Request.

(** The fields of [config.match] that only [fetch_solicitations] and
    [_select_base_url] read. *)
Module SbirApi.
Record t := mk {
  api_base_urls : list string;
  rows : Z;
  max_pages : Z;
  open_only : bool
}.
End SbirApi.

(** What a call of [fetch_solicitations] or [_select_base_url] did: its
    result and the requests it passed to [_fetch_page], in order. *)
Module SbirRun.
Record t (A : Type) := mk {
  outcome : result A;
  requests : list Request.t
}.
Arguments mk {A} _ _.
Arguments outcome {A} _.
Arguments requests {A} _.
End SbirRun.

(** The probe of [_select_base_url]: one open record from the start. *)
Definition probe (base_url : string) : Request.t := Request.mk base_url 1 0 true.

Section fetch_solicitations.
(** [str(errors)] for the list of error lines. *)
Variable py_repr : list string -> string.
(** [fetch_page n request]: what the call of [_fetch_page] with this
    request returns or raises when [n] calls were made before it in this
    run (the server need not answer the same request twice the same way). *)
Variable fetch_page : nat -> Request.t -> result ApiResponse.t.

(** The loop of [_select_base_url] over the addresses still to try, and
    the two [raise] statements after it. *)
Fixpoint select_loop (urls : list string) (errors : list string)
    (sent : list Request.t) : SbirRun.t string :=
  match urls with
  | [] =>
      match errors with
      | [] => SbirRun.mk (Raise (Exn RuntimeError "No SBIR API base URL configured")) sent
      | _ :: _ =>
          SbirRun.mk
            (Raise (Exn RuntimeError
                      ("SBIR API base URLs failed. Check api_base_urls in config.toml or SBIR.gov API status. Errors: "
                       +:+ py_repr errors)))
            sent
      end
  | base_url :: urls' =>
      match fetch_page (length sent) (probe base_url) with
      | Ok _ => SbirRun.mk (Ok base_url) (sent ++ [probe base_url])
      | Raise exc =>
          select_loop urls' (errors ++ [base_url +:+ ": " +:+ exn_msg exc])
                      (sent ++ [probe base_url])
      end
  end.

(** [_select_base_url(config)] *)
Definition _select_base_url (api : SbirApi.t) : SbirRun.t string :=
  select_loop (SbirApi.api_base_urls api) [] [].

(** The [while pages < config.match.max_pages] loop; [left] is
    [max_pages - pages], the number of iterations the test still allows. *)
Fixpoint page_loop (base_url : string) (rows : Z) (open_only : bool) (left : nat)
    (start : Z) (records : list dict) (sent : list Request.t)
    : SbirRun.t (list dict) :=
  match left with
  | O => SbirRun.mk (Ok records) sent
  | S left' =>
      let request := Request.mk base_url rows start open_only in
      match fetch_page (length sent) request with
      | Raise exc => SbirRun.mk (Raise exc) (sent ++ [request])
      | Ok response =>
          match ApiResponse.records response with
          | [] => SbirRun.mk (Ok records) (sent ++ [request])
          | _ :: _ =>
              let records' := records ++ ApiResponse.records response in
              if Z.of_nat (length (ApiResponse.records response)) <? rows
              then SbirRun.mk (Ok records') (sent ++ [request])
              else page_loop base_url rows open_only left' (start + rows) records'
                             (sent ++ [request])
          end
      end
  end.

(** [rows = max(1, min(config.match.rows, 50))] *)
Definition page_rows (api : SbirApi.t) : Z := Z.max 1 (Z.min (SbirApi.rows api) 50).

(** [fetch_solicitations(config)] *)
Definition fetch_solicitations (api : SbirApi.t) : SbirRun.t (list dict) :=
  let selected := _select_base_url api in
  match SbirRun.outcome selected with
  | Raise exc => SbirRun.mk (Raise exc) (SbirRun.requests selected)
  | Ok base_url =>
      page_loop base_url (page_rows api) (SbirApi.open_only api)
                (Z.to_nat (SbirApi.max_pages api)) 0 [] (SbirRun.requests selected)
  end.

(** The request for page [i] of a loop that begins at [start]. *)
Definition page_request (base_url : string) (rows : Z) (open_only : bool) (start : Z)
    (i : nat) : Request.t :=
  Request.mk base_url rows (start + Z.of_nat i * rows) open_only.
End fetch_solicitations.

(** The records of an answer; none when the call raised. *)
Definition page_records (answer : result ApiResponse.t) : list dict :=
  match answer with Ok response => ApiResponse.records response | Raise _ => [] end.

(** A page that makes the loop go on: not empty and at least [rows] long. *)
Definition full_page (rows : Z) (answer : result ApiResponse.t) : Prop :=
  raises answer = false /\ page_records answer <> []
  /\ (rows <= Z.of_nat (length (page_records answer)))%Z.

(** A page that ends the loop: empty or shorter than [rows]. *)
Definition last_page (rows : Z) (answer : result ApiResponse.t) : Prop :=
  page_records answer = [] \/ (Z.of_nat (length (page_records answer)) < rows)%Z.

(** An API with two addresses, pages of two records and at most three
    pages. *)
Definition paging_api : SbirApi.t :=
  SbirApi.mk ["https://old.example/api"; "https://api.example/solicitations"] 2 3 true.

(** The first address is down; the second serves three records, two on
    the first page and one on the second. *)
Definition paging_server (n : nat) (request : Request.t) : result ApiResponse.t :=
  if String.eqb (Request.base_url request) "https://old.example/api"
  then Raise (Exn RequestError "connection refused")
  else if (Request.rows request =? 1)%Z
  then Ok (ApiResponse.mk [robotics_solicitation] "")
  else if (Request.start request =? 0)%Z
  then Ok (ApiResponse.mk [robotics_solicitation; autonomy_solicitation] "")
  else if (Request.start request =? 2)%Z
  then Ok (ApiResponse.mk [sensors_solicitation] "")
  else Ok (ApiResponse.mk [] "").

(** A stand-in for [str] of a list of lines: the lines joined. *)
Definition str_of_lines (lines : list string) : string := Str.join ", " lines.

(** ** sbir.py: the opportunities of a solicitation *)

Definition is_dict (v : json) : bool :=
  match v with JObj _ => true | _ => false end.

(** The number of opportunities the loop body of [iter_opportunities]
    yields for one item of [solicitation_topics]. *)
Definition yield_of_topic (topic : json) : nat :=
  match topic with
  | JObj t =>
      match list_or_empty (dict_get t "subtopics") with
      | [] => 1
      | subtopics => length (filter (fun s => is_dict s = true) subtopics)
      end
  | _ => 0
  end.

(** The opportunity carries the base fields of the solicitation. *)
Definition from_solicitation (base : BaseFields.t) (o : Opportunity.t) : Prop :=
  Opportunity.source o = Some "sbir"
  /\ Opportunity.solicitation_title o = BaseFields.solicitation_title base
  /\ Opportunity.solicitation_number o = BaseFields.solicitation_number base
  /\ Opportunity.agency o = BaseFields.agency base
  /\ Opportunity.branch o = BaseFields.branch base
  /\ Opportunity.open_date o = BaseFields.open_date base
  /\ Opportunity.close_date o = BaseFields.close_date base.

(** An optional text in normal form: absent, or non-empty with no white
    space at either end. *)
Definition normal_text (value : option string) : Prop :=
  match value with
  | None => True
  | Some s => Str.truthy s = true /\ Str.strip s = s
  end.

(** The optional text fields of an opportunity. *)
Definition text_fields (o : Opportunity.t) : list (option string) :=
  [Opportunity.solicitation_number o; Opportunity.agency o; Opportunity.branch o;
   Opportunity.open_date o; Opportunity.close_date o; Opportunity.topic_title o;
   Opportunity.topic_number o; Opportunity.topic_description o;
   Opportunity.subtopic_title o; Opportunity.subtopic_description o;
   Opportunity.url o].

(** ** config.py: what [load_config] does to the merged settings *)

(** [_normalize_agencies(agencies)], [_normalize_sources(sources)] *)
Definition _normalize_agencies (agencies : list string) : list string :=
  map Str.upper agencies.
Definition _normalize_sources (sources : list string) : list string :=
  map Str.lower sources.

(** The last two statements of [load_config]: the agencies and the
    whitelisted sources of the configuration are replaced by their
    normalised lists. *)
Definition normalized (config : AppConfig.t) : AppConfig.t :=
  let m := AppConfig.match_ config in
  AppConfig.mk
    (MatchConfig.mk (MatchConfig.keywords m) (MatchConfig.exclude_keywords m)
       (MatchConfig.min_score m)
       (_normalize_agencies (MatchConfig.agencies m))
       (_normalize_sources (MatchConfig.always_include_sources m))
       (MatchConfig.match_fields m) (MatchConfig.retry_max m)
       (MatchConfig.retry_backoff_seconds m))
    (AppConfig.notify config) (AppConfig.sam config) (AppConfig.rss config)
    (AppConfig.dod config) (AppConfig.nsf config) (AppConfig.nih config)
    (AppConfig.fail_on_no_results config).

(** [s[n:]] *)
Fixpoint drop_chars (n : nat) (s : string) : string :=
  match n, s with
  | S n', String _ s' => drop_chars n' s'
  | _, _ => s
  end.

(** The token taken from [DISCORD_TOKEN]: stripped, and without a leading
    "Bot " in any case. *)
Definition clean_token (env_bot_token : string) : string :=
  let token := Str.strip env_bot_token in
  if String.prefix "bot " (Str.lower token) then Str.strip (drop_chars 4 token)
  else token.

(** [if value := os.getenv(name)]: the variable when it is set and not
    empty. *)
Definition getenv_set (getenv : string -> option string) (name : string)
    : option string :=
  match getenv name with
  | Some value => if Str.truthy value then Some value else None
  | None => None
  end.

(** The environment overlay of [load_config] on the notification
    settings. *)
Definition apply_env (getenv : string -> option string) (notify : NotifyConfig.t)
    : NotifyConfig.t :=
  let webhook :=
    match getenv_set getenv "DISCORD_WEBHOOK_URL" with
    | Some env_webhook => Some env_webhook
    | None => NotifyConfig.discord_webhook_url notify
    end in
  let token :=
    match getenv_set getenv "DISCORD_TOKEN" with
    | Some env_bot_token => Some (clean_token env_bot_token)
    | None => NotifyConfig.discord_bot_token notify
    end in
  let channel :=
    match getenv_set getenv "DISCORD_CHANNEL_ID" with
    | Some env_channel_id => Some env_channel_id
    | None => NotifyConfig.discord_channel_id notify
    end in
  let channel :=
    if opt_truthy channel then channel
    else
      let channel :=
        match getenv_set getenv "DISCORD_CHANNEL" with
        | Some env_channel => Some env_channel
        | None => channel
        end in
      match getenv_set getenv "DISCORD_ID" with
      | Some env_channel => Some env_channel
      | None => channel
      end in
  NotifyConfig.mk webhook token channel
                  (NotifyConfig.discord_client_enabled notify)
                  (NotifyConfig.dry_run notify).

(** The first candidate that is set and not empty, or else [fallback]. *)
Fixpoint first_set (candidates : list (option string)) (fallback : option string)
    : option string :=
  match candidates with
  | [] => fallback
  | candidate :: candidates' =>
      if opt_truthy candidate then candidate else first_set candidates' fallback
  end.

(** An agency allow-list and a whitelist as a user would type them. *)
Definition typed_config : AppConfig.t :=
  AppConfig.mk
    (MatchConfig.mk ["robotics"] [] 1 ["dod"; "Nasa"] ["SAM"] default_match_fields
                    3 (2 # 1))
    no_credentials
    (SourceConfig.mk true true) (SourceConfig.mk true true)
    (SourceConfig.mk true true) (SourceConfig.mk true true)
    (SourceConfig.mk true true) false.

(** ** sbir.py: the HTTP traffic of a whole fetch *)

(** [server n request attempt]: what the GET of attempt [attempt] of the
    call of [_fetch_page] number [n] gives, when that call is made with
    [request]. *)
Definition fetch_page_on (sleep : Q -> option exn) (config : AppConfig.t)
    (server : nat -> Request.t -> nat -> result (json * string))
    (n : nat) (request : Request.t) : result ApiResponse.t :=
  FetchRun.outcome (_fetch_page sleep config (server n request)).

(** The GET requests made by the calls of [_fetch_page] for [requests],
    the first of them being call number [n]. *)
Fixpoint attempts_from (sleep : Q -> option exn) (config : AppConfig.t)
    (server : nat -> Request.t -> nat -> result (json * string))
    (n : nat) (requests : list Request.t) : nat :=
  match requests with
  | [] => 0
  | request :: requests' =>
      FetchRun.attempts (_fetch_page sleep config (server n request))
      + attempts_from sleep config server (S n) requests'
  end.

(** ** sam.py: from SAM.gov records to opportunities *)

(** [bool(value)] for a decoded JSON value. *)
Definition json_truthy (value : json) : bool :=
  match value with
  | JNull => false
  | JBool b => b
  | JNum n => negb (n =? 0)%Z
  | JStr s => Str.truthy s
  | JArr items => negb (is_empty items)
  | JObj fields => negb (is_empty fields)
  end.

(** [a or b or ...] over the results of [record.get]: the first truthy
    operand, or else the last one. *)
Fixpoint py_or (operands : list (option json)) : option json :=
  match operands with
  | [] => None
  | [operand] => operand
  | operand :: operands' =>
      match operand with
      | Some value => if json_truthy value then operand else py_or operands'
      | None => py_or operands'
      end
  end.

Module Sam.
Section adapter.
Variable py_str : json -> string.

(** [_to_str(value)]: sam.py has its own copy of the function of sbir.py. *)
Definition _to_str (value : option json) : option string := _to_str py_str value.

(** The loop of [_build_description] over the four keys. *)
Fixpoint description_parts (record : dict) (keys : list string) : list string :=
  match keys with
  | [] => []
  | key :: keys' =>
      let value := _to_str (dict_get record key) in
      if opt_truthy value
      then (key +:+ ":" +:+ or_empty value) :: description_parts record keys'
      else description_parts record keys'
  end.

(** [_build_description(record)] *)
Definition _build_description (record : dict) : option string :=
  nonempty (Str.join " " (description_parts record
                            ["type"; "setAside"; "naicsCode"; "classificationCode"])).

(** [_to_opportunity(record)] *)
Definition _to_opportunity (record : dict) : option Opportunity.t :=
  let title := _to_str (dict_get record "title") in
  if negb (opt_truthy title) then None
  else
    let notice_id :=
      _to_str (py_or [dict_get record "noticeId"; dict_get record "noticeID"]) in
    let solicitation_number := _to_str (dict_get record "solicitationNumber") in
    let agency :=
      _to_str (py_or [dict_get record "fullParentPathName";
                      dict_get record "department"]) in
    let branch := _to_str (py_or [dict_get record "office"; dict_get record "subTier"]) in
    let open_date := _to_str (dict_get record "postedDate") in
    let close_date :=
      _to_str (py_or [dict_get record "responseDeadLine";
                      dict_get record "reponseDeadLine";
                      dict_get record "responseDeadline"]) in
    let url :=
      _to_str (py_or [dict_get record "uiLink"; dict_get record "additionalInfoLink";
                      dict_get record "description"]) in
    let topic_description := _build_description record in
    let identifier :=
      if opt_truthy notice_id then or_empty notice_id
      else if opt_truthy solicitation_number then or_empty solicitation_number
      else or_empty title +:+ ":" +:+ or_empty open_date in
    let identifier := "sam::" +:+ identifier in
    Some (Opportunity.mk identifier (Some "sam") (or_empty title) solicitation_number
            agency branch open_date close_date None None topic_description None None
            url record).

(** The loop of [fetch_sam_opportunities] over the records. *)
Fixpoint opportunities_of (records : list dict) : list Opportunity.t :=
  match records with
  | [] => []
  | record :: records' =>
      match _to_opportunity record with
      | Some opportunity => opportunity :: opportunities_of records'
      | None => opportunities_of records'
      end
  end.

(** [fetch_sam_opportunities(config)], [fetched] being what
    [_fetch_sam_records] returns or raises if it is called. *)
Definition fetch_sam_opportunities (api_key : option string)
    (fetched : result (list dict)) : result (list Opportunity.t) :=
  if negb (opt_truthy api_key)
  then Raise (Exn RuntimeError "SAM.gov API key not configured (set SAM_API_KEY)")
  else
    let* records := fetched in
    Ok (opportunities_of records).
End adapter.
End Sam.

(** The record has a title [_to_str] keeps. *)
Definition titled (py_str : json -> string) (record : dict) : bool :=
  opt_truthy (Sam._to_str py_str (dict_get record "title")).

(** The notice id of a record, under either spelling of its key. *)
Definition notice_id (py_str : json -> string) (record : dict) : option string :=
  Sam._to_str py_str (py_or [dict_get record "noticeId"; dict_get record "noticeID"]).

(** The first identifier an opportunity of SAM.gov has: the notice id of its
    record, else its solicitation number, else its title and opening date
    around a colon. *)
Definition sam_identifier (py_str : json -> string) (o : Opportunity.t) : string :=
  match notice_id py_str (Opportunity.raw o) with
  | Some notice => notice
  | None =>
      match Opportunity.solicitation_number o with
      | Some number => number
      | None =>
          Opportunity.solicitation_title o +:+ ":" +:+ or_empty (Opportunity.open_date o)
      end
  end.

(** What every opportunity built from a SAM.gov record looks like, [raw]
    being the record it was built from. *)
Definition sam_shaped (py_str : json -> string) (o : Opportunity.t) : Prop :=
  Opportunity.source o = Some "sam"
  /\ Opportunity.id o = "sam::" +:+ sam_identifier py_str o
  /\ Str.truthy (sam_identifier py_str o) = true
  /\ Some (Opportunity.solicitation_title o)
     = Sam._to_str py_str (dict_get (Opportunity.raw o) "title")
  /\ Str.truthy (Opportunity.solicitation_title o) = true
  /\ Str.strip (Opportunity.solicitation_title o) = Opportunity.solicitation_title o
  /\ Forall normal_text
       [Opportunity.solicitation_number o; Opportunity.agency o; Opportunity.branch o;
        Opportunity.open_date o; Opportunity.close_date o; Opportunity.url o]
  /\ Opportunity.solicitation_number o
     = Sam._to_str py_str (dict_get (Opportunity.raw o) "solicitationNumber")
  /\ Opportunity.open_date o
     = Sam._to_str py_str (dict_get (Opportunity.raw o) "postedDate")
  /\ Opportunity.topic_title o = None /\ Opportunity.topic_number o = None
  /\ Opportunity.topic_description o = Sam._build_description py_str (Opportunity.raw o)
  /\ Opportunity.subtopic_title o = None
  /\ Opportunity.subtopic_description o = None.

(** ** config.py: merging the file into the defaults *)

(** [merged[key] = value]: in the association-list view of a dict the new
    binding comes last and overrides any earlier one of the key. *)
Definition dict_set (d : dict) (key : string) (value : json) : dict :=
  d ++ [(key, value)].

(** The [for key, value in override.items()] loop of [_merge], [merge]
    being the recursive call and [merged] the copy of the defaults being
    updated. *)
Definition merge_items (merge : json -> json -> json) (defaults : dict)
    : list (string * json) -> dict -> dict :=
  fix items (pairs : list (string * json)) (merged : dict) : dict :=
    match pairs with
    | [] => merged
    | (key, value) :: pairs' =>
        items pairs'
          (dict_set merged key
             (merge (from_option id JNull (dict_get defaults key)) value))
    end.

(** [_merge(default, override)], [None] being [JNull]. *)
Fixpoint _merge (default_ override : json) {struct override} : json :=
  match default_, override with
  | JObj defaults, JObj overrides =>
      JObj (merge_items (fun d o => _merge d o) defaults overrides defaults)
  | _, JNull => default_
  | _, _ => override
  end.

(** ** dod.py and nsf.py: scraping a page of announcements

    Both files carry the same [ParsedLine], [_LineParser], [_parse_lines],
    [_pick_url] and [_normalize_url]. *)

Module ParsedLine.
Record t := mk {
  text : string;
  hrefs : list string
}.
End ParsedLine.

(** [s.startswith(prefix)] *)
Definition startswith (s prefix : string) : bool := String.prefix prefix s.

(** [needle in haystack] for two strings. *)
Fixpoint contains (needle haystack : string) : bool :=
  String.prefix needle haystack
  || match haystack with
     | EmptyString => false
     | String _ haystack' => contains needle haystack'
     end.

(** [s in {...}] for a set of strings. *)
Definition one_of (s : string) (candidates : list string) : bool :=
  existsb (String.eqb s) candidates.

(** [text.split(":", 1)[1]]: what follows the first colon; the index is
    out of range when there is none. *)
Fixpoint after_colon (text : string) : option string :=
  match text with
  | EmptyString => None
  | String c text' => if Ascii.eqb c ":" then Some text' else after_colon text'
  end.

(** [_pick_url(hrefs)] *)
Definition _pick_url (hrefs : list string) : option string :=
  match List.find (fun href => startswith href "http") hrefs with
  | Some href => Some href
  | None => head hrefs
  end.

(** [list(dict.fromkeys(hrefs))]: the first occurrence of each item, in
    order. *)
Definition fromkeys (hrefs : list string) : list string :=
  fold_left (fun keys href => if bool_decide (href ∈ keys) then keys else keys ++ [href])
            hrefs [].

(** The calls [HTMLParser] makes to the three handlers [_LineParser]
    overrides. *)
Inductive html_event :=
  | StartTag (tag : string) (attrs : list (string * option string))
  | EndTag (tag : string)
  | Data (data : string).

Module LineParser.
Record t := mk {
  lines : list ParsedLine.t;
  _text_parts : list string;
  _hrefs : list string;
  _current_href : option string
}.

Definition _block_tags : list string :=
  ["p"; "div"; "li"; "ul"; "ol"; "h1"; "h2"; "h3"; "h4"; "h5"; "h6"; "br"].

(** [_LineParser()] *)
Definition init : t := mk [] [] [] None.

(** [self._flush()] *)
Definition _flush (self : t) : t :=
  match _text_parts self with
  | [] => mk (lines self) [] [] (_current_href self)
  | _ :: _ =>
      let text := Str.strip (Str.join " " (_text_parts self)) in
      let lines' :=
        if Str.truthy text
        then lines self ++ [ParsedLine.mk text (fromkeys (_hrefs self))]
        else lines self in
      mk lines' [] [] (_current_href self)
  end.

(** [self.handle_starttag(tag, attrs)] *)
Definition handle_starttag (self : t) (tag : string)
    (attrs : list (string * option string)) : t :=
  let self := if one_of tag _block_tags then _flush self else self in
  if String.eqb tag "a" then
    match List.find (fun attr => String.eqb (fst attr) "href" && opt_truthy (snd attr))
                    attrs with
    | Some (_, value) => mk (lines self) (_text_parts self) (_hrefs self) value
    | None => self
    end
  else self.

(** [self.handle_endtag(tag)] *)
Definition handle_endtag (self : t) (tag : string) : t :=
  let self :=
    if String.eqb tag "a"
    then mk (lines self) (_text_parts self) (_hrefs self) None
    else self in
  if one_of tag _block_tags then _flush self else self.

(** [self.handle_data(data)] *)
Definition handle_data (self : t) (data : string) : t :=
  let text := Str.strip data in
  if negb (Str.truthy text) then self
  else
    mk (lines self) (_text_parts self ++ [text])
       (if opt_truthy (_current_href self)
        then _hrefs self ++ [or_empty (_current_href self)]
        else _hrefs self)
       (_current_href self).

Definition handle (self : t) (event : html_event) : t :=
  match event with
  | StartTag tag attrs => handle_starttag self tag attrs
  | EndTag tag => handle_endtag self tag
  | Data data => handle_data self data
  end.

(** [_parse_lines(html)]: [fed] are the handler calls made by
    [parser.feed(html)], [closing] those made by [HTMLParser.close], which
    [close] runs after its own [_flush]. *)
Definition _parse_lines (fed closing : list html_event) : list ParsedLine.t :=
  lines (fold_left handle closing (_flush (fold_left handle fed init))).
End LineParser.

(** The text the two slicing loops compare: [line.text.strip().lower()]. *)
Definition marker_text (line : ParsedLine.t) : string :=
  Str.lower (Str.strip (ParsedLine.text line)).

Section slicing.
(** The two tests of the loop, on [line.text.strip().lower()]. *)
Variable opens : string -> bool.
Variable closes : string -> bool.

(** The loop over [enumerate(lines)]: [idx] is the index of the first line
    of [lines], the result the final [start] and [end]. *)
Fixpoint slice_scan (lines : list ParsedLine.t) (idx : nat) (start : option nat)
    : option nat * option nat :=
  match lines with
  | [] => (start, None)
  | line :: lines' =>
      let text := marker_text line in
      match start with
      | None =>
          if opens text then slice_scan lines' (S idx) (Some (S idx))
          else slice_scan lines' (S idx) None
      | Some _ =>
          if closes text then (start, Some idx)
          else slice_scan lines' (S idx) start
      end
  end.

(** The statements after the loop: [lines], [lines[start:end]] or
    [lines[start:]]. *)
Definition slice_section (lines : list ParsedLine.t) : list ParsedLine.t :=
  match slice_scan lines 0 None with
  | (None, _) => lines
  | (Some start, Some end_) => drop start (take end_ lines)
  | (Some start, None) => drop start lines
  end.
End slicing.

Module Dod.

(** [_slice_active_section(lines)] *)
Definition _slice_active_section (lines : list ParsedLine.t) : list ParsedLine.t :=
  slice_section (String.eqb "active announcement topics")
                (fun text => startswith text "closed announcement topics") lines.

(** The variables of the loop of [_parse_topics]. *)
Record parsing := mk_parsing {
  topics : list dict;
  current : option dict;
  current_program : option string
}.

(** [if current is not None: current[key] = text.split(":", 1)[1].strip()] *)
Definition set_field (st : parsing) (key text : string) : result parsing :=
  match current st with
  | None => Ok st
  | Some topic =>
      match after_colon text with
      | None => Raise (Exn OtherError "IndexError: list index out of range")
      | Some value =>
          Ok (mk_parsing (topics st)
                (Some (dict_set topic key (JStr (Str.strip value))))
                (current_program st))
      end
  end.

Definition json_of_option (value : option string) : json :=
  match value with Some s => JStr s | None => JNull end.

(** The body of the loop of [_parse_topics]. *)
Definition parse_line (st : parsing) (line : ParsedLine.t) : result parsing :=
  let text := Str.strip (ParsedLine.text line) in
  if negb (Str.truthy text) then Ok st
  else
    let lower := Str.lower text in
    if startswith lower "sbir |" || startswith lower "sttr |" || startswith lower "baa"
    then Ok (mk_parsing (topics st) (current st) (Some text))
    else if startswith lower "each year" || startswith lower "all sbir/sttr topics"
    then Ok st
    else if one_of lower ["important"; "active announcement topics"] then Ok st
    else if one_of lower ["solicitation"; "faqs"; "faq"] then Ok st
    else if startswith lower "objective:" || startswith lower "description:"
    then set_field st "objective" text
    else if startswith lower "tech office:" then set_field st "tech_office" text
    else if startswith lower "topic #:" || startswith lower "topic #"
    then set_field st "topic_number" text
    else if startswith lower "pre-release:" then set_field st "pre_release" text
    else if startswith lower "open:" then set_field st "open_date" text
    else if startswith lower "closes:" || startswith lower "closed:"
            || startswith lower "deadline:"
    then set_field st "close_date" text
    else
      Ok (mk_parsing
            (topics st ++ match current st with Some topic => [topic] | None => [] end)
            (Some [("title", JStr text);
                   ("program", json_of_option (current_program st));
                   ("url", json_of_option (_pick_url (ParsedLine.hrefs line)))])
            (current_program st)).

(** [_parse_topics(lines)] *)
Definition _parse_topics (lines : list ParsedLine.t) : result (list dict) :=
  let* st := for_each parse_line (mk_parsing [] None None) lines in
  Ok (topics st ++ match current st with Some topic => [topic] | None => [] end).

(** [f"{value}"] for a [str] or [None]. *)
Definition py_format (value : option string) : string :=
  match value with Some s => s | None => "None" end.

(** [topic.get(key)] for a value that is a [str] or [None]. *)
Definition get_str (topic : dict) (key : string) : option string :=
  match dict_get topic key with Some (JStr s) => Some s | _ => None end.

Section adapter.
(** [urljoin(base, href)] *)
Variable urljoin : string -> string -> string.

(** [_normalize_url(base, href)] *)
Definition _normalize_url (base : string) (href : option string) : string :=
  if negb (opt_truthy href) then base
  else if startswith (or_empty href) "http" then or_empty href
  else urljoin base (or_empty href).

(** The body of the loop over [topics] in
    [fetch_dod_darpa_opportunities]. *)
Definition opportunity_of_topic (darpa_topics_url : string) (topic : dict)
    : Opportunity.t :=
  let identifier :=
    "dod_darpa::" +:+ (if opt_truthy (get_str topic "topic_number")
                       then or_empty (get_str topic "topic_number")
                       else py_format (get_str topic "title")) in
  Opportunity.mk identifier (Some "dod_darpa")
    (if opt_truthy (get_str topic "program") then or_empty (get_str topic "program")
     else "DARPA SBIR/STTR")
    None (Some "DOD") (Some "DARPA")
    (get_str topic "open_date") (get_str topic "close_date")
    (get_str topic "title") (get_str topic "topic_number") (get_str topic "objective")
    None None
    (Some (_normalize_url darpa_topics_url (get_str topic "url")))
    topic.

(** [fetch_dod_darpa_opportunities(config)] from the parsed lines of the
    page on. *)
Definition opportunities_of_lines (darpa_topics_url : string)
    (lines : list ParsedLine.t) : result (list Opportunity.t) :=
  let active_lines := _slice_active_section lines in
  let* topics := _parse_topics active_lines in
  Ok (map (opportunity_of_topic darpa_topics_url) topics).
End adapter.
End Dod.

Module Nsf.

(** [_slice_solicitations(lines)] *)
Definition _slice_solicitations (lines : list ParsedLine.t) : list ParsedLine.t :=
  slice_section (String.eqb "solicitations")
                (fun text => one_of text ["return to top"; "america's seed fund"]) lines.

(** [_is_relevant_title(title)] *)
Definition _is_relevant_title (title : string) : bool :=
  let lower := Str.lower title in
  existsb (fun token => contains token lower) ["sbir"; "sttr"; "solicitation"].

(** [_is_solicitation_link(href)] *)
Definition _is_solicitation_link (href : option string) : bool :=
  if negb (opt_truthy href) then false
  else contains "solicitation" (Str.lower (or_empty href)).

Section adapter.
(** [urljoin(base, href)] *)
Variable urljoin : string -> string -> string.

(** [_normalize_url(base, href)], the same function as in dod.py. *)
Definition _normalize_url (base : string) (href : option string) : string :=
  Dod._normalize_url urljoin base href.

(** The body of the loop of [fetch_nsf_seedfund_opportunities]: the
    opportunity of a line, if none of the [continue] tests drops it. *)
Definition opportunity_of_line (solicitations_url : string) (line : ParsedLine.t)
    : option Opportunity.t :=
  let title := Str.strip (ParsedLine.text line) in
  if negb (Str.truthy title) || is_empty (ParsedLine.hrefs line) then None
  else if negb (_is_relevant_title title) then None
  else
    let href := _pick_url (ParsedLine.hrefs line) in
    if negb (_is_solicitation_link href) then None
    else
      let url := _normalize_url solicitations_url href in
      let identifier :=
        "nsf_seedfund::" +:+ (if opt_truthy href then or_empty href else title) in
      Some (Opportunity.mk identifier (Some "nsf_seedfund") title None (Some "NSF")
              None None None None None None None None (Some url)
              [("title", JStr title); ("href", Dod.json_of_option href)]).

(** [fetch_nsf_seedfund_opportunities(config)] from the parsed lines of
    the page on. *)
Definition opportunities_of_lines (solicitations_url : string)
    (lines : list ParsedLine.t) : list Opportunity.t :=
  flat_map (fun line =>
              match opportunity_of_line solicitations_url line with
              | Some opportunity => [opportunity]
              | None => []
              end) (_slice_solicitations lines).
End adapter.
End Nsf.

(** The line is a section opener, or a section closer, for the given
    tests. *)
Definition opener (opens : string -> bool) (line : ParsedLine.t) : bool :=
  opens (marker_text line).
Definition closer (closes : string -> bool) (line : ParsedLine.t) : bool :=
  closes (marker_text line).

(** How the loop of [_slice_active_section] or [_slice_solicitations] cuts
    the page: everything when no line opens the section, otherwise what
    follows the first opener up to the first closer after it. *)
Definition sliced (opens closes : string -> bool) (lines result : list ParsedLine.t)
    : Prop :=
  (Forall (fun line => opener opens line = false) lines /\ result = lines)
  \/ exists before marker rest,
       lines = before ++ marker :: rest
       /\ Forall (fun line => opener opens line = false) before
       /\ opener opens marker = true
       /\ ((Forall (fun line => closer closes line = false) rest /\ result = rest)
           \/ exists closing after,
                rest = result ++ closing :: after
                /\ Forall (fun line => closer closes line = false) result
                /\ closer closes closing = true).

(** ** dod.py: what a line of the DARPA page is taken for *)

(** [line.text.strip()], the text the loop of [_parse_topics] works on. *)
Definition line_text (line : ParsedLine.t) : string :=
  Str.strip (ParsedLine.text line).

(** The branch of the loop body a line takes: skipped as blank, kept as
    the current program, skipped as boilerplate, stored as a field of the
    current topic, or opening a new topic. *)
Inductive line_kind := Blank | Program | Ignored | Field (key : string) | Title.

Global Instance line_kind_eq_dec : EqDecision line_kind.
Proof. solve_decision. Defined.

Definition kind_of (line : ParsedLine.t) : line_kind :=
  let text := line_text line in
  let lower := Str.lower text in
  if negb (Str.truthy text) then Blank
  else if startswith lower "sbir |" || startswith lower "sttr |" || startswith lower "baa"
  then Program
  else if startswith lower "each year" || startswith lower "all sbir/sttr topics"
  then Ignored
  else if one_of lower ["important"; "active announcement topics"] then Ignored
  else if one_of lower ["solicitation"; "faqs"; "faq"] then Ignored
  else if startswith lower "objective:" || startswith lower "description:"
  then Field "objective"
  else if startswith lower "tech office:" then Field "tech_office"
  else if startswith lower "topic #:" || startswith lower "topic #"
  then Field "topic_number"
  else if startswith lower "pre-release:" then Field "pre_release"
  else if startswith lower "open:" then Field "open_date"
  else if startswith lower "closes:" || startswith lower "closed:"
          || startswith lower "deadline:"
  then Field "close_date"
  else Title.

(** The topics of the loop, the one being filled included. *)
Definition all_topics (st : Dod.parsing) : list dict :=
  Dod.topics st ++ match Dod.current st with Some topic => [topic] | None => [] end.

(** A line that makes [_parse_topics] fail: a topic number without a
    colon, met while a topic is being filled. *)
Definition breaks_parse (lines : list ParsedLine.t) : Prop :=
  exists before bad after,
    lines = before ++ bad :: after
    /\ Exists (fun line => kind_of line = Title) before
    /\ kind_of bad = Field "topic_number"
    /\ after_colon (line_text bad) = None.

(** The titles of the lines that open a topic, in order. *)
Definition titles_of (lines : list ParsedLine.t) : list (option string) :=
  map (fun line => Some (line_text line)) (filter (fun line => kind_of line = Title) lines).

(** What every opportunity of the DARPA adapter looks like. *)
Definition dod_shaped (o : Opportunity.t) : Prop :=
  Opportunity.source o = Some "dod_darpa"
  /\ Opportunity.agency o = Some "DOD"
  /\ Opportunity.branch o = Some "DARPA"
  /\ (exists title,
        Opportunity.topic_title o = Some title /\ Str.truthy title = true
        /\ Opportunity.id o
           = "dod_darpa::" +:+ match Opportunity.topic_number o with
                               | Some "" | None => title
                               | Some number => number
                               end)
  /\ Opportunity.id o <> "dod_darpa::"
  /\ Str.truthy (Opportunity.solicitation_title o) = true
  /\ is_Some (Opportunity.url o)
  /\ Opportunity.subtopic_title o = None.

(** A page with a program line, a topic with its number and dates, and a
    second topic whose number line lacks the colon. *)
Definition darpa_page : list ParsedLine.t :=
  [ParsedLine.mk "Active Announcement Topics" [];
   ParsedLine.mk "SBIR | Program A" [];
   ParsedLine.mk "Autonomous swarms" ["/topics/1"];
   ParsedLine.mk "Topic #: HR0011-01" [];
   ParsedLine.mk "Closes: 2026-01-01" [];
   ParsedLine.mk "Closed Announcement Topics" [];
   ParsedLine.mk "Old topic" []].
Definition darpa_broken_page : list ParsedLine.t :=
  [ParsedLine.mk "Autonomous swarms" []; ParsedLine.mk "Topic # HR0011-01" []].

(** ** nsf.py and the line parser: what comes out *)

(** An opportunity of the NSF adapter, built from some line of the
    solicitations section: titled by the line and identified by a link of
    the line that names a solicitation. *)
Definition nsf_built_from (urljoin : string -> string -> string)
    (solicitations_url : string) (section : list ParsedLine.t) (o : Opportunity.t)
    : Prop :=
  exists line href,
    line ∈ section
    /\ href ∈ ParsedLine.hrefs line
    /\ Str.truthy href = true
    /\ contains "solicitation" (Str.lower href) = true
    /\ Opportunity.solicitation_title o = line_text line
    /\ Str.truthy (line_text line) = true
    /\ Nsf._is_relevant_title (line_text line) = true
    /\ Opportunity.id o = "nsf_seedfund::" +:+ href
    /\ Opportunity.url o = Some (Nsf._normalize_url urljoin solicitations_url (Some href))
    /\ Opportunity.source o = Some "nsf_seedfund"
    /\ Opportunity.agency o = Some "NSF".

(** A line as the parser hands it over: a non-empty stripped text, and
    links that are non-empty and all different. *)
Definition clean_line (line : ParsedLine.t) : Prop :=
  Str.truthy (ParsedLine.text line) = true
  /\ Str.strip (ParsedLine.text line) = ParsedLine.text line
  /\ NoDup (ParsedLine.hrefs line)
  /\ Forall (fun href => Str.truthy href = true) (ParsedLine.hrefs line).

(** What the handlers keep true: the lines handed over so far are clean,
    and no empty link is pending. *)
Definition parser_ok (self : LineParser.t) : Prop :=
  Forall clean_line (LineParser.lines self)
  /\ Forall (fun href => Str.truthy href = true) (LineParser._hrefs self).

(** ** nih.py: from the entries of the NIH Guide feed to opportunities *)

(** An entry of a parsed feed: its [get] method, which resolves the
    aliases of feedparser's keys, and [dict(entry)]. *)
Module FeedEntry.
Record t := mk {
  get : string -> option json;
  as_dict : dict
}.
End FeedEntry.

Module Nih.

Module NihEntry.
Record t := mk {
  title : string;
  link : string;
  summary : option string;
  published : option string;
  entry_id : option string
}.
End NihEntry.

Section adapter.
Variable py_str : json -> string.

(** [_to_str(value)]: nih.py has its own copy of the function of sbir.py. *)
Definition _to_str (value : option json) : option string := _to_str py_str value.





End adapter.
End Nih.



(** ** The class attributes of the examples *)

(** The attributes of the class the examples run with: the name of its
    module, and three objects that are not strings. The examples configure
    names of fields only, under which no attribute of the class is looked
    up. *)
#[global] Instance example_class_attrs : ClassAttrs :=
  fun name =>
    if String.eqb name "__module__" then AttrStr "sbir_search.models"
    else if bool_decide (name ∈ ["__slots__"; "__class__"; "__dataclass_fields__"])
    then AttrObject true
    else AttrNone.

(** * Properties *)

(** ** Regular expressions *)

Ltac each_char c :=
  destruct c as [[] [] [] [] [] [] [] []].

Lemma special_char_escaped c :
  Re.in_chars c Re.special_chars = true ->
  Str.is_alnum c = false /\ Ascii.eqb c "b" = false.
Proof. each_char c; vm_compute; intros H; (discriminate H || (split; reflexivity)). Qed.

Lemma plain_char_literal c :
  Re.in_chars c Re.special_chars = false ->
  Ascii.eqb c "\" = false /\ Re.in_chars c Re.meta_chars = false.
Proof. each_char c; vm_compute; intros H; (discriminate H || (split; reflexivity)). Qed.

Lemma alnum_char_plain c :
  Str.is_alnum c = true -> Re.in_chars c Re.special_chars = false.
Proof. each_char c; vm_compute; intros H; (discriminate H || reflexivity). Qed.

(** An escaped string always parses, to the literal characters it came from. *)
Lemma parse_escape s : Re.parse (Re.escape s) = Some (lits s).
Proof.
  induction s as [|c s IH]; [reflexivity|].
  cbn [Re.escape]. destruct (Re.in_chars c Re.special_chars) eqn:Hc.
  - destruct (special_char_escaped c Hc) as [Ha Hb].
    change (Re.parse (String "\" (String c (Re.escape s))))
      with (if Ascii.eqb c "b" then cons Re.WordBoundary <$> Re.parse (Re.escape s)
            else if Str.is_alnum c then None
            else cons (Re.Lit c) <$> Re.parse (Re.escape s)).
    rewrite Ha, Hb, IH. reflexivity.
  - destruct (plain_char_literal c Hc) as [Ha Hb].
    cbn [Re.parse]. rewrite Ha, Hb, IH. reflexivity.
Qed.

Lemma escape_alnum s : Str.forallb Str.is_alnum s = true -> Re.escape s = s.
Proof.
  induction s as [|c s IH]; [reflexivity|]. cbn [Str.forallb Re.escape].
  intros [Hc Hs]%andb_true_iff. rewrite (alnum_char_plain c Hc), (IH Hs). reflexivity.
Qed.

Lemma append_nil s : "" +:+ s = s.
Proof. reflexivity. Qed.

Lemma append_cons c s t : String c s +:+ t = String c (s +:+ t).
Proof. reflexivity. Qed.

Lemma lits_app s t : lits (s +:+ t) = (lits s ++ lits t)%list.
Proof.
  unfold lits. induction s as [|c s IH]; [reflexivity|].
  rewrite append_cons. simpl. f_equal. exact IH.
Qed.

(** A run of alphanumeric characters in front of a pattern parses to
    literals. *)
Lemma parse_alnum_prefix s rest :
  Str.forallb Str.is_alnum s = true ->
  Re.parse (s +:+ rest) = (fun p => (lits s ++ p)%list) <$> Re.parse rest.
Proof.
  induction s as [|c s IH]; cbn [Str.forallb].
  - intros _. rewrite append_nil. destruct (Re.parse rest); reflexivity.
  - intros [Hc Hs]%andb_true_iff.
    destruct (plain_char_literal c (alnum_char_plain c Hc)) as [Ha Hb].
    rewrite append_cons. cbn [Re.parse]. rewrite Ha, Hb, (IH Hs).
    destruct (Re.parse rest); reflexivity.
Qed.

(** [_compile_keyword] never raises, and its pattern is a plain literal: the
    keyword itself, or the keyword between two copies of the two characters
    backslash and b. *)
Lemma compile_keyword_literal keyword :
  _compile_keyword keyword = Ok (lits (compiled_literal keyword)).
Proof.
  unfold _compile_keyword, compiled_literal, Re.compile.
  destruct (Str.isalnum keyword && (String.length keyword <=? 3)%nat) eqn:Hshort.
  - apply andb_true_iff in Hshort as [[_ Hal]%andb_true_iff _].
    rewrite (escape_alnum _ Hal).
    change ("\\b" +:+ keyword +:+ "\\b")
      with (String "\" (String "\" (String "b" (keyword +:+ "\\b")))).
    cbn [Re.parse]. change (Ascii.eqb "\" "\") with true. cbn match.
    change (Ascii.eqb "\" "b") with false. change (Str.is_alnum "\") with false.
    cbn match. change (Ascii.eqb "b" "\") with false.
    change (Re.in_chars "b" Re.meta_chars) with false. cbn match.
    rewrite (parse_alnum_prefix _ _ Hal).
    change (Re.parse "\\b") with (Some (lits "\b")). cbn [fmap option_fmap option_map].
    change ("\b" +:+ keyword +:+ "\b") with (String "\" (String "b" (keyword +:+ "\b"))).
    unfold lits at 3. cbn [list_ascii_of_string map]. fold (lits (keyword +:+ "\b")).
    rewrite lits_app. reflexivity.
  - rewrite parse_escape. reflexivity.
Qed.

Lemma match_here_lits p prev text :
  Re.match_here (lits p) prev text = Str.prefix_ci p text.
Proof.
  revert prev text. induction p as [|c p IH]; intros prev text.
  - destruct text; reflexivity.
  - destruct text as [|d text]; [reflexivity|].
    change (lits (String c p)) with (Re.Lit c :: lits p).
    cbn [Re.match_here Str.prefix_ci]. rewrite IH. reflexivity.
Qed.

(** Searching for a pattern of literals is case-insensitive substring search. *)
Lemma search_lits p text : Re.search (lits p) text = Str.occurs_ci p text.
Proof.
  unfold Re.search. generalize (@None ascii) as prev.
  induction text as [|d text IH]; intros prev.
  - cbn [Re.search_from Str.occurs_ci]. rewrite match_here_lits. reflexivity.
  - cbn [Re.search_from Str.occurs_ci]. rewrite match_here_lits, IH. reflexivity.
Qed.

(** What the compiled pattern of any keyword finds: the literal text of
    [compiled_literal], anywhere, up to case. *)
Lemma keyword_found_literal keyword text :
  keyword_found keyword text = Ok (Str.occurs_ci (compiled_literal keyword) text).
Proof.
  unfold keyword_found. rewrite compile_keyword_literal. cbn [bind].
  rewrite search_lits. reflexivity.
Qed.

(** A keyword that is not both alphanumeric and at most three characters
    long is found exactly as a case-insensitive substring. *)
Lemma long_keyword_is_substring_search keyword text :
  Str.isalnum keyword && (String.length keyword <=? 3)%nat = false ->
  keyword_found keyword text = Ok (Str.occurs_ci keyword text).
Proof.
  intros H. rewrite keyword_found_literal. unfold compiled_literal. rewrite H. reflexivity.
Qed.

(** C1 (the code at the claim's own example). The claim: the keyword "AI"
    is compiled to a whole-word pattern, so it matches the text "AI research"
    and does not match "pAId". The source writes the two boundary markers
    with a doubled backslash inside a raw string, so the compiled pattern
    asks for the literal characters backslash, b around the keyword: it does
    not match "AI research" (nor its lower-cased form, which is what the
    matcher searches), it matches a text that spells those characters out,
    while the pattern the specification describes behaves as the claim says. *)
Theorem C1_short_keyword_is_not_word_anchored :
  keyword_found "AI" "AI research" = Ok false
  /\ keyword_found "ai" "ai research" = Ok false
  /\ keyword_found "AI" "pAId" = Ok false
  /\ keyword_found "AI" "see \bai\b here" = Ok true
  /\ Re.search (spec_compile_keyword "AI") "AI research" = true
  /\ Re.search (spec_compile_keyword "AI") "pAId" = false.
Proof. repeat split; vm_compute; reflexivity. Qed.

(** ** The matching engine *)

Lemma mapM_compile_keyword keywords :
  mapM _compile_keyword keywords = Ok (compiled_of keywords).
Proof.
  induction keywords as [|kw keywords IH]; [reflexivity|].
  cbn [mapM]. rewrite compile_keyword_literal, IH. reflexivity.
Qed.

Lemma match_opportunities_unfold {attrs : ClassAttrs} opportunities config :
  match_opportunities opportunities config =
  for_each (match_one config (cfg_keywords config) (cfg_excludes config)
              (cfg_always_include config)
              (compiled_of (cfg_keywords config)) (compiled_of (cfg_excludes config)))
           (MatchResult.mk [] 0 []) opportunities.
Proof.
  unfold match_opportunities.
  fold (cfg_keywords config) (cfg_excludes config) (cfg_always_include config).
  rewrite !mapM_compile_keyword. reflexivity.
Qed.

Lemma attr_of_option_joinable o : unjoinable (attr_of_option o) = false.
Proof. by destruct o. Qed.

(** A field that holds a [str] or [None] can always be joined. *)
Lemma getattr_text_field {attrs : ClassAttrs} o field_name :
  field_name ∈ text_field_names -> unjoinable (getattr o field_name) = false.
Proof.
  unfold text_field_names. intros Hin.
  repeat (apply elem_of_cons in Hin as [->|Hin];
          [first [reflexivity | apply attr_of_option_joinable]|]).
  by apply elem_of_nil in Hin.
Qed.

(** [build_text] can only fail on a configured field whose value is truthy
    and not a [str]. *)
Lemma collect_join_raise {attrs : ClassAttrs} o match_fields e :
  join_lines (collect_fields o match_fields) = Raise e ->
  exn_cls e = TypeError
  /\ exists name, name ∈ match_fields /\ unjoinable (getattr o name) = true.
Proof.
  assert (forall (P : string -> Prop) f rest,
             (exists name, name ∈ rest /\ P name) ->
             exists name, name ∈ f :: rest /\ P name) as Hlater.
  { intros P f rest (name & Hin & HP). exists name. split; [|exact HP].
    apply elem_of_cons. by right. }
  induction match_fields as [|f rest IH]; [discriminate|].
  cbn [collect_fields]. destruct (getattr o f) as [|s|d|truthy] eqn:Hattr.
  - intros H. destruct (IH H) as [? ?]. split; [assumption|]. by apply Hlater.
  - destruct (Str.truthy s).
    + cbn [join_lines]. destruct (join_lines (collect_fields o rest)) eqn:Hrest;
        cbn [bind]; [discriminate|].
      intros [= <-]. destruct (IH eq_refl) as [? ?].
      split; [assumption|]. by apply Hlater.
    + intros H. destruct (IH H) as [? ?]. split; [assumption|]. by apply Hlater.
  - destruct d as [|kv d].
    + intros H. destruct (IH H) as [? ?]. split; [assumption|]. by apply Hlater.
    + cbn [join_lines]. intros [= <-]. split; [reflexivity|].
      exists f. split; [apply elem_of_cons; by left|by rewrite Hattr].
  - destruct truthy.
    + cbn [join_lines]. intros [= <-]. split; [reflexivity|].
      exists f. split; [apply elem_of_cons; by left|by rewrite Hattr].
    + intros H. destruct (IH H) as [? ?]. split; [assumption|]. by apply Hlater.
Qed.

Lemma build_text_raise {attrs : ClassAttrs} o config e :
  build_text o config = Raise e ->
  exn_cls e = TypeError
  /\ exists name,
       name ∈ MatchConfig.match_fields (AppConfig.match_ config)
       /\ unjoinable (getattr o name) = true.
Proof.
  unfold build_text.
  destruct (join_lines _) eqn:Hjoin; cbn [bind]; [discriminate|].
  intros [= <-]. eapply collect_join_raise. exact Hjoin.
Qed.

Section match_one_facts.
Context {attrs : ClassAttrs}.
Variable config : AppConfig.t.

Let body :=
  match_one config (cfg_keywords config) (cfg_excludes config)
    (cfg_always_include config)
    (compiled_of (cfg_keywords config)) (compiled_of (cfg_excludes config)).

(** One iteration appends exactly one evaluation, for the record at hand,
    and either one match for it or one unit of [skipped]. *)
Lemma match_one_ok acc o acc' :
  body acc o = Ok acc' ->
  (exists ev, Evaluation.opportunity ev = o
              /\ MatchResult.evaluations acc' = MatchResult.evaluations acc ++ [ev])
  /\ (if accepted_by config o
      then (exists m, Match.opportunity m = o
                      /\ MatchResult.matches acc' = MatchResult.matches acc ++ [m])
           /\ MatchResult.skipped acc' = MatchResult.skipped acc
      else MatchResult.matches acc' = MatchResult.matches acc
           /\ MatchResult.skipped acc' = S (MatchResult.skipped acc)).
Proof.
  unfold body, match_one, accepted_by.
  fold (whitelisted config o).
  destruct (agency_rejected config o); cbn [negb andb].
  { intros [= <-]. split; [eexists; split; [|reflexivity]; reflexivity|]. by split. }
  destruct (build_text o config) as [text|e]; cbn [bind]; [|discriminate].
  fold (excluded_in config text) (matched_in config text).
  destruct (Str.truthy text) eqn:Htext, (whitelisted config o) eqn:Hwl;
    cbn [negb andb orb];
    try (intros [= <-]; split; [eexists; split; [|reflexivity]; reflexivity|]; by split).
  all: destruct (opt_truthy (excluded_in config text)); cbn [negb andb];
    try (intros [= <-]; split; [eexists; split; [|reflexivity]; reflexivity|]; by split).
  all: destruct (Z.of_nat (length (matched_in config text)) <? _); cbn [negb andb];
    intros [= <-]; (split; [eexists; split; [|reflexivity]; reflexivity|]);
    first [ by split | split; [eexists; split; [|reflexivity]; reflexivity|reflexivity] ].
Qed.

Lemma match_one_raise acc o e :
  body acc o = Raise e ->
  exn_cls e = TypeError
  /\ exists name,
       name ∈ MatchConfig.match_fields (AppConfig.match_ config)
       /\ unjoinable (getattr o name) = true.
Proof.
  unfold body, match_one.
  destruct (agency_rejected config o); [discriminate|].
  destruct (build_text o config) as [text|e'] eqn:Htext; cbn [bind].
  - repeat match goal with |- context [if ?b then _ else _] => destruct b end;
      discriminate.
  - intros [= <-]. eapply build_text_raise. exact Htext.
Qed.

(** The loop, from any accumulator. *)
Lemma for_each_match_ok opportunities : forall acc r,
  for_each body acc opportunities = Ok r ->
  map Evaluation.opportunity (MatchResult.evaluations r)
    = map Evaluation.opportunity (MatchResult.evaluations acc) ++ opportunities
  /\ map Match.opportunity (MatchResult.matches r)
    = map Match.opportunity (MatchResult.matches acc)
      ++ filter (fun o => accepted_by config o = true) opportunities
  /\ (length (MatchResult.matches r) + MatchResult.skipped r
     = length (MatchResult.matches acc) + MatchResult.skipped acc
       + length opportunities)%nat.
Proof.
  induction opportunities as [|o rest IH]; intros acc r.
  - intros [= <-]. rewrite filter_nil, !app_nil_r. cbn [length]. repeat split; lia.
  - cbn [for_each]. destruct (body acc o) as [acc'|e] eqn:Hstep; cbn [bind]; [|discriminate].
    intros Hrest. destruct (IH _ _ Hrest) as (Hev & Hm & Hcount).
    destruct (match_one_ok _ _ _ Hstep) as [(ev & Hevo & Hevs) Hacc].
    rewrite Hev, Hm, Hcount, Hevs, map_app, <- app_assoc. cbn [map app]. rewrite Hevo.
    split; [reflexivity|]. rewrite filter_cons.
    destruct (accepted_by config o).
    + destruct Hacc as [(m & Hmo & Hms) Hsk]. rewrite Hms, Hsk, map_app, length_app.
      cbn [map length]. rewrite Hmo, <- app_assoc.
      rewrite decide_True by reflexivity. split; [reflexivity|lia].
    + destruct Hacc as [Hms Hsk]. rewrite Hms, Hsk.
      rewrite decide_False by discriminate. split; [reflexivity|cbn [length]; lia].
Qed.

Lemma for_each_match_raise opportunities : forall acc e,
  for_each body acc opportunities = Raise e ->
  exn_cls e = TypeError
  /\ exists o name,
       o ∈ opportunities
       /\ name ∈ MatchConfig.match_fields (AppConfig.match_ config)
       /\ unjoinable (getattr o name) = true.
Proof.
  induction opportunities as [|o rest IH]; intros acc e; [discriminate|].
  cbn [for_each]. destruct (body acc o) as [acc'|e'] eqn:Hstep; cbn [bind].
  - intros Hrest. destruct (IH _ _ Hrest) as (Hcls & o' & name & Hin & Hname).
    split; [exact Hcls|]. exists o', name. split; [|exact Hname].
    apply elem_of_cons. by right.
  - intros [= <-]. destruct (match_one_raise _ _ _ Hstep) as (Hcls & name & Hname).
    split; [exact Hcls|]. exists o, name. split; [|exact Hname].
    apply elem_of_cons. by left.
Qed.
End match_one_facts.

(** The matches are the accepted records, in input order. *)
Lemma matches_are_accepted {attrs : ClassAttrs} opportunities config r :
  match_opportunities opportunities config = Ok r ->
  map Match.opportunity (MatchResult.matches r)
  = filter (fun o => accepted_by config o = true) opportunities.
Proof.
  rewrite match_opportunities_unfold. intros H.
  destruct (for_each_match_ok config _ _ _ H) as (_ & Hm & _). exact Hm.
Qed.

(** C10. For every opportunity list and configuration, whatever attributes
    the class has: when the engine returns, its result has exactly one
    Evaluation per input opportunity, in input order, and its accepted
    matches and skipped count add up to the number of inputs. The engine
    fails to return only with the [TypeError] of joining the text, for which
    some input record must hold, under a configured match field, a value
    that is truthy and not a [str] (the [raw] dict, or an attribute of the
    class); it returns whenever the configured match fields are all among
    the fields holding a [str] or [None]. *)
Theorem C10_counting_invariant {attrs : ClassAttrs} opportunities config :
  match match_opportunities opportunities config with
  | Ok r =>
      length (MatchResult.evaluations r) = length opportunities
      /\ map Evaluation.opportunity (MatchResult.evaluations r) = opportunities
      /\ (length (MatchResult.matches r) + MatchResult.skipped r
          = length opportunities)%nat
  | Raise e =>
      exn_cls e = TypeError
      /\ exists o name,
           o ∈ opportunities
           /\ name ∈ MatchConfig.match_fields (AppConfig.match_ config)
           /\ unjoinable (getattr o name) = true
  end
  /\ ((forall name,
         name ∈ MatchConfig.match_fields (AppConfig.match_ config) ->
         name ∈ text_field_names) ->
      raises (match_opportunities opportunities config) = false).
Proof.
  rewrite match_opportunities_unfold.
  destruct (for_each _ _ opportunities) as [r|e] eqn:Hloop.
  - split; [|reflexivity].
    destruct (for_each_match_ok config _ _ _ Hloop) as (Hev & _ & Hcount).
    cbn [MatchResult.evaluations MatchResult.matches MatchResult.skipped map app length]
      in Hev, Hcount.
    split; [|split; [exact Hev|lia]].
    rewrite <- (length_map Evaluation.opportunity), Hev. reflexivity.
  - pose proof (for_each_match_raise config _ _ _ Hloop) as Hraise.
    split; [exact Hraise|]. intros Htext.
    destruct Hraise as (_ & o & name & _ & Hname & Hbad).
    rewrite (getattr_text_field o name (Htext name Hname)) in Hbad. discriminate.
Qed.

(** A match field may name an attribute of the class instead of a field.
    Under [__slots__], a tuple, the text cannot be joined and the engine
    raises, although [raw] is not configured; under [__module__], a string,
    the name of the module becomes the text of every record; a name the
    class does not have contributes nothing. *)
Example class_attribute_example :
  raises (match_opportunities [robotics_opportunity]
            (config_matching_on ["solicitation_title"; "__slots__"])) = true
  /\ build_text robotics_opportunity (config_matching_on ["__module__"])
     = Ok "sbir_search.models"
  /\ build_text robotics_opportunity (config_matching_on ["no_such_field"]) = Ok "".
Proof. repeat split; vm_compute; reflexivity. Qed.

(** The specification's end-to-end scenario, on the code: the keyword "AI"
    is compiled to the literal of [compile_keyword_literal], which the title
    "AI robotics research" does not contain, so both records are skipped for
    a score below the minimum. *)
Lemma end_to_end_scenario_finds_nothing :
  match_opportunities [scenario_a; scenario_b] scenario_config
  = Ok (MatchResult.mk
          []
          2
          [Evaluation.mk scenario_a 0 [] (Some (score_below 1));
           Evaluation.mk scenario_b 0 [] (Some (score_below 1))]).
Proof. vm_compute. reflexivity. Qed.

(** *** Exclusion and the whitelist *)

Lemma lower_empty s : Str.lower s = "" -> s = "".
Proof. destruct s; [reflexivity|discriminate]. Qed.

Lemma first_excluded_matches text excludes :
  opt_truthy (_first_excluded text (compiled_of excludes) excludes) = true ->
  existsb (fun kw => Str.occurs_ci (compiled_literal kw) text) excludes = true.
Proof.
  induction excludes as [|kw excludes IH]; [discriminate|].
  cbn [compiled_of map _first_excluded existsb]. rewrite search_lits.
  destruct (Str.occurs_ci (compiled_literal kw) text); [reflexivity|].
  exact IH.
Qed.

(** With no empty exclude keyword, [excluded] is truthy as soon as some
    exclude pattern matches. *)
Lemma first_excluded_truthy text excludes :
  "" ∉ excludes ->
  opt_truthy (_first_excluded text (compiled_of excludes) excludes)
  = existsb (fun kw => Str.occurs_ci (compiled_literal kw) text) excludes.
Proof.
  induction excludes as [|kw excludes IH]; [reflexivity|].
  intros Hne. cbn [compiled_of map _first_excluded existsb]. rewrite search_lits.
  destruct (Str.occurs_ci (compiled_literal kw) text).
  - destruct kw; [|reflexivity]. exfalso. apply Hne, elem_of_cons. by left.
  - apply IH. intros Hin. apply Hne, elem_of_cons. by right.
Qed.

(** The scope of the whitelist when no exclude keyword is empty: a record
    is accepted exactly when it passes the agency filter, no exclude pattern
    matches its non-empty text, and it is whitelisted or has a non-empty
    text scoring at least the minimum. *)
Lemma whitelist_scope {attrs : ClassAttrs} config o text :
  "" ∉ MatchConfig.exclude_keywords (AppConfig.match_ config) ->
  build_text o config = Ok text ->
  accepted_by config o
  = negb (agency_rejected config o)
    && negb (Str.truthy text && some_exclude_matches config text)
    && (whitelisted config o
        || (Str.truthy text
            && (MatchConfig.min_score (AppConfig.match_ config)
                <=? Z.of_nat (length (matched_in config text))))).
Proof.
  intros Hne Htext. unfold accepted_by, some_exclude_matches. rewrite Htext.
  assert ("" ∉ cfg_excludes config) as Hne'.
  { unfold cfg_excludes. intros (kw & Hkw & Hin)%list_elem_of_fmap.
    symmetry in Hkw. apply lower_empty in Hkw as ->. contradiction. }
  unfold excluded_in. destruct (Str.truthy text) eqn:Ht.
  - rewrite (first_excluded_truthy _ _ Hne').
    rewrite Z.ltb_antisym.
    destruct (agency_rejected config o), (whitelisted config o), (existsb _ _),
      (_ <=? _); reflexivity.
  - cbn [opt_truthy]. unfold matched_in. rewrite Ht.
    destruct (agency_rejected config o), (whitelisted config o), (_ <? _); reflexivity.
Qed.

(** *** The exclusion check at an empty exclude keyword *)

(** C3 (the code at an empty exclude keyword). The claim: a whitelisted
    record whose non-empty text matches an exclude keyword is still skipped.
    [_first_excluded] returns the first exclude keyword whose pattern
    matches, and the loop tests that string for truth: the empty keyword
    matches every text and is falsy, so with the exclude keywords
    ["", "classified"] the whitelisted record titled "Classified robotics
    study" is accepted as a Match although the pattern of "classified"
    matches its text; without the empty keyword the same record is skipped
    with [excluded_keyword:classified]. *)
Theorem C3_empty_exclude_keyword_disables_exclusion :
  build_text classified_record empty_exclude_config = Ok "classified robotics study"
  /\ whitelisted empty_exclude_config classified_record = true
  /\ keyword_found "classified" "classified robotics study" = Ok true
  /\ match_opportunities [classified_record] empty_exclude_config
     = Ok (MatchResult.mk
             [Match.mk classified_record 1 ["robotics"] "classified robotics study"]
             0
             [Evaluation.mk classified_record 1 ["robotics"] None])
  /\ match_opportunities [classified_record] plain_exclude_config
     = Ok (MatchResult.mk
             []
             1
             [Evaluation.mk classified_record 0 []
                            (Some (excluded_keyword "classified"))]).
Proof. repeat split; vm_compute; reflexivity. Qed.

(** ** The orchestrator *)

Lemma guarded_eq cond who r st :
  guarded cond who r st = (record_call st who r cond, cond && raises r).
Proof.
  unfold guarded, try_source, record_call.
  destruct cond, r, st; cbn; rewrite ?app_nil_r; reflexivity.
Qed.

Lemma try_source_eq who r st :
  try_source who r st = (record_call st who r true, raises r).
Proof. exact (guarded_eq true who r st). Qed.

Section collect_facts.
Variable py_str : json -> string.
Variable config : AppConfig.t.
Variable world : Adapters.t.

Let fetch := fetched py_str world.
Let enters := entered py_str config world.
Let breaks := fails py_str world.

(** The six blocks, one after the other. *)
Lemma run_sources_eq :
  run_sources py_str config world
  = fold_left (fun st who => record_call st who (fetch who) (enters who))
              priority_order (Collected.mk [] [] [] []).
Proof.
  unfold run_sources. rewrite try_source_eq. cbv iota beta.
  repeat (rewrite guarded_eq; cbv iota beta).
  reflexivity.
Qed.

Lemma run_sources_calls :
  Collected.calls (run_sources py_str config world)
  = flat_map (fun who => if enters who then [(who, negb (breaks who))] else [])
             priority_order.
Proof. rewrite run_sources_eq. cbn. rewrite !app_nil_r, <- !app_assoc. reflexivity. Qed.

Lemma run_sources_opportunities :
  Collected.opportunities (run_sources py_str config world)
  = flat_map (fun who => if enters who then records_of (fetch who) else [])
             priority_order.
Proof. rewrite run_sources_eq. cbn. rewrite !app_nil_r, <- !app_assoc. reflexivity. Qed.

Lemma run_sources_errors :
  Collected.errors (run_sources py_str config world)
  = flat_map (fun who => if enters who then error_of who (fetch who) else [])
             priority_order.
Proof. rewrite run_sources_eq. cbn. rewrite !app_nil_r, <- !app_assoc. reflexivity. Qed.

Lemma run_sources_reports :
  Collected.reports (run_sources py_str config world)
  = flat_map (fun who => if enters who then report_of who (fetch who) else [])
             priority_order.
Proof. rewrite run_sources_eq. cbn. rewrite !app_nil_r, <- !app_assoc. reflexivity. Qed.

(** The [fail_on_no_results] test does not change the trace. *)
Lemma collect_calls :
  CollectRun.calls (collect_opportunities py_str config world)
  = Collected.calls (run_sources py_str config world).
Proof.
  unfold collect_opportunities.
  destruct (Collected.opportunities _), (Collected.errors _),
    (AppConfig.fail_on_no_results config); reflexivity.
Qed.

(** An adapter appears in the trace exactly when its block is entered. *)
Lemma executed_entered who :
  executed (Collected.calls (run_sources py_str config world)) who = enters who.
Proof.
  rewrite run_sources_calls. unfold executed, priority_order. cbn [flat_map].
  change (enters sbir) with true.
  destruct who;
    generalize (enters dod_darpa) (enters nsf_seedfund) (enters nih_guide)
      (enters grants_rss) (enters sam);
    intros e1 e2 e3 e4 e5;
    destruct e1, e2, e3, e4, e5; reflexivity.
Qed.

(** It appears as failed exactly when its block is entered and it raises. *)
Lemma failed_entered who :
  failed (Collected.calls (run_sources py_str config world)) who
  = enters who && breaks who.
Proof.
  rewrite run_sources_calls. unfold failed, priority_order. cbn [flat_map].
  change (enters sbir) with true.
  destruct who;
    generalize (enters dod_darpa) (enters nsf_seedfund) (enters nih_guide)
      (enters grants_rss) (enters sam)
      (breaks sbir) (breaks dod_darpa) (breaks nsf_seedfund) (breaks nih_guide)
      (breaks grants_rss) (breaks sam);
    intros e1 e2 e3 e4 e5 f0 f1 f2 f3 f4 f5;
    destruct e1, e2, e3, e4, e5, f0, f1, f2, f3, f4, f5; reflexivity.
Qed.
End collect_facts.

(** C2 (counterexample). The primary succeeds, the DARPA scrape (enabled,
    not fallback-only) is called and fails, and the NSF scrape is enabled
    and fallback-only: the rule of the claim says the NSF scrape executes,
    the run does not call it. *)
Lemma C2_later_fallback_not_triggered :
  let log := CollectRun.calls
               (collect_opportunities str_of_nothing dod_first_config dod_down_world) in
  failed log sbir = false
  /\ failed log dod_darpa = true
  /\ spec_should_execute dod_first_config log nsf_seedfund = true
  /\ executed log nsf_seedfund = false
  /\ executed log sam = true.
Proof. vm_compute. repeat split; reflexivity. Qed.

(** C2 (as the code has it). The primary always executes. A secondary
    other than SAM.gov executes exactly when it is enabled and either is not
    fallback-only or the primary failed; the failure of another secondary
    does not trigger it. SAM.gov, the last adapter, executes exactly when it
    is enabled and either is not fallback-only or some adapter that executed
    before it (the primary or any secondary) failed. *)
Theorem C2_fallback_gates py_str config world :
  let log := CollectRun.calls (collect_opportunities py_str config world) in
  executed log sbir = true
  /\ Forall (fun who =>
               executed log who
               = SourceConfig.enabled (source_flags config who)
                 && (negb (SourceConfig.fallback_only (source_flags config who))
                     || failed log sbir))
            [dod_darpa; nsf_seedfund; nih_guide; grants_rss]
  /\ executed log sam
     = SourceConfig.enabled (source_flags config sam)
       && (negb (SourceConfig.fallback_only (source_flags config sam))
           || existsb (failed log) (earlier sam)).
Proof.
  cbv zeta. rewrite collect_calls. cbn [earlier existsb].
  rewrite !Forall_cons, Forall_nil, !executed_entered, !failed_entered.
  unfold entered, primary_gate. cbn [source_flags andb].
  generalize (fails py_str world sbir) (fails py_str world dod_darpa)
    (fails py_str world nsf_seedfund) (fails py_str world nih_guide)
    (fails py_str world grants_rss).
  intros f0 f1 f2 f3 f4.
  destruct (AppConfig.dod config) as [e1 b1], (AppConfig.nsf config) as [e2 b2],
    (AppConfig.nih config) as [e3 b3], (AppConfig.rss config) as [e4 b4],
    (AppConfig.sam config) as [e5 b5].
  cbn [SourceConfig.enabled SourceConfig.fallback_only].
  repeat split.
  - destruct e1, b1, f0; reflexivity.
  - destruct e2, b2, f0; reflexivity.
  - destruct e3, b3, f0; reflexivity.
  - destruct e4, b4, f0; reflexivity.
  - destruct e5; [|reflexivity]. destruct b5; [|by rewrite !orb_true_r].
    destruct f0; [reflexivity|]. cbn [orb andb negb].
    destruct e4, f4; cbn [orb andb negb]; rewrite ?orb_true_r; try reflexivity;
      destruct e1, f1; cbn [orb andb negb]; rewrite ?orb_true_r; try reflexivity;
      destruct e2, f2; cbn [orb andb negb]; rewrite ?orb_true_r; try reflexivity;
      destruct e3, f3; cbn [orb andb negb]; rewrite ?orb_true_r; try reflexivity;
      destruct b1, b2, b3, b4; reflexivity.
Qed.

(** C4 (counterexample). With [fail_on_no_results] set, every adapter
    called and answering with no record, the run returns normally: six
    reports of zero records and no error. *)
Lemma C4_empty_success_returns :
  AppConfig.fail_on_no_results eager_config = true
  /\ CollectRun.calls (collect_opportunities str_of_nothing eager_config quiet_world)
     = [(sbir, true); (dod_darpa, true); (nsf_seedfund, true); (nih_guide, true);
        (grants_rss, true); (sam, true)]
  /\ CollectRun.outcome (collect_opportunities str_of_nothing eager_config quiet_world)
     = Ok ([] : list Opportunity.t,
           [SourceReport.mk "sbir" 0; SourceReport.mk "dod_darpa" 0;
            SourceReport.mk "nsf_seedfund" 0; SourceReport.mk "nih_guide" 0;
            SourceReport.mk "grants_rss" 0; SourceReport.mk "sam" 0],
           [] : list string).
Proof. repeat split; reflexivity. Qed.

Lemma error_of_failed (b : bool) who r :
  (if b then error_of who r else []) = (if b && raises r then error_of who r else []).
Proof. destruct b, r; reflexivity. Qed.

(** C4 (as the code has it). An adapter that raises never ends the run by
    itself: its message, prefixed with the adapter's label, is appended to
    the errors, and the adapters after it are still consulted. The records
    are those of the adapters that were called and returned. The run raises
    exactly when [fail_on_no_results] is set, no record was collected and at
    least one adapter failed; otherwise it returns the three lists. *)
Theorem C4_collect_failure_policy py_str config world :
  let st := run_sources py_str config world in
  let run := collect_opportunities py_str config world in
  let log := CollectRun.calls run in
  Collected.errors st
  = flat_map (fun who => if failed log who
                         then error_of who (fetched py_str world who) else [])
             priority_order
  /\ Collected.opportunities st
     = flat_map (fun who => if executed log who
                            then records_of (fetched py_str world who) else [])
                priority_order
  /\ raises (CollectRun.outcome run)
     = AppConfig.fail_on_no_results config
       && is_empty (Collected.opportunities st)
       && existsb (failed log) priority_order
  /\ CollectRun.outcome run
     = if raises (CollectRun.outcome run)
       then Raise (Exn RuntimeError
                     ("All sources failed: " +:+ Str.join "; " (Collected.errors st)))
       else Ok (Collected.opportunities st, Collected.reports st, Collected.errors st).
Proof.
  cbv zeta. rewrite collect_calls.
  assert (Collected.errors (run_sources py_str config world)
          = flat_map (fun who =>
                        if failed (Collected.calls (run_sources py_str config world)) who
                        then error_of who (fetched py_str world who) else [])
                     priority_order) as Herr.
  { rewrite run_sources_errors. unfold priority_order. cbn [flat_map].
    rewrite !failed_entered. unfold fails. rewrite <- !error_of_failed. reflexivity. }
  assert (is_empty (Collected.errors (run_sources py_str config world))
          = negb (existsb (failed (Collected.calls (run_sources py_str config world)))
                          priority_order)) as Hany.
  { rewrite Herr. unfold priority_order. cbn [flat_map existsb].
    rewrite !failed_entered. unfold fails.
    generalize (entered py_str config world).
    intros en.
    destruct (fetched py_str world sbir), (fetched py_str world dod_darpa),
      (fetched py_str world nsf_seedfund), (fetched py_str world nih_guide),
      (fetched py_str world grants_rss), (fetched py_str world sam);
      cbn [raises error_of andb app];
      rewrite ?andb_false_r, ?andb_true_r; cbn [orb];
      destruct (en sbir), (en dod_darpa), (en nsf_seedfund), (en nih_guide),
        (en grants_rss), (en sam); reflexivity. }
  split; [exact Herr|]. split.
  { rewrite run_sources_opportunities. unfold priority_order. cbn [flat_map].
    rewrite !executed_entered. reflexivity. }
  unfold collect_opportunities.
  apply (f_equal negb) in Hany. rewrite negb_involutive in Hany. rewrite <- Hany.
  destruct (Collected.opportunities _), (Collected.errors _),
    (AppConfig.fail_on_no_results config); split; reflexivity.
Qed.

(** ** The dedup state *)

Lemma filter_new_filter matches state :
  _filter_new matches state
  = filter (fun m => Opportunity.id (Match.opportunity m) ∉ State.seen_ids state) matches.
Proof.
  induction matches as [|m matches IH]; [reflexivity|].
  cbn [_filter_new]. rewrite filter_cons, IH.
  destruct (decide (Opportunity.id (Match.opportunity m) ∉ State.seen_ids state)) as [H|H].
  - by rewrite bool_decide_eq_true_2.
  - by rewrite bool_decide_eq_false_2.
Qed.

(** C6. [_filter_new] returns exactly the matches whose opportunity id is
    absent from [seen_ids], in input order: it is the filter of the input by
    that test, hence a subsequence of the input holding precisely those
    matches; when every id is already seen the result is empty, and when
    none is, the result is the input unchanged. *)
Theorem C6_filter_new_keeps_unseen_in_order matches state :
  _filter_new matches state
  = filter (fun m => Opportunity.id (Match.opportunity m) ∉ State.seen_ids state) matches
  /\ sublist (_filter_new matches state) matches
  /\ (forall m, m ∈ _filter_new matches state
                <-> m ∈ matches
                    /\ Opportunity.id (Match.opportunity m) ∉ State.seen_ids state)
  /\ (Forall (fun m => Opportunity.id (Match.opportunity m) ∈ State.seen_ids state) matches
      -> _filter_new matches state = [])
  /\ (Forall (fun m => Opportunity.id (Match.opportunity m) ∉ State.seen_ids state) matches
      -> _filter_new matches state = matches).
Proof.
  rewrite filter_new_filter. split; [reflexivity|]. split; [apply sublist_filter|].
  split; [|split].
  - intros m. rewrite list_elem_of_filter. tauto.
  - induction 1 as [|m matches Hm _ IH]; [reflexivity|].
    rewrite filter_cons_False; [exact IH|]. intros Hn. exact (Hn Hm).
  - induction 1 as [|m matches Hm _ IH]; [reflexivity|].
    rewrite filter_cons_True by exact Hm. by rewrite IH.
Qed.

(** [_remember] adds the ids of the matches and nothing else. *)
Lemma remember_seen state matches x :
  x ∈ State.seen_ids (_remember state matches)
  <-> x ∈ State.seen_ids state
      \/ x ∈ map (fun m => Opportunity.id (Match.opportunity m)) matches.
Proof.
  revert state. induction matches as [|m matches IH]; intros state.
  - cbn. rewrite elem_of_nil. tauto.
  - cbn [_remember map]. rewrite IH, elem_of_cons. cbn [State.seen_ids].
    rewrite elem_of_union, elem_of_singleton. tauto.
Qed.

(** A missing file, a file that is not JSON, and a JSON document that is
    not an object all load as the empty state. *)
Lemma load_state_degrades f :
  match f with Parsed (JObj _) => False | _ => True end ->
  load_state f = Ok (State.mk ∅).
Proof. destruct f as [| |[]]; intros H; (reflexivity || contradiction). Qed.

(** An object without the key loads as the empty state too. *)
Lemma load_state_no_key data :
  dict_get data "seen_ids" = None -> load_state (Parsed (JObj data)) = Ok (State.mk ∅).
Proof. intros H. cbn [load_state]. rewrite H. reflexivity. Qed.

(** A list of strings loads as the set of its members. *)
Lemma set_of_strings ids : set_of_items (map JStr ids) = Ok (list_to_set ids).
Proof.
  induction ids as [|s ids IH]; [reflexivity|].
  cbn [map set_of_items]. rewrite IH. reflexivity.
Qed.

Lemma set_of_items_raise items e :
  set_of_items items = Raise e -> exn_cls e = TypeError.
Proof.
  induction items as [|v items IH]; [discriminate|].
  destruct v; cbn [set_of_items]; try exact IH; try (by intros [= <-]).
  destruct (set_of_items items); cbn [bind]; [discriminate|].
  intros [= <-]. by apply IH.
Qed.

Lemma py_set_raise v e : py_set v = Raise e -> exn_cls e = TypeError.
Proof.
  destruct v; cbn [py_set]; try discriminate; try (by intros [= <-]).
  apply set_of_items_raise.
Qed.

(** When [load_state] raises, it is the [TypeError] of [set(...)] on the
    value stored under [seen_ids]. *)
Lemma load_state_raise f e :
  load_state f = Raise e ->
  exn_cls e = TypeError
  /\ exists data v, f = Parsed (JObj data) /\ dict_get data "seen_ids" = Some v
                    /\ py_set v = Raise e.
Proof.
  destruct f as [| |data]; try discriminate.
  destruct data as [| | | | |data]; try discriminate.
  cbn [load_state]. destruct (dict_get data "seen_ids") as [v|] eqn:Hget;
    [|cbn; discriminate].
  change (default (JArr []) (Some v)) with v. destruct (py_set v) as [seen|e'] eqn:Hset; cbn [bind]; [discriminate|].
  intros [= <-]. split; [by eapply py_set_raise|by exists data, v].
Qed.

(** C7 (the code on malformed payloads). The claim: [load_state] returns a
    state for every file content. A file holding valid JSON whose [seen_ids]
    is a number, [null], or a list with a list or an object inside makes
    [set(...)] raise a [TypeError], which [load_state] does not catch (it
    only catches the JSON decoding error); the other degenerate contents do
    load as the empty state. *)
Theorem C7_load_state_raises_on_malformed_seen_ids :
  load_state (Parsed (JObj [("seen_ids", JNum 5)]))
  = Raise (Exn TypeError "'int' object is not iterable")
  /\ load_state (Parsed (JObj [("seen_ids", JNull)]))
     = Raise (Exn TypeError "'NoneType' object is not iterable")
  /\ load_state (Parsed (JObj [("seen_ids", JArr [JStr "a"; JArr []])]))
     = Raise (Exn TypeError "unhashable type: 'list'")
  /\ load_state Missing = Ok (State.mk ∅)
  /\ load_state Unparsable = Ok (State.mk ∅)
  /\ load_state (Parsed (JArr [JStr "a"])) = Ok (State.mk ∅).
Proof. repeat split; reflexivity. Qed.

(** ** A whole run *)

(** [_build_payloads] always closes a last message. *)
Lemma build_payloads_loop_last matches : forall lines len payloads,
  lines <> [] ->
  exists front last, build_payloads_loop matches lines len payloads = front ++ [last].
Proof.
  induction matches as [|m matches IH]; intros lines len payloads Hlines.
  - cbn [build_payloads_loop]. destruct lines; [contradiction|]. eauto.
  - cbn [build_payloads_loop]. destruct (_ <? _)%nat; apply IH.
    + discriminate.
    + destruct lines; discriminate.
Qed.

Lemma post_all_first_failure post payload payloads exc :
  post payload = Some exc -> post_all post (payload :: payloads) = Raise exc.
Proof. intros H. cbn [post_all]. rewrite H. reflexivity. Qed.

(** Without a webhook and without both a bot token and a channel, a real
    (not dry-run) notification of at least one match raises. *)
Lemma notify_raises_without_credentials m rest config discord :
  NotifyConfig.dry_run (AppConfig.notify config) = false ->
  opt_truthy (NotifyConfig.discord_webhook_url (AppConfig.notify config)) = false ->
  opt_truthy (NotifyConfig.discord_bot_token (AppConfig.notify config))
  && opt_truthy (NotifyConfig.discord_channel_id (AppConfig.notify config)) = false ->
  notify (m :: rest) config discord = Raise credentials_error.
Proof.
  intros Hdry Hhook Hbot. unfold notify, _send_payloads. rewrite Hdry, Hhook, Hbot.
  reflexivity.
Qed.

(** With a webhook configured, a transport error on a post is raised by
    the notification. *)
Lemma notify_raises_on_transport_error m rest config discord exc :
  NotifyConfig.dry_run (AppConfig.notify config) = false ->
  opt_truthy (NotifyConfig.discord_webhook_url (AppConfig.notify config)) = true ->
  (forall payload, Discord.post_webhook discord payload = Some exc) ->
  notify (m :: rest) config discord = Raise exc.
Proof.
  intros Hdry Hhook Hpost. unfold notify, _send_payloads. rewrite Hdry, Hhook.
  destruct (_build_payloads (m :: rest)) as [|payload payloads] eqn:Hp.
  - exfalso. unfold _build_payloads in Hp.
    destruct (build_payloads_loop_last (m :: rest) ["**SBIR matches:**"]
                (String.length "**SBIR matches:**") []) as (front & last & H);
      [discriminate|].
    rewrite Hp in H. by destruct front.
  - rewrite (post_all_first_failure _ _ _ exc (Hpost payload)). reflexivity.
Qed.

(** A dry run prints instead of sending and never raises. *)
Lemma notify_dry_run m rest config discord :
  NotifyConfig.dry_run (AppConfig.notify config) = true ->
  notify (m :: rest) config discord = Ok (NotifyResult.mk 0 (length (m :: rest))).
Proof. intros Hdry. unfold notify. rewrite Hdry. reflexivity. Qed.

Section run_facts.
Context {attrs : ClassAttrs}.
Variable py_str : json -> string.
Variable config : AppConfig.t.
Variable explain : bool.
Variable w : World.t.

(** A run that delivers its new matches remembers them and writes them. *)
Lemma run_delivered opportunities reports errors state match_result m rest sent :
  CollectRun.outcome (collect_opportunities py_str config (World.adapters w))
    = Ok (opportunities, reports, errors) ->
  load_state (World.state_file w) = Ok state ->
  match_opportunities opportunities config = Ok match_result ->
  _filter_new (MatchResult.matches match_result) state = m :: rest ->
  notify (m :: rest) config (World.discord w) = Ok sent ->
  Run.state (run py_str config explain w) = Some (_remember state (m :: rest))
  /\ Run.state_file (run py_str config explain w)
     = save_state (_remember state (m :: rest))
  /\ Run.saves (run py_str config explain w) = 1%nat.
Proof.
  intros Hc Hl Hm Hf Hn. unfold run. rewrite Hc, Hl, Hm, Hf, Hn. by repeat split.
Qed.

(** Whatever happens, the state file is written at most once, and is
    untouched unless it is written. *)
Lemma run_saves_at_most_once :
  (Run.saves (run py_str config explain w) <= 1)%nat
  /\ (Run.saves (run py_str config explain w) = 0%nat ->
      Run.state_file (run py_str config explain w) = World.state_file w).
Proof.
  unfold run.
  destruct (CollectRun.outcome _) as [[[opportunities reports] errors]|];
    [|split; [cbn; lia|reflexivity]].
  destruct (load_state _) as [state|]; [|split; [cbn; lia|reflexivity]].
  destruct (match_opportunities _ _) as [match_result|]; [|split; [cbn; lia|reflexivity]].
  destruct (_filter_new _ _) as [|m rest]; [split; [cbn; lia|reflexivity]|].
  destruct (notify _ _ _); (split; [cbn; lia|]); [discriminate|reflexivity].
Qed.
End run_facts.

(** C5. Take a run whose sources, state file and matcher all answer. If it
    finds at least one new match and the notification raises, the run ends
    with that exception, the [State] object is the one [load_state] returned
    (nothing was remembered) and the state file is not written. If it finds
    no new match, the state is likewise unchanged and the state file is not
    written. *)
Theorem C5_failed_notification_leaves_state {attrs : ClassAttrs}
    py_str config explain w opportunities reports errors state match_result :
  CollectRun.outcome (collect_opportunities py_str config (World.adapters w))
    = Ok (opportunities, reports, errors) ->
  load_state (World.state_file w) = Ok state ->
  match_opportunities opportunities config = Ok match_result ->
  (forall m rest exc,
      _filter_new (MatchResult.matches match_result) state = m :: rest ->
      notify (m :: rest) config (World.discord w) = Raise exc ->
      run py_str config explain w
      = Run.mk (Raise exc) (Some state) (World.state_file w) 0)
  /\ (_filter_new (MatchResult.matches match_result) state = [] ->
      Run.state (run py_str config explain w) = Some state
      /\ Run.state_file (run py_str config explain w) = World.state_file w
      /\ Run.saves (run py_str config explain w) = 0%nat).
Proof.
  intros Hc Hl Hm. split.
  - intros m rest exc Hf Hn. unfold run. rewrite Hc, Hl, Hm, Hf, Hn. reflexivity.
  - intros Hf. unfold run. rewrite Hc, Hl, Hm, Hf. by repeat split.
Qed.

(** C5 at a first run: one new match about robotics, no state file, no
    Discord credentials. The notification raises and the run leaves the
    empty state and the missing file as they were. *)
Lemma C5_failed_notification_witness :
  run str_of_nothing primary_only_config false first_run_world
  = Run.mk (Raise credentials_error) (Some (State.mk ∅)) Missing 0.
Proof.
  refine (proj1 (C5_failed_notification_leaves_state
                   str_of_nothing primary_only_config false first_run_world
                   [robotics_opportunity]
                   [SourceReport.mk "sbir" 1] []
                   (State.mk ∅)
                   (MatchResult.mk
                      [Match.mk robotics_opportunity 1 ["robotics"] "robotics research"]
                      0
                      [Evaluation.mk robotics_opportunity 1 ["robotics"] None])
                   _ _ _)
                (Match.mk robotics_opportunity 1 ["robotics"] "robotics research")
                [] credentials_error _ _);
    vm_compute; reflexivity.
Defined.

(** ** The retry loop of [_fetch_page] *)

Section fetch_loop_facts.
Variable http : nat -> result (json * string).
Variable sleep : Q -> option exn.
Variable retries : nat.
Variable backoff : Q.

(** One iteration of the loop, by what the attempt gave. *)
Lemma fetch_loop_step k todo slept made last :
  fetch_loop http sleep retries backoff (k :: todo) slept made last
  = if retried retries (http k) k then
      match sleep (delay_after backoff (http k) k) with
      | None =>
          fetch_loop http sleep retries backoff todo
                     (slept ++ [delay_after backoff (http k) k]) (S made)
                     (match http k with Raise exc => Some exc | Ok _ => last end)
      | Some failure =>
          FetchRun.mk (Raise failure) (slept ++ [delay_after backoff (http k) k]) (S made)
      end
    else FetchRun.mk (page_result (http k)) slept (S made).
Proof.
  cbn [fetch_loop]. destruct (http k) as [[data url]|exc]; [reflexivity|].
  cbn [retried delay_after page_result]. unfold retry_delay.
  destruct (exn_cls exc) as [| | |status| |]; reflexivity.
Qed.

(** The loop from attempt [k] with [n] attempts to go, [k + n] being the
    total [retries + 1]: it stops at some attempt [k + j], having slept once
    after each of the attempts before it; it stops there with what the
    attempt gave, or with what the sleep after it raised. *)
Lemma fetch_loop_spec n : forall k slept made last,
  (k + n = retries + 1)%nat -> (0 < n)%nat ->
  exists j,
    (j < n)%nat
    /\ FetchRun.attempts (fetch_loop http sleep retries backoff (seq k n) slept made last)
       = (made + j + 1)%nat
    /\ Forall (slept_through sleep retries backoff http) (seq k j)
    /\ ((retried retries (http (k + j)%nat) (k + j) = false
         /\ FetchRun.outcome
              (fetch_loop http sleep retries backoff (seq k n) slept made last)
            = page_result (http (k + j)%nat)
         /\ FetchRun.slept
              (fetch_loop http sleep retries backoff (seq k n) slept made last)
            = slept ++ map (fun i => delay_after backoff (http i) i) (seq k j))
        \/ (retried retries (http (k + j)%nat) (k + j) = true
            /\ exists failure,
                 sleep (delay_after backoff (http (k + j)%nat) (k + j)) = Some failure
                 /\ FetchRun.outcome
                      (fetch_loop http sleep retries backoff (seq k n) slept made last)
                    = Raise failure
                 /\ FetchRun.slept
                      (fetch_loop http sleep retries backoff (seq k n) slept made last)
                    = slept ++ map (fun i => delay_after backoff (http i) i)
                                   (seq k (S j)))).
Proof.
  induction n as [|n IH]; intros k slept made last Hsum Hpos; [lia|].
  cbn [seq]. rewrite fetch_loop_step.
  destruct (retried retries (http k) k) eqn:Hretried.
  - destruct (sleep (delay_after backoff (http k) k)) as [failure|] eqn:Hsleep.
    + exists 0%nat. rewrite (Nat.add_0_r k), Hretried.
      cbn [FetchRun.attempts FetchRun.outcome FetchRun.slept seq map].
      split; [lia|]. split; [lia|]. split; [constructor|]. right.
      split; [reflexivity|]. by exists failure.
    + assert (k < retries)%nat as Hlt.
      { unfold retried in Hretried. destruct (http k) as [|exc]; [discriminate|].
        destruct (exn_cls exc); try discriminate.
        - apply andb_true_iff in Hretried as [_ H]. by apply Nat.ltb_lt in H.
        - by apply Nat.ltb_lt in Hretried. }
      destruct (IH (S k) (slept ++ [delay_after backoff (http k) k]) (S made)
                   (match http k with Raise exc => Some exc | Ok _ => last end))
        as (j & Hj & Hatt & Hall & Hend); [lia|lia|].
      exists (S j). replace (k + S j)%nat with (S k + j)%nat by lia.
      rewrite Hatt. split; [lia|]. split; [lia|].
      split; [cbn [seq]; constructor; [by split|exact Hall]|].
      destruct Hend as [(Hr & Hout & Hslept)|(Hr & failure & Hf & Hout & Hslept)].
      * left. rewrite Hout, Hslept, <- app_assoc. by repeat split.
      * right. split; [exact Hr|]. exists failure.
        rewrite Hout, Hslept, <- app_assoc. by repeat split.
  - exists 0%nat. rewrite (Nat.add_0_r k), Hretried.
    cbn [FetchRun.attempts FetchRun.outcome FetchRun.slept seq map].
    rewrite app_nil_r.
    split; [lia|]. split; [lia|]. split; [constructor|]. by left.
Qed.
End fetch_loop_facts.

(** The retry loop as a whole. Whatever [time.sleep] does, [_fetch_page]
    makes at least one and at most [retries + 1] attempts, [retries] being
    [max(0, retry_max)] and [backoff] being
    [max(0.1, retry_backoff_seconds)]. Every attempt before
    the last one made failed with a retryable status or a transport error
    and was followed by one sleep of [backoff * 2^attempt] seconds, raised
    to ten seconds after an HTTP 429, that returned. The fetch ends in one
    of two ways. Either the last attempt is not retried (it succeeded, or
    failed beyond retry, or no attempt is left), and the result is that
    attempt's page or its own exception re-raised, nothing having been
    slept after it; or the sleep that follows the last attempt raises, and
    what it raises is the result. So a fetch that fails on every attempt
    raises. *)
Lemma fetch_page_bounded_retry sleep config http :
  let retries :=
    Z.to_nat (Z.max 0 (MatchConfig.retry_max (AppConfig.match_ config))) in
  let backoff :=
    qmax (1 # 10) (MatchConfig.retry_backoff_seconds (AppConfig.match_ config)) in
  let fetch := _fetch_page sleep config http in
  let last := (FetchRun.attempts fetch - 1)%nat in
  (1 <= FetchRun.attempts fetch <= retries + 1)%nat
  /\ Forall (slept_through sleep retries backoff http) (seq 0 last)
  /\ ((retried retries (http last) last = false
       /\ FetchRun.outcome fetch = page_result (http last)
       /\ FetchRun.slept fetch = map (fun i => delay_after backoff (http i) i) (seq 0 last))
      \/ (retried retries (http last) last = true
          /\ exists failure,
               sleep (delay_after backoff (http last) last) = Some failure
               /\ FetchRun.outcome fetch = Raise failure
               /\ FetchRun.slept fetch
                  = map (fun i => delay_after backoff (http i) i) (seq 0 (S last))))
  /\ ((forall i, raises (http i) = true) -> raises (FetchRun.outcome fetch) = true).
Proof.
  cbv zeta. unfold _fetch_page.
  set (retries := Z.to_nat _). set (backoff := qmax _ _).
  destruct (fetch_loop_spec http sleep retries backoff (retries + 1) 0 [] 0 None)
    as (j & Hj & Hatt & Hall & Hend); [lia|lia|].
  rewrite Hatt. replace (0 + j + 1 - 1)%nat with j by lia.
  cbn [Nat.add app] in Hend.
  split; [lia|]. split; [exact Hall|]. split; [exact Hend|].
  intros Hfail. specialize (Hfail j).
  destruct Hend as [(_ & -> & _)|(_ & failure & _ & -> & _)]; [|reflexivity].
  destruct (http j); [discriminate|reflexivity].
Qed.

(** With [retry_max = -1] the retry count is clamped at zero: one attempt
    is made and its error raised. *)
Example negative_retry_max_example :
  FetchRun.attempts (_fetch_page time_sleep negative_retry_config always_503) = 1%nat
  /\ FetchRun.slept (_fetch_page time_sleep negative_retry_config always_503) = []
  /\ FetchRun.outcome (_fetch_page time_sleep negative_retry_config always_503)
     = Raise (Exn (HTTPStatusError 503) "Service Unavailable").
Proof. repeat split; reflexivity. Qed.


(** ** Opportunity ids of the primary source *)

Lemma Forall_flat_map {A B : Type} (P : B -> Prop) (f : A -> list B) (l : list A) :
  (forall a, Forall P (f a)) -> Forall P (flat_map f l).
Proof.
  intros H. induction l as [|a l IH]; [constructor|].
  cbn [flat_map]. apply Forall_app. split; [apply H|exact IH].
Qed.

Lemma opportunity_from_topic_id py_str base solicitation topic subtopic :
  id_from_own_keys (_opportunity_from_topic py_str base solicitation topic subtopic).
Proof. split; reflexivity. Qed.

Lemma opportunities_of_topic_ids py_str base solicitation topic :
  Forall id_from_own_keys (opportunities_of_topic py_str base solicitation topic).
Proof.
  destruct topic as [| | | | |t]; try constructor.
  cbn [opportunities_of_topic].
  destruct (list_or_empty (dict_get t "subtopics")) as [|s subtopics].
  - constructor; [apply opportunity_from_topic_id|constructor].
  - apply Forall_flat_map. intros [| | | | |d]; try constructor.
    + apply opportunity_from_topic_id.
    + constructor.
Qed.

Lemma join_truthy sep s parts :
  Str.truthy s = true -> Str.truthy (Str.join sep (s :: parts)) = true.
Proof.
  intros Hs. destruct s as [|c s]; [discriminate|].
  destruct parts; reflexivity.
Qed.

Lemma part_truthy (part : option string) :
  Forall (fun s => Str.truthy s = true) (if opt_truthy part then [or_empty part] else []).
Proof.
  destruct part as [s|]; cbn [opt_truthy]; [|constructor].
  destruct (Str.truthy s) eqn:Hs; constructor; [exact Hs|constructor].
Qed.

(** An id is never the empty string. *)
Lemma build_id_truthy a b c : Str.truthy (_build_id a b c) = true.
Proof.
  unfold _build_id.
  set (parts := flat_map _ _).
  assert (Forall (fun s => Str.truthy s = true) parts) as Hparts.
  { subst parts. cbn [flat_map]. repeat (apply Forall_app; split);
      (apply part_truthy || constructor). }
  destruct parts as [|s parts]; [reflexivity|].
  apply join_truthy. by inversion Hparts.
Qed.

(** C9 (counterexample). Two different announcements, neither carrying a
    solicitation number, both get the id "unknown"; and the id of an
    announcement that has a number is that number, with no source prefix. *)
Lemma C9_distinct_records_share_id :
  map Opportunity.id
      (iter_opportunities str_of_nothing autonomy_solicitation
       ++ iter_opportunities str_of_nothing sensors_solicitation)
  = ["unknown"; "unknown"]
  /\ map Opportunity.solicitation_title
         (iter_opportunities str_of_nothing autonomy_solicitation
          ++ iter_opportunities str_of_nothing sensors_solicitation)
     = ["Autonomy"; "Sensors"]
  /\ map (fun o => (Opportunity.source o, Opportunity.id o))
         (iter_opportunities str_of_nothing robotics_solicitation)
     = [(Some "sbir", "N241")].
Proof. repeat split; reflexivity. Qed.

(** The id [_build_id] gives is its non-empty arguments joined by "::". *)
Lemma build_id_keys_joined o :
  keys_joined (natural_keys o)
              (_build_id (Opportunity.solicitation_number o) (Opportunity.topic_number o)
                         (Opportunity.subtopic_title o)).
Proof.
  unfold natural_keys.
  destruct (Opportunity.solicitation_number o) as [[|a1 s1]|];
    destruct (Opportunity.topic_number o) as [[|a2 s2]|];
    destruct (Opportunity.subtopic_title o) as [[|a3 s3]|];
    reflexivity.
Qed.

Lemma opportunities_of_topic_same_ids py_str base1 base2 s1 s2 topic :
  BaseFields.solicitation_number base1 = BaseFields.solicitation_number base2 ->
  map Opportunity.id (opportunities_of_topic py_str base1 s1 topic)
  = map Opportunity.id (opportunities_of_topic py_str base2 s2 topic).
Proof.
  intros Hn. destruct topic as [| | | | |t]; try reflexivity.
  cbn [opportunities_of_topic].
  destruct (list_or_empty (dict_get t "subtopics")) as [|s subtopics].
  - cbn [map _opportunity_from_topic Opportunity.id]. by rewrite Hn.
  - generalize (s :: subtopics). intros l.
    induction l as [|x l IH]; [reflexivity|].
    cbn [flat_map]. rewrite !map_app, IH. f_equal.
    destruct x; try reflexivity.
    cbn [map _opportunity_from_topic Opportunity.id]. by rewrite Hn.
Qed.

(** C9 (as the code has it). Every opportunity built from a fetched
    solicitation record carries the source tag "sbir", and its id is made of
    its own key fields (solicitation number, topic number, subtopic title):
    the non-empty ones joined by "::", beginning with the first of them and
    so with no source prefix, or the constant "unknown" when there is none.
    The id is never empty. The ids of a record depend only on its
    solicitation number and its topics: a record fetched again with the same
    number and topics yields the same ids, whatever else has changed. *)
Theorem C9_sbir_id_is_built_from_keys py_str solicitation :
  Forall (fun o =>
            Opportunity.source o = Some "sbir"
            /\ keys_joined (natural_keys o) (Opportunity.id o)
            /\ Opportunity.id o <> "")
         (iter_opportunities py_str solicitation)
  /\ (forall refetched,
         dict_get refetched "solicitation_number"
         = dict_get solicitation "solicitation_number" ->
         dict_get refetched "solicitation_topics"
         = dict_get solicitation "solicitation_topics" ->
         map Opportunity.id (iter_opportunities py_str refetched)
         = map Opportunity.id (iter_opportunities py_str solicitation)).
Proof.
  split.
  - assert (Forall id_from_own_keys (iter_opportunities py_str solicitation)) as H.
    { unfold iter_opportunities.
      destruct (list_or_empty (dict_get solicitation "solicitation_topics")) as [|t topics].
      - constructor; [split; reflexivity|constructor].
      - apply Forall_flat_map. intros topic. apply opportunities_of_topic_ids. }
    eapply Forall_impl; [exact H|]. intros o [Hsource Hid].
    split; [exact Hsource|]. rewrite Hid. split; [apply build_id_keys_joined|].
    intros Hempty.
    pose proof (build_id_truthy (Opportunity.solicitation_number o)
                  (Opportunity.topic_number o) (Opportunity.subtopic_title o)) as Ht.
    rewrite Hempty in Ht. discriminate.
  - intros refetched Hn Ht. unfold iter_opportunities. rewrite Ht.
    assert (BaseFields.solicitation_number (_base_fields py_str refetched)
            = BaseFields.solicitation_number (_base_fields py_str solicitation)) as Hb.
    { cbn [_base_fields BaseFields.solicitation_number]. by rewrite Hn. }
    destruct (list_or_empty (dict_get solicitation "solicitation_topics")) as [|t topics].
    + cbn [map Opportunity.id]. by rewrite Hb.
    + generalize (t :: topics). intros l.
      induction l as [|x l IH]; [reflexivity|].
      cbn [flat_map]. rewrite !map_app, IH. f_equal.
      by apply opportunities_of_topic_same_ids.
Qed.

(** ** The embedding at work *)

(** A keyword longer than three characters is found in any case. *)
Example long_keyword_example :
  keyword_found "robotics" "soft ROBOTICS for surgery" = Ok true
  /\ keyword_found "c++" "modern C++ toolchains" = Ok true
  /\ keyword_found "c++" "a c+ b" = Ok false.
Proof. repeat split; vm_compute; reflexivity. Qed.

(** One record about robotics, scored against the keyword "robotics". *)
Example match_example :
  match_opportunities [robotics_opportunity; scenario_b] primary_only_config
  = Ok (MatchResult.mk
          [Match.mk robotics_opportunity 1 ["robotics"] "robotics research"]
          1
          [Evaluation.mk robotics_opportunity 1 ["robotics"] None;
           Evaluation.mk scenario_b 0 [] (Some (score_below 1))]).
Proof. vm_compute. reflexivity. Qed.

(** A first run that can deliver: with a webhook configured, the match is
    remembered and the state file written. *)
Example delivering_run_example :
  let config :=
    AppConfig.mk (example_match_config ["robotics"] [] [])
      (NotifyConfig.mk (Some "https://discord.example/hook") None None true false)
      (SourceConfig.mk false true) (SourceConfig.mk false true)
      (SourceConfig.mk false true) (SourceConfig.mk false true)
      (SourceConfig.mk false true) false in
  let r := run str_of_nothing config false first_run_world in
  raises (Run.outcome r) = false
  /\ Run.state r = Some (State.mk {[ "N241" ]})
  /\ Run.state_file r = Parsed (JObj [("seen_ids", JArr [JStr "N241"])])
  /\ load_state (Run.state_file r) = Ok (State.mk (list_to_set ["N241"])).
Proof. vm_compute. repeat split; reflexivity. Qed.

(** Default settings (three retries, two seconds of backoff) against a
    server that recovers at the third attempt: ten seconds after the 429,
    four after the 503. *)
Example retry_schedule_example :
  FetchRun.attempts (_fetch_page time_sleep primary_only_config flaky_server) = 3%nat
  /\ FetchRun.slept (_fetch_page time_sleep primary_only_config flaky_server) = [10 # 1; 4 # 1]%Q
  /\ raises (FetchRun.outcome (_fetch_page time_sleep primary_only_config flaky_server)) = false.
Proof. repeat split; vm_compute; reflexivity. Qed.

(** A status that is not retryable is raised at the first attempt; a
    retryable one is tried [retry_max + 1 = 4] times with sleeps of 2, 4 and
    8 seconds. *)
Example retry_exhaustion_example :
  FetchRun.attempts (_fetch_page time_sleep primary_only_config always_404) = 1%nat
  /\ FetchRun.attempts (_fetch_page time_sleep primary_only_config always_503) = 4%nat
  /\ FetchRun.slept (_fetch_page time_sleep primary_only_config always_503) = [2 # 1; 4 # 1; 8 # 1]%Q
  /\ FetchRun.outcome (_fetch_page time_sleep primary_only_config always_503)
     = Raise (Exn (HTTPStatusError 503) "Service Unavailable").
Proof. repeat split; vm_compute; reflexivity. Qed.


(** * Further properties *)

(** ** The state file *)

Lemma save_state_saved_ids state :
  save_state state = Parsed (JObj [("seen_ids", JArr (map JStr (saved_ids state)))]).
Proof. reflexivity. Qed.

Lemma load_saved_state state : load_state (save_state state) = Ok state.
Proof.
  rewrite save_state_saved_ids. cbn [load_state].
  change (dict_get [("seen_ids", JArr (map JStr (saved_ids state)))] "seen_ids")
    with (Some (JArr (map JStr (saved_ids state)))).
  cbn [default from_option id py_set]. rewrite set_of_strings. cbn [bind].
  unfold saved_ids. rewrite merge_sort_Permutation, list_to_set_elements_L.
  by destruct state.
Qed.

(** X1. What [save_state] writes, [load_state] reads back: the round trip
    gives the state it started from, whatever the state. *)
Theorem X1_save_load_round_trip state :
  load_state (save_state state) = Ok state.
Proof. apply load_saved_state. Qed.

(** X2. The list written under [seen_ids] is sorted, has no duplicate and
    holds exactly the seen ids. *)
Theorem X2_saved_ids_sorted_unique state :
  StronglySorted String.le (saved_ids state)
  /\ NoDup (saved_ids state)
  /\ (forall x, x ∈ saved_ids state <-> x ∈ State.seen_ids state).
Proof.
  unfold saved_ids. split; [apply (StronglySorted_merge_sort _)|]. split.
  - rewrite merge_sort_Permutation. apply NoDup_elements.
  - intros x. rewrite merge_sort_Permutation. apply elem_of_elements.
Qed.

(** X3. [_remember] only adds: every id seen before is still seen, every
    remembered match is seen afterwards, and none of the remembered matches
    is new any more. *)
Theorem X3_remembered_matches_are_not_new state matches :
  State.seen_ids state ⊆ State.seen_ids (_remember state matches)
  /\ Forall (fun m => Opportunity.id (Match.opportunity m)
                      ∈ State.seen_ids (_remember state matches)) matches
  /\ _filter_new matches (_remember state matches) = [].
Proof.
  assert (Forall (fun m => Opportunity.id (Match.opportunity m)
                           ∈ State.seen_ids (_remember state matches)) matches) as Hall.
  { apply Forall_forall. intros m Hm. apply remember_seen. right.
    apply list_elem_of_fmap. by exists m. }
  split; [|split; [exact Hall|]].
  - intros x Hx. apply remember_seen. by left.
  - rewrite filter_new_filter. revert Hall.
    generalize (State.seen_ids (_remember state matches)). intros seen Hall.
    induction Hall as [|m ms Hm _ IH]; [reflexivity|].
    rewrite filter_cons_False; [exact IH|]. intros Hn. exact (Hn Hm).
Qed.

(** ** Runs *)

(** Every match that is not new was already seen; so once the new ones are
    remembered, a second look finds nothing new. *)
Lemma nothing_new_after_remember matches state :
  _filter_new matches (_remember state (_filter_new matches state)) = [].
Proof.
  rewrite !filter_new_filter.
  set (seen' := State.seen_ids (_remember state _)).
  assert (forall m, m ∈ matches -> Opportunity.id (Match.opportunity m) ∈ seen') as Hall.
  { intros m Hm. subst seen'. apply remember_seen.
    destruct (decide (Opportunity.id (Match.opportunity m) ∈ State.seen_ids state))
      as [Hin|Hout]; [by left|right].
    apply list_elem_of_fmap. exists m. split; [reflexivity|].
    apply list_elem_of_filter. by split. }
  clearbody seen'. induction matches as [|m ms IH]; [reflexivity|].
  rewrite filter_cons_False.
  - apply IH. intros m' Hm'. apply Hall, elem_of_cons. by right.
  - intros Hn. apply Hn, Hall, elem_of_cons. by left.
Qed.

(** What a run that ends normally went through. *)
Lemma run_ok_stages {attrs : ClassAttrs} py_str config explain w summary :
  Run.outcome (run py_str config explain w) = Ok summary ->
  exists opportunities reports errors state match_result,
    CollectRun.outcome (collect_opportunities py_str config (World.adapters w))
      = Ok (opportunities, reports, errors)
    /\ load_state (World.state_file w) = Ok state
    /\ match_opportunities opportunities config = Ok match_result
    /\ summary
       = RunSummary.mk
           (length opportunities)
           (length (MatchResult.matches match_result))
           (length (_filter_new (MatchResult.matches match_result) state))
           (MatchResult.skipped match_result)
           (map (fun report =>
                   SourceReport.name report +:+ ":"
                   +:+ pretty (SourceReport.count report)) reports)
           errors
           (if explain then MatchResult.evaluations match_result else [])
    /\ (_filter_new (MatchResult.matches match_result) state = []
          /\ Run.state_file (run py_str config explain w) = World.state_file w
        \/ Run.state_file (run py_str config explain w)
           = save_state
               (_remember state (_filter_new (MatchResult.matches match_result) state))).
Proof.
  unfold run.
  destruct (CollectRun.outcome _) as [[[opportunities reports] errors]|] eqn:Hc;
    [|discriminate].
  destruct (load_state (World.state_file w)) as [state|] eqn:Hl; [|discriminate].
  destruct (match_opportunities opportunities config) as [match_result|] eqn:Hm;
    [|discriminate].
  destruct (_filter_new (MatchResult.matches match_result) state) as [|m rest] eqn:Hf.
  - intros [= <-]. exists opportunities, reports, errors, state, match_result.
    rewrite Hf. do 4 (split; [first [reflexivity|assumption]|]). left. by split.
  - destruct (notify (m :: rest) config (World.discord w)); [|discriminate].
    intros [= <-]. exists opportunities, reports, errors, state, match_result.
    rewrite Hf. do 4 (split; [first [reflexivity|assumption]|]). by right.
Qed.

(** X4. A run that ends normally is not repeated by the next one: with the
    same sources answering the same way and the state file as the first run
    left it, the second run ends normally too, reports the same matches,
    none of them new, and does not write the state file. *)
Theorem X4_second_run_finds_nothing_new {attrs : ClassAttrs}
    py_str config explain w summary :
  Run.outcome (run py_str config explain w) = Ok summary ->
  exists summary',
    Run.outcome (run py_str config explain
                     (next_world w (run py_str config explain w))) = Ok summary'
    /\ RunSummary.new_matches summary' = 0%nat
    /\ RunSummary.matched summary' = RunSummary.matched summary
    /\ Run.saves (run py_str config explain
                      (next_world w (run py_str config explain w))) = 0%nat
    /\ Run.state_file (run py_str config explain
                           (next_world w (run py_str config explain w)))
       = Run.state_file (run py_str config explain w).
Proof.
  intros Hok.
  destruct (run_ok_stages _ _ _ _ _ Hok)
    as (opportunities & reports & errors & state & match_result
        & Hc & Hl & Hm & -> & Hfile).
  generalize dependent (run py_str config explain w). intros first _ Hfile.
  unfold run, next_world. cbn [World.adapters World.state_file World.discord].
  rewrite Hc. destruct Hfile as [[Hf ->]| ->].
  - rewrite Hl, Hm, Hf. eexists. split; [reflexivity|]. by cbn.
  - rewrite load_saved_state, Hm, nothing_new_after_remember.
    eexists. split; [reflexivity|]. by cbn.
Qed.

(** X4 at a first run that delivers one match through a webhook. *)
Lemma X4_second_run_witness :
  exists summary',
    Run.outcome (run str_of_nothing webhook_config false
                     (next_world first_run_world
                        (run str_of_nothing webhook_config false first_run_world)))
      = Ok summary'
    /\ RunSummary.new_matches summary' = 0%nat
    /\ RunSummary.matched summary' = RunSummary.matched first_run_summary
    /\ Run.saves (run str_of_nothing webhook_config false
                      (next_world first_run_world
                         (run str_of_nothing webhook_config false first_run_world)))
       = 0%nat
    /\ Run.state_file (run str_of_nothing webhook_config false
                           (next_world first_run_world
                              (run str_of_nothing webhook_config false first_run_world)))
       = Run.state_file (run str_of_nothing webhook_config false first_run_world).
Proof.
  refine (X4_second_run_finds_nothing_new
            str_of_nothing webhook_config false first_run_world first_run_summary _).
  vm_compute. reflexivity.
Defined.

(** The counts of the matcher's result. *)
Lemma match_counts {attrs : ClassAttrs} opportunities config r :
  match_opportunities opportunities config = Ok r ->
  length (MatchResult.evaluations r) = length opportunities
  /\ (length (MatchResult.matches r) + MatchResult.skipped r = length opportunities)%nat.
Proof.
  rewrite match_opportunities_unfold. intros H.
  destruct (for_each_match_ok config _ _ _ H) as (Hev & _ & Hcount).
  cbn [MatchResult.evaluations MatchResult.matches MatchResult.skipped map app length]
    in Hev, Hcount.
  split; [|lia]. rewrite <- (length_map Evaluation.opportunity), Hev. reflexivity.
Qed.

(** X5. The summary of a run that ends normally adds up: matched plus
    skipped is the number of opportunities collected, the new matches are
    at most the matched ones, and the evaluations are listed in full, one
    per opportunity, with [explain] and not at all without. *)
Theorem X5_run_summary_adds_up {attrs : ClassAttrs} py_str config explain w summary :
  Run.outcome (run py_str config explain w) = Ok summary ->
  (RunSummary.matched summary + RunSummary.skipped summary
   = RunSummary.total_opportunities summary)%nat
  /\ (RunSummary.new_matches summary <= RunSummary.matched summary)%nat
  /\ length (RunSummary.evaluations summary)
     = (if explain then RunSummary.total_opportunities summary else 0%nat).
Proof.
  intros Hok.
  destruct (run_ok_stages _ _ _ _ _ Hok)
    as (opportunities & reports & errors & state & match_result
        & Hc & Hl & Hm & -> & _).
  destruct (match_counts _ _ _ Hm) as [Hev Hcount].
  cbn [RunSummary.matched RunSummary.skipped RunSummary.total_opportunities
       RunSummary.new_matches RunSummary.evaluations].
  split; [exact Hcount|]. split.
  - rewrite filter_new_filter. apply length_filter.
  - destruct explain; [exact Hev|reflexivity].
Qed.

Lemma X5_run_summary_witness :
  (RunSummary.matched first_run_summary + RunSummary.skipped first_run_summary
   = RunSummary.total_opportunities first_run_summary)%nat
  /\ (RunSummary.new_matches first_run_summary
      <= RunSummary.matched first_run_summary)%nat
  /\ length (RunSummary.evaluations first_run_summary) = 0%nat.
Proof.
  refine (X5_run_summary_adds_up
            str_of_nothing webhook_config false first_run_world first_run_summary _).
  vm_compute. reflexivity.
Defined.

(** X6. In dry-run mode the notification cannot fail and the transport is
    not needed: with a state file whose ids are all strings, once the
    sources, the state file and the matcher have answered, the run ends
    normally, and when it found new matches it remembers them and writes the
    state file, although nothing was sent. *)
Theorem X6_dry_run_still_remembers {attrs : ClassAttrs}
    py_str config explain w opportunities reports errors state match_result :
  NotifyConfig.dry_run (AppConfig.notify config) = true ->
  string_ids (World.state_file w) = true ->
  CollectRun.outcome (collect_opportunities py_str config (World.adapters w))
    = Ok (opportunities, reports, errors) ->
  load_state (World.state_file w) = Ok state ->
  match_opportunities opportunities config = Ok match_result ->
  raises (Run.outcome (run py_str config explain w)) = false
  /\ Run.state (run py_str config explain w)
     = Some (_remember state (_filter_new (MatchResult.matches match_result) state))
  /\ Run.saves (run py_str config explain w)
     = (if is_empty (_filter_new (MatchResult.matches match_result) state)
        then 0%nat else 1%nat)
  /\ (is_empty (_filter_new (MatchResult.matches match_result) state) = false ->
      Run.state_file (run py_str config explain w)
      = save_state
          (_remember state (_filter_new (MatchResult.matches match_result) state))).
Proof.
  intros Hdry _ Hc Hl Hm. unfold run. rewrite Hc, Hl, Hm.
  destruct (_filter_new (MatchResult.matches match_result) state) as [|m rest].
  - repeat split. discriminate.
  - rewrite (notify_dry_run _ _ _ _ Hdry). by repeat split.
Qed.

Lemma X6_dry_run_witness :
  raises (Run.outcome (run str_of_nothing dry_run_config false first_run_world)) = false
  /\ Run.state (run str_of_nothing dry_run_config false first_run_world)
     = Some (_remember (State.mk ∅)
               (_filter_new (MatchResult.matches robotics_match_result) (State.mk ∅)))
  /\ Run.saves (run str_of_nothing dry_run_config false first_run_world)
     = (if is_empty (_filter_new (MatchResult.matches robotics_match_result)
                                 (State.mk ∅))
        then 0%nat else 1%nat)
  /\ (is_empty (_filter_new (MatchResult.matches robotics_match_result) (State.mk ∅))
      = false ->
      Run.state_file (run str_of_nothing dry_run_config false first_run_world)
      = save_state
          (_remember (State.mk ∅)
             (_filter_new (MatchResult.matches robotics_match_result) (State.mk ∅)))).
Proof.
  refine (X6_dry_run_still_remembers
            str_of_nothing dry_run_config false first_run_world
            [robotics_opportunity] [SourceReport.mk "sbir" 1] []
            (State.mk ∅) robotics_match_result _ _ _ _ _);
    vm_compute; reflexivity.
Defined.

(** ** The matcher, record by record *)

Lemma match_result_eq m1 m2 s1 s2 e1 e2 :
  m1 = m2 -> s1 = s2 -> e1 = e2 -> MatchResult.mk m1 s1 e1 = MatchResult.mk m2 s2 e2.
Proof. by intros -> -> ->. Qed.

Ltac match_result_eq :=
  unfold skip, accept, merge_results;
  cbn [MatchResult.matches MatchResult.skipped MatchResult.evaluations];
  lazymatch goal with |- Ok _ = Ok _ => apply f_equal | _ => idtac end;
  apply match_result_eq;
  rewrite ?app_nil_r, <- ?app_assoc; cbn [app length]; solve [reflexivity | lia].

Lemma for_each_app {S A : Type} (f : S -> A -> result S) (l1 l2 : list A) : forall acc,
  for_each f acc (l1 ++ l2) = let* acc' := for_each f acc l1 in for_each f acc' l2.
Proof.
  induction l1 as [|a l1 IH]; intros acc; [reflexivity|].
  cbn [app for_each]. destruct (f acc a); cbn [bind]; [apply IH|reflexivity].
Qed.

Section match_view.
Context {attrs : ClassAttrs}.
Variable config : AppConfig.t.

Let body :=
  match_one config (cfg_keywords config) (cfg_excludes config)
    (cfg_always_include config)
    (compiled_of (cfg_keywords config)) (compiled_of (cfg_excludes config)).

(** One iteration, as the two record-by-record functions. *)
Lemma match_one_view acc o acc' :
  body acc o = Ok acc' ->
  acc' = merge_results acc
           (MatchResult.mk (match_of config o)
                           (if accepted_by config o then 0 else 1)
                           [evaluation_of config o]).
Proof.
  unfold body, match_one, accepted_by, match_of, evaluation_of, evaluation_with,
    accepted_by.
  fold (whitelisted config o).
  destruct (agency_rejected config o); cbn [negb andb].
  { intros [= <-]. destruct acc. match_result_eq. }
  destruct (build_text o config) as [text|e]; cbn [bind]; [|discriminate].
  fold (excluded_in config text) (matched_in config text).
  destruct (Str.truthy text), (whitelisted config o),
    (opt_truthy (excluded_in config text)),
    (Z.of_nat (length (matched_in config text)) <? _);
    cbn [negb andb orb]; intros [= <-]; destruct acc; match_result_eq.
Qed.

Lemma for_each_match_view opportunities : forall acc r,
  for_each body acc opportunities = Ok r ->
  r = merge_results acc
        (MatchResult.mk
           (flat_map (match_of config) opportunities)
           (length (filter (fun o => accepted_by config o = false) opportunities))
           (map (evaluation_of config) opportunities)).
Proof.
  induction opportunities as [|o rest IH]; intros acc r.
  - intros [= <-]. destruct acc. cbn [flat_map map]. rewrite filter_nil.
    match_result_eq.
  - cbn [for_each]. destruct (body acc o) as [acc'|e] eqn:Hstep; cbn [bind]; [|discriminate].
    intros Hrest. rewrite (IH _ _ Hrest), (match_one_view _ _ _ Hstep).
    rewrite filter_cons. cbn [flat_map map].
    destruct (accepted_by config o).
    + rewrite decide_False by discriminate. match_result_eq.
    + rewrite decide_True by reflexivity. match_result_eq.
Qed.

(** The loop does not look at what it has accumulated: from any
    accumulator it adds what it would return from the empty one. *)
Lemma match_one_shift acc o :
  body acc o = let* d := body (MatchResult.mk [] 0 []) o in Ok (merge_results acc d).
Proof.
  unfold body, match_one.
  destruct (agency_rejected config o); [cbn [bind]; match_result_eq|].
  destruct (build_text o config) as [text|e]; cbn [bind]; [|reflexivity].
  repeat match goal with |- context [if ?b then _ else _] =>
    lazymatch b with
    | (_ <=? _) => fail
    | _ => destruct b
    end end; cbn [bind]; match_result_eq.
Qed.

Lemma for_each_match_shift opportunities : forall acc,
  for_each body acc opportunities
  = let* r := for_each body (MatchResult.mk [] 0 []) opportunities in
    Ok (merge_results acc r).
Proof.
  induction opportunities as [|o rest IH]; intros acc.
  - cbn [for_each bind]. destruct acc. match_result_eq.
  - cbn [for_each]. rewrite (match_one_shift acc o).
    destruct (body (MatchResult.mk [] 0 []) o) as [d|e]; cbn [bind]; [|reflexivity].
    rewrite (IH (merge_results acc d)), (IH d).
    destruct (for_each body (MatchResult.mk [] 0 []) rest) as [r|e]; cbn [bind];
      [|reflexivity].
    match_result_eq.
Qed.
End match_view.

(** *** What the text and the keyword lists are *)

Lemma lower_char_idem c : Str.lower_char (Str.lower_char c) = Str.lower_char c.
Proof. destruct c as [[] [] [] [] [] [] [] []]; reflexivity. Qed.

Lemma lower_idem s : Str.lower (Str.lower s) = Str.lower s.
Proof.
  induction s as [|c s IH]; [reflexivity|].
  unfold Str.lower in *. cbn [Str.map]. by rewrite lower_char_idem, IH.
Qed.





Lemma first_excluded_elem text excludes kw :
  _first_excluded text (compiled_of excludes) excludes = Some kw -> kw ∈ excludes.
Proof.
  induction excludes as [|x excludes IH]; [discriminate|].
  cbn [compiled_of map _first_excluded]. destruct (Re.search _ text).
  - intros [= <-]. apply elem_of_cons. by left.
  - intros H. apply elem_of_cons. right. by apply IH.
Qed.

Lemma match_of_length {attrs : ClassAttrs} config o :
  length (match_of config o) = if accepted_by config o then 1%nat else 0%nat.
Proof.
  unfold match_of, accepted_by.
  destruct (agency_rejected config o); cbn [negb andb]; [reflexivity|].
  destruct (build_text o config) as [text|e]; [|reflexivity].
  by destruct (_ && _ && _).
Qed.

Lemma Forall_flat_map_elem {A B : Type} (P : B -> Prop) (f : A -> list B) (l : list A) :
  (forall a, a ∈ l -> Forall P (f a)) -> Forall P (flat_map f l).
Proof.
  induction l as [|a l IH]; intros H; [constructor|].
  cbn [flat_map]. apply Forall_app. split.
  - apply H, elem_of_cons. by left.
  - apply IH. intros b Hb. apply H, elem_of_cons. by right.
Qed.

Section record_facts.
Context {attrs : ClassAttrs}.
Variable config : AppConfig.t.

Let body :=
  match_one config (cfg_keywords config) (cfg_excludes config)
    (cfg_always_include config)
    (compiled_of (cfg_keywords config)) (compiled_of (cfg_excludes config)).

(** A record the loop gets past has a text, unless the agency filter
    drops it first. *)
Lemma match_one_text acc o acc' :
  body acc o = Ok acc' ->
  agency_rejected config o = true \/ exists text, build_text o config = Ok text.
Proof.
  unfold body, match_one. destruct (agency_rejected config o); [by left|].
  destruct (build_text o config) as [text|e]; cbn [bind]; [|discriminate].
  right. by exists text.
Qed.

Lemma for_each_match_texts opportunities : forall acc r,
  for_each body acc opportunities = Ok r ->
  Forall (fun o => agency_rejected config o = true
                   \/ exists text, build_text o config = Ok text) opportunities.
Proof.
  induction opportunities as [|o rest IH]; intros acc r; [constructor|].
  cbn [for_each]. destruct (body acc o) as [acc'|e] eqn:Hstep; cbn [bind]; [|discriminate].
  intros Hrest. constructor; [exact (match_one_text _ _ _ Hstep)|exact (IH _ _ Hrest)].
Qed.


Lemma evaluation_of_sound o :
  agency_rejected config o = true \/ (exists text, build_text o config = Ok text) ->
  Evaluation.opportunity (evaluation_of config o) = o
  /\ reason_sound config (evaluation_of config o)
  /\ accepting (evaluation_of config o) = accepted_by config o
  /\ Forall (fun m => same_report m (evaluation_of config o)) (match_of config o).
Proof.
  intros Hok. unfold evaluation_of, match_of, accepted_by.
  destruct (agency_rejected config o) eqn:Hag; cbn [negb andb].
  { unfold reason_sound; cbn; repeat split; solve [done | constructor]. }
  destruct Hok as [[=]|[text Htext]]. rewrite Htext.
  unfold evaluation_with.
  destruct (Str.truthy text) eqn:Ht, (whitelisted config o) eqn:Hw;
    cbn [negb andb orb].
  4: { unfold reason_sound. cbn. rewrite Hw. repeat split; constructor. }
  all: destruct (excluded_in config text) as [kw|] eqn:Hex; cbn [opt_truthy or_empty default].
  all: try destruct (Str.truthy kw) eqn:Hkw.
  all: try (unfold excluded_in in Hex; rewrite Ht in Hex; try discriminate;
            apply first_excluded_elem in Hex).
  all: try (unfold reason_sound; cbn; repeat split; solve [done | constructor]).
  all: destruct (Z.of_nat (length (matched_in config text)) <? _) eqn:Hlt;
    cbn [negb andb orb].
  all: try (apply Z.ltb_lt in Hlt; apply Z.leb_gt in Hlt as Hle; rewrite ?Hle).
  all: try (apply Z.ltb_ge in Hlt; apply Z.leb_le in Hlt as Hle; rewrite ?Hle).
  all: unfold reason_sound, same_report; cbn; rewrite ?Hw;
    repeat split; try solve [done | lia | constructor | repeat constructor].
Qed.
End record_facts.



(** X8. Matching is record by record: the result for two lists put end to
    end is the two results put end to end (matches and evaluations
    appended, skipped counts added), and the first exception of either
    part is the exception of the whole. *)
Theorem X8_matching_distributes_over_append {attrs : ClassAttrs}
    opportunities1 opportunities2 config :
  match_opportunities (opportunities1 ++ opportunities2) config
  = let* r1 := match_opportunities opportunities1 config in
    let* r2 := match_opportunities opportunities2 config in
    Ok (merge_results r1 r2).
Proof.
  rewrite !match_opportunities_unfold, for_each_app.
  destruct (for_each _ _ opportunities1) as [r1|e]; cbn [bind]; [|reflexivity].
  apply for_each_match_shift.
Qed.

(** X9. The evaluations explain the outcome: the skipped count is the
    number of evaluations with a rejecting reason, the matches are, in
    order, the evaluations without reason or with the whitelist reason
    (same record, score and keywords), and every reason is the one of the
    first test of the loop that the record fails. *)
Theorem X9_evaluations_explain_the_result {attrs : ClassAttrs} opportunities config r :
  match_opportunities opportunities config = Ok r ->
  MatchResult.skipped r
  = length (filter (fun ev => accepting ev = false) (MatchResult.evaluations r))
  /\ Forall2 same_report (MatchResult.matches r)
       (filter (fun ev => accepting ev = true) (MatchResult.evaluations r))
  /\ Forall (reason_sound config) (MatchResult.evaluations r).
Proof.
  rewrite match_opportunities_unfold. intros H.
  pose proof (for_each_match_texts config _ _ _ H) as Htexts.
  apply for_each_match_view in H as ->.
  cbn [merge_results MatchResult.matches MatchResult.skipped MatchResult.evaluations
       app Nat.add].
  induction Htexts as [|o rest Ho _ IH]; [by repeat split; constructor|].
  destruct IH as (IH1 & IH2 & IH3).
  destruct (evaluation_of_sound config o Ho) as (_ & Hsound & Hacc & Hsame).
  cbn [flat_map map]. rewrite !filter_cons, Hacc.
  pose proof (match_of_length config o) as Hm.
  destruct (accepted_by config o); repeat case_decide; try done.
  - split; [exact IH1|]. split; [|by constructor].
    destruct (match_of config o) as [|m [|]]; try discriminate.
    cbn [app]. constructor; [|exact IH2]. by inversion Hsame.
  - destruct (match_of config o); [|discriminate].
    cbn [length app]. split; [by rewrite IH1|]. split; [exact IH2|by constructor].
Qed.

Lemma X9_evaluations_witness :
  exists r,
    match_opportunities [robotics_opportunity; classified_record] plain_exclude_config
    = Ok r
    /\ MatchResult.skipped r
       = length (filter (fun ev => accepting ev = false) (MatchResult.evaluations r))
    /\ Forall2 same_report (MatchResult.matches r)
         (filter (fun ev => accepting ev = true) (MatchResult.evaluations r))
    /\ Forall (reason_sound plain_exclude_config) (MatchResult.evaluations r).
Proof.
  eexists. split; [vm_compute; reflexivity|].
  apply (X9_evaluations_explain_the_result
           [robotics_opportunity; classified_record] plain_exclude_config).
  vm_compute. reflexivity.
Defined.

(** ** The orchestrator's bookkeeping *)

Section blocks.
Variable enters : adapter -> bool.
Variable fetch : adapter -> result (list Opportunity.t).

Let calls_of (l : list adapter) : list (adapter * bool) :=
  flat_map (fun who => if enters who then [(who, negb (raises (fetch who)))] else []) l.
Let records_in (l : list adapter) : list Opportunity.t :=
  flat_map (fun who => if enters who then records_of (fetch who) else []) l.
Let reports_in (l : list adapter) : list SourceReport.t :=
  flat_map (fun who => if enters who then report_of who (fetch who) else []) l.
Let errors_in (l : list adapter) : list string :=
  flat_map (fun who => if enters who then error_of who (fetch who) else []) l.

(** The four lists of any sequence of blocks agree with one another. *)
Lemma blocks_accounting (l : list adapter) :
  length (records_in l) = sum_list (map SourceReport.count (reports_in l))
  /\ map SourceReport.name (reports_in l) = map source_name (succeeded (calls_of l))
  /\ Forall2 (fun err who =>
                exists exc, fetch who = Raise exc
                            /\ err = error_label who +:+ ": " +:+ exn_msg exc)
             (errors_in l) (broke (calls_of l))
  /\ map fst (calls_of l) = filter (fun who => enters who = true) l.
Proof.
  unfold succeeded, broke.
  induction l as [|who l (IH1 & IH2 & IH3 & IH4)]; [by repeat split; constructor|].
  subst calls_of records_in reports_in errors_in. cbn [flat_map].
  rewrite filter_cons. destruct (enters who).
  - rewrite decide_True by reflexivity.
    destruct (fetch who) as [opps|exc] eqn:Hf;
      cbn [records_of report_of error_of raises negb app];
      rewrite !filter_cons; cbn [snd fst map sum_list sum_list_with
                                 SourceReport.name SourceReport.count];
      repeat case_decide; try done; cbn [map fst].
    + rewrite length_app, IH1, IH2, IH4. repeat split; done.
    + rewrite IH1, IH2, IH4. repeat split; try done.
      constructor; [|exact IH3]. by exists exc.
  - rewrite decide_False by discriminate. cbn [app]. by repeat split.
Qed.
End blocks.

Lemma filter_agree {A : Type} (p q : A -> bool) (l : list A) :
  (forall x, x ∈ l -> p x = q x) ->
  filter (fun x => p x = true) l = filter (fun x => q x = true) l.
Proof.
  induction l as [|a l IH]; intros H; [reflexivity|].
  rewrite !filter_cons, IH, (H a) by (intros; apply H || idtac; set_solver).
  reflexivity.
Qed.

(** What [collect_opportunities] returns is what the six blocks left. *)
Lemma collect_returns py_str config world opportunities reports errors :
  CollectRun.outcome (collect_opportunities py_str config world)
    = Ok (opportunities, reports, errors) ->
  opportunities = Collected.opportunities (run_sources py_str config world)
  /\ reports = Collected.reports (run_sources py_str config world)
  /\ errors = Collected.errors (run_sources py_str config world).
Proof.
  unfold collect_opportunities.
  destruct (Collected.opportunities _), (Collected.errors _),
    (AppConfig.fail_on_no_results config); cbn [CollectRun.outcome];
    try discriminate; by intros [= <- <- <-].
Qed.

(** With the primary up, a fallback-only secondary is not entered; with the
    primary down, every enabled secondary is. *)
Lemma entered_primary_up py_str config world who :
  fails py_str world sbir = false ->
  who ∈ secondaries ->
  Forall (fun other =>
            SourceConfig.enabled (source_flags config other) = true ->
            SourceConfig.fallback_only (source_flags config other) = true)
         secondaries ->
  entered py_str config world who = false.
Proof.
  intros Hup Hwho Hall.
  assert (forall other, other ∈ secondaries ->
            SourceConfig.enabled (source_flags config other)
            && negb (SourceConfig.fallback_only (source_flags config other)) = false)
    as Hflags.
  { intros other Hother.
    pose proof (proj1 (Forall_forall _ _) Hall other Hother) as Hflag. cbv beta in Hflag.
    destruct (SourceConfig.enabled (source_flags config other)); [|reflexivity].
    by rewrite Hflag. }
  assert (forall other, other ∈ secondaries ->
            primary_gate py_str config world other = false) as Hgate.
  { intros other Hother. unfold primary_gate. rewrite Hup. by apply Hflags. }
  unfold secondaries in Hwho.
  repeat (apply elem_of_cons in Hwho as [->|Hwho]);
    try (by apply elem_of_nil in Hwho);
    try (apply Hgate; unfold secondaries; set_solver).
  unfold entered. rewrite Hup, !Hgate by (unfold secondaries; set_solver).
  cbn [orb andb]. apply (Hflags sam). unfold secondaries. set_solver.
Qed.

Lemma entered_primary_down py_str config world who :
  fails py_str world sbir = true ->
  who ∈ secondaries ->
  entered py_str config world who = SourceConfig.enabled (source_flags config who).
Proof.
  intros Hdown Hwho. unfold secondaries in Hwho.
  repeat (apply elem_of_cons in Hwho as [->|Hwho]);
    try (by apply elem_of_nil in Hwho);
    unfold entered, primary_gate; rewrite Hdown; cbn [orb source_flags];
    by rewrite andb_true_r.
Qed.

(** X10. The three lists of a run of the orchestrator that returns agree
    with its calls: the report counts add up to the number of records, the
    reports name the adapters that returned and the errors carry the label
    and message of those that raised, both in call order, and the adapters
    are called at most once each, in priority order, the primary first. *)
Theorem X10_collect_accounting py_str config world opportunities reports errors :
  CollectRun.outcome (collect_opportunities py_str config world)
    = Ok (opportunities, reports, errors) ->
  let calls := CollectRun.calls (collect_opportunities py_str config world) in
  length opportunities = sum_list (map SourceReport.count reports)
  /\ map SourceReport.name reports = map source_name (succeeded calls)
  /\ Forall2 (fun err who =>
                exists exc, fetched py_str world who = Raise exc
                            /\ err = error_label who +:+ ": " +:+ exn_msg exc)
             errors (broke calls)
  /\ map fst calls `sublist_of` priority_order
  /\ head (map fst calls) = Some sbir.
Proof.
  intros (-> & -> & ->)%collect_returns. cbv zeta.
  rewrite collect_calls, run_sources_opportunities, run_sources_reports,
    run_sources_errors, run_sources_calls.
  unfold fails.
  destruct (blocks_accounting (entered py_str config world) (fetched py_str world)
              priority_order) as (H1 & H2 & H3 & H4).
  do 3 (split; [assumption|]). rewrite H4. split; [apply sublist_filter|].
  unfold priority_order. rewrite filter_cons. by rewrite decide_True.
Qed.

Lemma X10_collect_accounting_witness :
  exists opportunities reports errors,
    CollectRun.outcome (collect_opportunities str_of_nothing dod_first_config dod_down_world)
      = Ok (opportunities, reports, errors)
    /\ let calls :=
         CollectRun.calls
           (collect_opportunities str_of_nothing dod_first_config dod_down_world) in
       length opportunities = sum_list (map SourceReport.count reports)
       /\ map SourceReport.name reports = map source_name (succeeded calls)
       /\ Forall2 (fun err who =>
                     exists exc, fetched str_of_nothing dod_down_world who = Raise exc
                                 /\ err = error_label who +:+ ": " +:+ exn_msg exc)
                  errors (broke calls)
       /\ map fst calls `sublist_of` priority_order
       /\ head (map fst calls) = Some sbir.
Proof.
  do 3 eexists. split; [vm_compute; reflexivity|].
  apply (X10_collect_accounting str_of_nothing dod_first_config dod_down_world).
  vm_compute. reflexivity.
Defined.

(** X11. The healthy path: when the primary answers and every enabled
    secondary is fallback-only, the primary is the only adapter called, and
    the run returns its records with one report and no error. *)
Theorem X11_healthy_primary_runs_alone py_str config world solicitations :
  Adapters.fetch_solicitations world = Ok solicitations ->
  Forall (fun who =>
            SourceConfig.enabled (source_flags config who) = true ->
            SourceConfig.fallback_only (source_flags config who) = true)
         secondaries ->
  collect_opportunities py_str config world
  = CollectRun.mk
      (Ok (flat_map (iter_opportunities py_str) solicitations,
           [SourceReport.mk "sbir"
              (length (flat_map (iter_opportunities py_str) solicitations))],
           []))
      [(sbir, true)].
Proof.
  intros Hup Hall.
  assert (fails py_str world sbir = false) as Hf.
  { unfold fails, fetched. by rewrite Hup. }
  assert (forall who, who ∈ secondaries -> entered py_str config world who = false)
    as Hout.
  { intros who Hwho. by apply entered_primary_up. }
  unfold collect_opportunities.
  rewrite run_sources_opportunities, run_sources_reports, run_sources_errors,
    run_sources_calls.
  unfold priority_order. cbn [flat_map].
  assert (Forall (fun who => entered py_str config world who = false) secondaries) as Hs
    by (apply Forall_forall; exact Hout).
  unfold secondaries in Hs. rewrite !Forall_cons in Hs.
  destruct Hs as (H1 & H2 & H3 & H4 & H5 & _). rewrite H1, H2, H3, H4, H5.
  cbn [entered fetched]. rewrite Hup. cbn [bind records_of report_of error_of raises
                                           negb app source_name].
  rewrite !app_nil_r, Hf.
  by destruct (flat_map (iter_opportunities py_str) solicitations).
Qed.

Lemma X11_healthy_primary_witness :
  collect_opportunities str_of_nothing plain_exclude_config primary_up_world
  = CollectRun.mk
      (Ok (flat_map (iter_opportunities str_of_nothing) [robotics_solicitation],
           [SourceReport.mk "sbir"
              (length (flat_map (iter_opportunities str_of_nothing)
                         [robotics_solicitation]))],
           []))
      [(sbir, true)].
Proof.
  apply (X11_healthy_primary_runs_alone
           str_of_nothing plain_exclude_config primary_up_world [robotics_solicitation]).
  - reflexivity.
  - unfold secondaries. repeat constructor.
Defined.

(** X12. The degraded path: when the primary raises, every enabled
    secondary is called, fallback-only or not, in priority order, and the
    first error is the primary's, labelled [SBIR.gov]. *)
Theorem X12_primary_failure_calls_every_enabled_source py_str config world exc :
  Adapters.fetch_solicitations world = Raise exc ->
  map fst (CollectRun.calls (collect_opportunities py_str config world))
  = sbir :: filter (fun who => SourceConfig.enabled (source_flags config who) = true)
                   secondaries
  /\ head (Collected.errors (run_sources py_str config world))
     = Some ("SBIR.gov: " +:+ exn_msg exc).
Proof.
  intros Hdown.
  assert (fails py_str world sbir = true) as Hf.
  { unfold fails, fetched. by rewrite Hdown. }
  split.
  - rewrite collect_calls, run_sources_calls. unfold fails at 1.
    destruct (blocks_accounting (entered py_str config world) (fetched py_str world)
                priority_order) as (_ & _ & _ & ->).
    unfold priority_order. rewrite filter_cons, decide_True by reflexivity.
    f_equal. fold secondaries.
    apply filter_agree. intros who Hwho.
    by rewrite entered_primary_down.
  - rewrite run_sources_errors. unfold priority_order. cbn [flat_map entered fetched].
    rewrite Hdown. reflexivity.
Qed.

Lemma X12_primary_failure_witness :
  map fst (CollectRun.calls
             (collect_opportunities str_of_nothing dod_first_config primary_down_world))
  = sbir :: filter (fun who => SourceConfig.enabled (source_flags dod_first_config who) = true)
                   secondaries
  /\ head (Collected.errors (run_sources str_of_nothing dod_first_config primary_down_world))
     = Some ("SBIR.gov: " +:+ exn_msg (Exn RequestError "connection refused")).
Proof.
  apply (X12_primary_failure_calls_every_enabled_source
           str_of_nothing dod_first_config primary_down_world
           (Exn RequestError "connection refused")).
  reflexivity.
Defined.

(** ** The notification messages *)

Lemma length_append s t :
  String.length (s +:+ t) = (String.length s + String.length t)%nat.
Proof.
  induction s as [|c s IH]; [reflexivity|].
  rewrite append_cons. cbn [String.length]. by rewrite IH.
Qed.

Lemma append_assoc s t u : (s +:+ t) +:+ u = s +:+ (t +:+ u).
Proof.
  induction s as [|c s IH]; [reflexivity|].
  rewrite !append_cons. by rewrite IH.
Qed.

Lemma join_cons sep p q ps :
  Str.join sep (p :: q :: ps) = p +:+ sep +:+ Str.join sep (q :: ps).
Proof. reflexivity. Qed.

(** Appending a line to a message in the making. *)
Lemma join_snoc sep lines line :
  lines <> [] ->
  Str.join sep (lines ++ [line]) = Str.join sep lines +:+ sep +:+ line.
Proof.
  induction lines as [|p lines IH]; [done|]. intros _.
  destruct lines as [|q lines]; [reflexivity|].
  change ((p :: q :: lines) ++ [line]) with (p :: (q :: lines) ++ [line]).
  change ((q :: lines) ++ [line]) with (q :: lines ++ [line]) at 1.
  rewrite !join_cons.
  change (q :: lines ++ [line]) with ((q :: lines) ++ [line]).
  rewrite IH by done. by rewrite !append_assoc.
Qed.

Lemma join_snoc_length lines line :
  lines <> [] ->
  String.length (Str.join newline (lines ++ [line]))
  = (String.length (Str.join newline lines) + (String.length line + 1))%nat.
Proof.
  intros H. rewrite join_snoc, !length_append by exact H.
  change (String.length newline) with 1%nat. lia.
Qed.

(** The loop keeps every line, in order, and opens a continuation message
    only to put a line into it. *)
Lemma build_payloads_loop_chunks matches : forall header chunk len payloads,
  exists tail chunks,
    build_payloads_loop matches (header :: chunk) len payloads
    = payloads ++ payload_of header (chunk ++ tail)
                  :: map (payload_of cont_header) chunks
    /\ tail ++ concat chunks = map _format_match matches
    /\ Forall (fun c => c <> []) chunks.
Proof.
  induction matches as [|m matches IH]; intros header chunk len payloads.
  - exists [], []. rewrite app_nil_r. by repeat split.
  - cbn [build_payloads_loop]. destruct (_ <? _)%nat.
    + destruct (IH cont_header [_format_match m]
                   (String.length cont_header + (String.length (_format_match m) + 1))%nat
                   (payloads ++ [Str.join newline (header :: chunk)]))
        as (tail & chunks & Heq & Hcat & Hne).
      exists [], (([_format_match m] ++ tail) :: chunks).
      split; [|split].
      * change ([cont_header] ++ [_format_match m]) with [cont_header; _format_match m]
          in Heq.
        change ("**SBIR matches (cont.):**") with cont_header.
        change ([cont_header] ++ [_format_match m]) with [cont_header; _format_match m].
        rewrite Heq, <- app_assoc, app_nil_r. reflexivity.
      * cbn [concat app map]. by rewrite Hcat.
      * constructor; [done|exact Hne].
    + destruct (IH header (chunk ++ [_format_match m])
                   (len + (String.length (_format_match m) + 1))%nat payloads)
        as (tail & chunks & Heq & Hcat & Hne).
      exists (_format_match m :: tail), chunks.
      split; [|split].
      * change ((header :: chunk) ++ [_format_match m])
          with (header :: chunk ++ [_format_match m]).
        rewrite Heq, <- app_assoc. reflexivity.
      * cbn [app map]. by rewrite Hcat.
      * exact Hne.
Qed.

(** The running length is the length of the message in the making, and no
    message is closed or continued beyond the limit. *)
Lemma build_payloads_loop_bound matches : forall lines len payloads,
  lines <> [] ->
  len = String.length (Str.join newline lines) ->
  (len <= 1800)%nat ->
  Forall (fun p => (String.length p <= 1800)%nat) payloads ->
  Forall (fun m => (String.length (_format_match m) <= 1774)%nat) matches ->
  Forall (fun p => (String.length p <= 1800)%nat)
         (build_payloads_loop matches lines len payloads).
Proof.
  induction matches as [|m matches IH]; intros lines len payloads Hne Hlen Hle Hps Hms.
  - cbn [build_payloads_loop]. destruct lines; [done|].
    apply Forall_app. split; [exact Hps|]. constructor; [|constructor]. by rewrite <- Hlen.
  - apply Forall_cons in Hms as [Hm Hms]. cbn [build_payloads_loop].
    destruct (_ <? _)%nat eqn:Hover.
    + apply IH; try done.
      * change ([?h] ++ [?l]) with ([h; l]). cbn [Str.join].
        rewrite !length_append. change (String.length newline) with 1%nat. lia.
      * change (String.length "**SBIR matches (cont.):**") with 25%nat. lia.
      * apply Forall_app. split; [exact Hps|]. constructor; [|constructor].
        by rewrite <- Hlen.
    + apply Nat.ltb_ge in Hover. apply IH; try done.
      * by destruct lines.
      * rewrite join_snoc_length by exact Hne. by rewrite Hlen.
      * lia.
Qed.

(** X13. No message exceeds 1800 characters, provided no single line is
    longer than 1774 characters (the limit less the continuation header
    and the line break). *)
Theorem X13_payloads_within_limit matches :
  Forall (fun m => (String.length (_format_match m) <= 1774)%nat) matches ->
  Forall (fun p => (String.length p <= 1800)%nat) (_build_payloads matches).
Proof.
  intros H. unfold _build_payloads. apply build_payloads_loop_bound; try done.
  change (String.length "**SBIR matches:**") with 17%nat. lia.
Qed.

Lemma X13_payloads_within_limit_witness :
  Forall (fun p => (String.length p <= 1800)%nat) (_build_payloads [robotics_match]).
Proof.
  apply (X13_payloads_within_limit [robotics_match]).
  constructor; [vm_compute; lia|constructor].
Defined.

Lemma payloads_start_with_header matches :
  exists chunk chunks,
    _build_payloads matches
    = payload_of first_header chunk :: map (payload_of cont_header) chunks.
Proof.
  destruct (build_payloads_loop_chunks matches first_header []
              (String.length first_header) []) as (tail & chunks & Heq & _).
  by exists tail, chunks.
Qed.

(** X14. The messages carry the line of every match exactly once and in
    order: the first message opens with the header, each further one with
    the continuation header, there is always a first message, and a
    continuation message is never empty. *)
Theorem X14_payloads_keep_every_line matches :
  exists chunk chunks,
    _build_payloads matches
    = payload_of first_header chunk :: map (payload_of cont_header) chunks
    /\ chunk ++ concat chunks = map _format_match matches
    /\ Forall (fun c => c <> []) chunks.
Proof.
  destruct (build_payloads_loop_chunks matches first_header []
              (String.length first_header) []) as (tail & chunks & Heq & Hcat & Hne).
  exists tail, chunks. split; [exact Heq|]. by split.
Qed.

Lemma post_all_ok post payloads :
  post_all post payloads = Ok tt <-> Forall (fun p => post p = None) payloads.
Proof.
  induction payloads as [|p payloads IH]; [by split; [constructor|]|].
  cbn [post_all]. rewrite Forall_cons. destruct (post p) eqn:Hp.
  - split; [discriminate|]. by intros [[=] _].
  - rewrite IH. tauto.
Qed.

(** X15. A notification that returns outside dry-run mode has delivered:
    every message built from the matches was accepted by the transport
    (the webhook whenever its URL is configured, the bot otherwise), and
    [sent] is the number of messages, which is at least one. *)
Theorem X15_notify_delivers_every_payload matches config discord result :
  matches <> [] ->
  NotifyConfig.dry_run (AppConfig.notify config) = false ->
  notify matches config discord = Ok result ->
  Forall (fun p => transport config discord p = None) (_build_payloads matches)
  /\ NotifyResult.sent result = length (_build_payloads matches)
  /\ (1 <= NotifyResult.sent result)%nat
  /\ NotifyResult.skipped result = 0%nat.
Proof.
  intros Hne Hdry. unfold notify, _send_payloads, transport.
  destruct matches as [|m matches]; [done|]. rewrite Hdry.
  destruct (payloads_start_with_header (m :: matches)) as (chunk & chunks & Heq).
  destruct (opt_truthy (NotifyConfig.discord_webhook_url _)).
  - destruct (post_all _ _) as [[]|] eqn:Hpost; cbn [bind]; [|discriminate].
    intros [= <-]. apply post_all_ok in Hpost. cbn [NotifyResult.sent NotifyResult.skipped].
    repeat split; [exact Hpost|]. rewrite Heq. cbn [length]. lia.
  - destruct (_ && _); [|discriminate].
    destruct (post_all _ _) as [[]|] eqn:Hpost; cbn [bind]; [|discriminate].
    intros [= <-]. apply post_all_ok in Hpost. cbn [NotifyResult.sent NotifyResult.skipped].
    repeat split; [exact Hpost|]. rewrite Heq. cbn [length]. lia.
Qed.

Lemma X15_notify_delivers_witness :
  Forall (fun p => transport both_transports_config webhook_only_discord p = None)
         (_build_payloads [robotics_match])
  /\ NotifyResult.sent (NotifyResult.mk 1 0) = length (_build_payloads [robotics_match])
  /\ (1 <= NotifyResult.sent (NotifyResult.mk 1 0))%nat
  /\ NotifyResult.skipped (NotifyResult.mk 1 0) = 0%nat.
Proof.
  apply (X15_notify_delivers_every_payload
           [robotics_match] both_transports_config webhook_only_discord
           (NotifyResult.mk 1 0)).
  - discriminate.
  - reflexivity.
  - vm_compute. reflexivity.
Defined.

(** ** sbir.py: choosing the API address and paging through it *)

Section paging_facts.
Variable py_repr : list string -> string.
Variable fetch_page : nat -> Request.t -> result ApiResponse.t.

Lemma select_loop_spec urls : forall errors sent,
  match SbirRun.outcome (select_loop py_repr fetch_page urls errors sent) with
  | Ok base_url =>
      exists before after,
        urls = before ++ base_url :: after
        /\ SbirRun.requests (select_loop py_repr fetch_page urls errors sent)
           = sent ++ map probe (before ++ [base_url])
        /\ (forall i u, before !! i = Some u ->
              raises (fetch_page (length sent + i) (probe u)) = true)
        /\ raises (fetch_page (length sent + length before) (probe base_url)) = false
  | Raise exc =>
      exn_cls exc = RuntimeError
      /\ SbirRun.requests (select_loop py_repr fetch_page urls errors sent)
         = sent ++ map probe urls
      /\ (forall i u, urls !! i = Some u ->
            raises (fetch_page (length sent + i) (probe u)) = true)
  end.
Proof.
  induction urls as [|url urls IH]; intros errors sent.
  - cbn [select_loop]. destruct errors; cbn [SbirRun.outcome SbirRun.requests map];
      rewrite app_nil_r; repeat split; intros i u Hi; by rewrite lookup_nil in Hi.
  - cbn [select_loop]. destruct (fetch_page (length sent) (probe url)) as [resp|exc] eqn:Hp.
    + cbn [SbirRun.outcome SbirRun.requests]. exists [], urls.
      split; [reflexivity|]. split; [reflexivity|]. split.
      * intros i u Hi. by rewrite lookup_nil in Hi.
      * cbn [length]. by rewrite Nat.add_0_r, Hp.
    + specialize (IH (errors ++ [url +:+ ": " +:+ exn_msg exc]) (sent ++ [probe url])).
      rewrite length_app in IH. cbn [length] in IH.
      destruct (SbirRun.outcome (select_loop py_repr fetch_page urls _ _)) as [base_url|e].
      * destruct IH as (before & after & -> & Hreq & Hbefore & Hhit).
        exists (url :: before), after.
        split; [reflexivity|]. split; [|split].
        -- rewrite Hreq, <- app_assoc. reflexivity.
        -- intros [|i] u Hi.
           ++ injection Hi as <-. by rewrite Nat.add_0_r, Hp.
           ++ cbn in Hi. specialize (Hbefore i u Hi).
              by replace (length sent + S i)%nat with (length sent + 1 + i)%nat by lia.
        -- cbn [length].
           by replace (length sent + S (length before))%nat
             with (length sent + 1 + length before)%nat by lia.
      * destruct IH as (Hcls & Hreq & Hall). split; [exact Hcls|]. split.
        -- rewrite Hreq, <- app_assoc. reflexivity.
        -- intros [|i] u Hi.
           ++ injection Hi as <-. by rewrite Nat.add_0_r, Hp.
           ++ cbn in Hi. specialize (Hall i u Hi).
              by replace (length sent + S i)%nat with (length sent + 1 + i)%nat by lia.
Qed.

Lemma page_request_succ base_url rows open_only start i :
  page_request base_url rows open_only (start + rows) i
  = page_request base_url rows open_only start (S i).
Proof. unfold page_request. f_equal. lia. Qed.

Lemma page_request_zero base_url rows open_only start :
  page_request base_url rows open_only start 0 = Request.mk base_url rows start open_only.
Proof. unfold page_request. f_equal. lia. Qed.

Lemma page_loop_spec base_url rows open_only left : forall start records sent,
  let run := page_loop fetch_page base_url rows open_only left start records sent in
  let request := page_request base_url rows open_only start in
  let answer := fun i => fetch_page (length sent + i) (request i) in
  exists k,
    SbirRun.requests run = sent ++ map request (seq 0 k)
    /\ (k <= left)%nat
    /\ (forall i, (S i < k)%nat -> full_page rows (answer i))
    /\ match SbirRun.outcome run with
       | Ok all =>
           all = records ++ concat (map (fun i => page_records (answer i)) (seq 0 k))
           /\ (forall i, (i < k)%nat -> raises (answer i) = false)
           /\ (k = left \/ exists i, k = S i /\ last_page rows (answer i))
       | Raise exc => exists i, k = S i /\ answer i = Raise exc
       end.
Proof.
  induction left as [|left IH]; intros start records sent; cbv zeta.
  - exists 0%nat. cbn. rewrite !app_nil_r. repeat split; lia.
  - cbn [page_loop].
    destruct (fetch_page (length sent) (Request.mk base_url rows start open_only))
      as [response|exc] eqn:Hfirst.
    2: { exists 1%nat. cbn [SbirRun.requests SbirRun.outcome seq map].
         rewrite page_request_zero. repeat split; try lia.
         exists 0%nat. by rewrite Nat.add_0_r, page_request_zero. }
    assert (fetch_page (length sent + 0)
              (page_request base_url rows open_only start 0) = Ok response) as Hzero
      by (by rewrite Nat.add_0_r, page_request_zero).
    destruct (ApiResponse.records response) as [|d ds] eqn:Hrecs.
    { exists 1%nat. cbn [SbirRun.requests SbirRun.outcome seq map concat].
      rewrite Hzero, page_request_zero. cbn [page_records]. rewrite Hrecs, ?app_nil_r.
      repeat split; try lia.
      - intros i Hi. assert (i = 0%nat) as -> by lia. by rewrite Hzero.
      - right. exists 0%nat. split; [reflexivity|]. left. rewrite Hzero. exact Hrecs. }
    destruct (Z.of_nat (length (d :: ds)) <? rows) eqn:Hshort.
    { exists 1%nat. cbn [SbirRun.requests SbirRun.outcome seq map concat].
      rewrite Hzero, page_request_zero. cbn [page_records]. rewrite Hrecs, ?app_nil_r.
      repeat split; try lia.
      - intros i Hi. assert (i = 0%nat) as -> by lia. by rewrite Hzero.
      - right. exists 0%nat. split; [reflexivity|]. right. rewrite Hzero.
        cbn [page_records]. rewrite Hrecs. by apply Z.ltb_lt. }
    apply Z.ltb_ge in Hshort.
    destruct (IH (start + rows)%Z (records ++ d :: ds)
                 (sent ++ [Request.mk base_url rows start open_only]))
      as (k & Hreq & Hk & Hfull & Hout).
    cbv zeta in Hreq, Hfull, Hout. rewrite length_app in Hfull, Hout. cbn [length] in Hfull, Hout.
    assert (forall i, fetch_page (length sent + 1 + i)
                        (page_request base_url rows open_only (start + rows) i)
                      = fetch_page (length sent + S i)
                          (page_request base_url rows open_only start (S i))) as Hshift.
    { intros i. rewrite page_request_succ. f_equal. lia. }
    exists (S k). split; [|split; [lia|split]].
    + rewrite Hreq, <- app_assoc. cbn [seq map app]. rewrite page_request_zero.
      do 2 f_equal. rewrite <- seq_shift, map_map.
      apply map_ext. intros i. apply page_request_succ.
    + intros [|i] Hi.
      * rewrite Hzero. unfold full_page. cbn [raises page_records]. rewrite Hrecs.
        repeat split; done.
      * rewrite <- Hshift. apply Hfull. lia.
    + destruct (SbirRun.outcome _) as [all|exc].
      * destruct Hout as (-> & Hok & Hstop). split; [|split].
        -- cbn [seq map concat]. rewrite Hzero. cbn [page_records]. rewrite Hrecs.
           rewrite <- app_assoc. do 2 f_equal.
           rewrite <- seq_shift, map_map. f_equal. apply map_ext. intros i.
           by rewrite Hshift.
        -- intros [|i] Hi; [by rewrite Hzero|]. rewrite <- Hshift. apply Hok. lia.
        -- destruct Hstop as [->|(i & -> & Hlast)]; [by left|right].
           exists (S i). split; [reflexivity|]. by rewrite <- Hshift.
      * destruct Hout as (i & -> & Hraise). exists (S i). split; [reflexivity|].
        by rewrite <- Hshift.
Qed.

(** X16. [_select_base_url] probes the configured addresses in order, each
    at most once, and returns the first whose probe does not raise; when
    every probe raises, or no address is configured, it raises a
    [RuntimeError], whatever the probes raised. *)
Theorem X16_select_base_url_first_working api :
  let run := _select_base_url py_repr fetch_page api in
  let urls := SbirApi.api_base_urls api in
  match SbirRun.outcome run with
  | Ok base_url =>
      exists before after,
        urls = before ++ base_url :: after
        /\ SbirRun.requests run = map probe (before ++ [base_url])
        /\ (forall i u, before !! i = Some u -> raises (fetch_page i (probe u)) = true)
        /\ raises (fetch_page (length before) (probe base_url)) = false
  | Raise exc =>
      exn_cls exc = RuntimeError
      /\ SbirRun.requests run = map probe urls
      /\ (forall i u, urls !! i = Some u -> raises (fetch_page i (probe u)) = true)
  end.
Proof.
  cbv zeta. unfold _select_base_url.
  pose proof (select_loop_spec (SbirApi.api_base_urls api) [] []) as H.
  destruct (SbirRun.outcome _); exact H.
Qed.

(** X17. Once an address is chosen, [fetch_solicitations] asks for pages
    of [rows] records, [rows] clamped to 1..50, at the offsets 0, [rows],
    2*[rows], ..., at most [max_pages] of them; every page but the last
    one requested was full; the result is the concatenation of the pages in
    order, the loop having stopped at the page limit or at an empty or
    short page; and an exception is the one of the last request made. *)
Theorem X17_fetch_solicitations_pages api base_url :
  SbirRun.outcome (_select_base_url py_repr fetch_page api) = Ok base_url ->
  let run := fetch_solicitations py_repr fetch_page api in
  let probes := SbirRun.requests (_select_base_url py_repr fetch_page api) in
  let request := page_request base_url (page_rows api) (SbirApi.open_only api) 0 in
  let answer := fun i => fetch_page (length probes + i) (request i) in
  (1 <= page_rows api <= 50)%Z
  /\ exists k,
       SbirRun.requests run = probes ++ map request (seq 0 k)
       /\ (Z.of_nat k <= Z.max 0 (SbirApi.max_pages api))%Z
       /\ (forall i, (S i < k)%nat -> full_page (page_rows api) (answer i))
       /\ match SbirRun.outcome run with
          | Ok records =>
              records = concat (map (fun i => page_records (answer i)) (seq 0 k))
              /\ (forall i, (i < k)%nat -> raises (answer i) = false)
              /\ (k = Z.to_nat (SbirApi.max_pages api)
                  \/ exists i, k = S i /\ last_page (page_rows api) (answer i))
          | Raise exc => exists i, k = S i /\ answer i = Raise exc
          end.
Proof.
  intros Hsel. cbv zeta. split; [unfold page_rows; lia|].
  unfold fetch_solicitations. rewrite Hsel.
  destruct (page_loop_spec base_url (page_rows api) (SbirApi.open_only api)
              (Z.to_nat (SbirApi.max_pages api)) 0 []
              (SbirRun.requests (_select_base_url py_repr fetch_page api)))
    as (k & Hreq & Hk & Hfull & Hout).
  exists k. split; [exact Hreq|]. split; [lia|]. split; [exact Hfull|exact Hout].
Qed.
End paging_facts.

Lemma X17_fetch_solicitations_witness :
  let run := fetch_solicitations str_of_lines paging_server paging_api in
  let probes := SbirRun.requests (_select_base_url str_of_lines paging_server paging_api) in
  let request :=
    page_request "https://api.example/solicitations" (page_rows paging_api)
                 (SbirApi.open_only paging_api) 0 in
  let answer := fun i => paging_server (length probes + i) (request i) in
  (1 <= page_rows paging_api <= 50)%Z
  /\ exists k,
       SbirRun.requests run = probes ++ map request (seq 0 k)
       /\ (Z.of_nat k <= Z.max 0 (SbirApi.max_pages paging_api))%Z
       /\ (forall i, (S i < k)%nat -> full_page (page_rows paging_api) (answer i))
       /\ match SbirRun.outcome run with
          | Ok records =>
              records = concat (map (fun i => page_records (answer i)) (seq 0 k))
              /\ (forall i, (i < k)%nat -> raises (answer i) = false)
              /\ (k = Z.to_nat (SbirApi.max_pages paging_api)
                  \/ exists i, k = S i /\ last_page (page_rows paging_api) (answer i))
          | Raise exc => exists i, k = S i /\ answer i = Raise exc
          end.
Proof.
  apply (X17_fetch_solicitations_pages
           str_of_lines paging_server paging_api "https://api.example/solicitations").
  vm_compute. reflexivity.
Defined.

(** ** sbir.py: the opportunities of a solicitation *)

Lemma opportunities_of_topic_length py_str base solicitation topic :
  length (opportunities_of_topic py_str base solicitation topic) = yield_of_topic topic.
Proof.
  destruct topic as [| | | | |t]; try reflexivity.
  cbn [opportunities_of_topic yield_of_topic].
  destruct (list_or_empty (dict_get t "subtopics")) as [|s subtopics]; [reflexivity|].
  generalize (s :: subtopics). intros l.
  induction l as [|x l IH]; [reflexivity|].
  cbn [flat_map]. rewrite length_app, IH, filter_cons.
  destruct x; cbn [is_dict]; by repeat case_decide.
Qed.

Lemma opportunities_of_topic_base py_str solicitation topic :
  Forall (from_solicitation (_base_fields py_str solicitation))
         (opportunities_of_topic py_str (_base_fields py_str solicitation)
            solicitation topic).
Proof.
  destruct topic as [| | | | |t]; try constructor.
  cbn [opportunities_of_topic].
  destruct (list_or_empty (dict_get t "subtopics")) as [|s subtopics].
  - constructor; [by repeat split|constructor].
  - apply Forall_flat_map. intros [| | | | |d]; try constructor; [|constructor].
    by repeat split.
Qed.

Lemma sum_list_zero (l : list nat) : sum_list l = 0%nat <-> Forall (fun n => n = 0%nat) l.
Proof.
  induction l as [|n l IH]; [by split; [constructor|]|].
  cbn [sum_list sum_list_with]. rewrite Forall_cons, <- IH. unfold id. lia.
Qed.

Lemma flat_map_length_sum {A B : Type} (f : A -> list B) (l : list A) :
  length (flat_map f l) = sum_list (map (fun a => length (f a)) l).
Proof.
  induction l as [|a l IH]; [reflexivity|].
  cbn [flat_map map sum_list sum_list_with]. by rewrite length_app, IH.
Qed.

(** X18. What a solicitation yields: one opportunity when it lists no
    topic; otherwise one per topic without subtopics and one per subtopic
    that is an object, items that are not objects being passed over. So a
    solicitation is dropped without a trace exactly when it lists topics
    and none of them yields anything. Every opportunity yielded carries
    the solicitation's own title, number, agency, branch and dates. *)
Theorem X18_iter_opportunities_yield py_str solicitation :
  let topics := list_or_empty (dict_get solicitation "solicitation_topics") in
  length (iter_opportunities py_str solicitation)
  = (if is_empty topics then 1%nat else sum_list (map yield_of_topic topics))
  /\ (iter_opportunities py_str solicitation = [] <->
      topics <> [] /\ Forall (fun topic => yield_of_topic topic = 0%nat) topics)
  /\ Forall (from_solicitation (_base_fields py_str solicitation))
            (iter_opportunities py_str solicitation).
Proof.
  cbv zeta.
  assert (length (iter_opportunities py_str solicitation)
          = (if is_empty (list_or_empty (dict_get solicitation "solicitation_topics"))
             then 1%nat
             else sum_list (map yield_of_topic
                              (list_or_empty (dict_get solicitation "solicitation_topics")))))
    as Hlen.
  { unfold iter_opportunities.
    destruct (list_or_empty (dict_get solicitation "solicitation_topics")) as [|t topics];
      [reflexivity|].
    rewrite flat_map_length_sum. cbn [is_empty]. f_equal. apply map_ext.
    intros topic. apply opportunities_of_topic_length. }
  split; [exact Hlen|]. split.
  - rewrite <- length_zero_iff_nil, Hlen.
    destruct (list_or_empty (dict_get solicitation "solicitation_topics")) as [|t topics].
    + cbn [is_empty]. split; [discriminate|]. by intros [? _].
    + cbn [is_empty]. rewrite sum_list_zero, Forall_map. split.
      * intros H. by split.
      * by intros [_ H].
  - unfold iter_opportunities.
    destruct (list_or_empty (dict_get solicitation "solicitation_topics")) as [|t topics].
    + constructor; [by repeat split|constructor].
    + apply Forall_flat_map. intros topic. apply opportunities_of_topic_base.
Qed.

(** *** Texts without white space at either end *)

Lemma rstrip_idem s : Str.rstrip (Str.rstrip s) = Str.rstrip s.
Proof.
  induction s as [|c s IH]; [reflexivity|].
  cbn [Str.rstrip]. destruct (Str.rstrip s) as [|d r] eqn:Hr.
  - destruct (Str.is_space c) eqn:Hc; [reflexivity|].
    cbn [Str.rstrip]. by rewrite Hc.
  - cbn [Str.rstrip] in *. by rewrite IH.
Qed.

Lemma rstrip_head c s :
  Str.is_space c = false -> exists r, Str.rstrip (String c s) = String c r.
Proof.
  intros Hc. cbn [Str.rstrip]. destruct (Str.rstrip s).
  - rewrite Hc. by eexists.
  - by eexists.
Qed.

Lemma lstrip_head s :
  Str.lstrip s = "" \/ exists c r, Str.lstrip s = String c r /\ Str.is_space c = false.
Proof.
  induction s as [|c s IH]; [by left|].
  cbn [Str.lstrip]. destruct (Str.is_space c) eqn:Hc; [exact IH|].
  right. by exists c, s.
Qed.

Lemma strip_idem s : Str.strip (Str.strip s) = Str.strip s.
Proof.
  unfold Str.strip. destruct (lstrip_head s) as [->|(c & r & -> & Hc)]; [reflexivity|].
  destruct (rstrip_head c r Hc) as [r' Hr]. rewrite Hr.
  cbn [Str.lstrip]. rewrite Hc, <- Hr. apply rstrip_idem.
Qed.

Lemma nonempty_strip_normal s : normal_text (nonempty (Str.strip s)).
Proof.
  unfold nonempty. destruct (Str.truthy (Str.strip s)) eqn:Ht; [|exact I].
  split; [exact Ht|apply strip_idem].
Qed.

Lemma to_str_normal py_str value : normal_text (_to_str py_str value).
Proof.
  destruct value as [[]|]; cbn [_to_str]; try exact I; apply nonempty_strip_normal.
Qed.

Lemma first_url_normal py_str source keys : normal_text (first_url py_str source keys).
Proof.
  induction keys as [|key keys IH]; [exact I|].
  cbn [first_url]. destruct (opt_truthy _); [apply to_str_normal|exact IH].
Qed.

Lemma best_url_in_normal py_str sources : normal_text (best_url_in py_str sources).
Proof.
  induction sources as [|[[|kv d]|] sources IH]; cbn [best_url_in]; try done.
  pose proof (first_url_normal py_str (kv :: d) url_keys) as H.
  by destruct (first_url py_str (kv :: d) url_keys).
Qed.

Lemma or_empty_stripped py_str value :
  Str.strip (or_empty (_to_str py_str value)) = or_empty (_to_str py_str value).
Proof.
  pose proof (to_str_normal py_str value) as H.
  destruct (_to_str py_str value); [apply H|reflexivity].
Qed.

Lemma opportunity_from_topic_normal py_str solicitation topic subtopic :
  Forall normal_text
    (text_fields (_opportunity_from_topic py_str (_base_fields py_str solicitation)
                    solicitation topic subtopic)).
Proof.
  unfold text_fields, _opportunity_from_topic, _base_fields, _best_url.
  cbn [Opportunity.solicitation_number Opportunity.agency Opportunity.branch
       Opportunity.open_date Opportunity.close_date Opportunity.topic_title
       Opportunity.topic_number Opportunity.topic_description
       Opportunity.subtopic_title Opportunity.subtopic_description Opportunity.url
       BaseFields.solicitation_number BaseFields.agency BaseFields.branch
       BaseFields.open_date BaseFields.close_date].
  repeat constructor; try apply to_str_normal; try apply best_url_in_normal;
    destruct (dict_truthy subtopic); try exact I; apply to_str_normal.
Qed.

(** X19. Every text of an opportunity built from a solicitation is in
    normal form: an optional field is either absent or a non-empty text
    with no white space at either end (never the empty string), and the
    title is stripped too, being empty only when the solicitation has
    none. *)
Theorem X19_sbir_texts_are_stripped py_str solicitation :
  Forall (fun o =>
            Str.strip (Opportunity.solicitation_title o) = Opportunity.solicitation_title o
            /\ Forall normal_text (text_fields o))
         (iter_opportunities py_str solicitation).
Proof.
  unfold iter_opportunities.
  destruct (list_or_empty (dict_get solicitation "solicitation_topics")) as [|t topics].
  - constructor; [|constructor]. split; [apply or_empty_stripped|].
    unfold text_fields, _base_fields, _best_url.
    cbn [Opportunity.solicitation_number Opportunity.agency Opportunity.branch
         Opportunity.open_date Opportunity.close_date Opportunity.topic_title
         Opportunity.topic_number Opportunity.topic_description
         Opportunity.subtopic_title Opportunity.subtopic_description Opportunity.url
         BaseFields.solicitation_number BaseFields.agency BaseFields.branch
         BaseFields.open_date BaseFields.close_date].
    repeat constructor; try apply to_str_normal; apply best_url_in_normal.
  - apply Forall_flat_map. intros topic.
    destruct topic as [| | | | |d]; try constructor.
    cbn [opportunities_of_topic].
    destruct (list_or_empty (dict_get d "subtopics")) as [|s subtopics].
    + constructor; [|constructor].
      split; [apply or_empty_stripped|apply opportunity_from_topic_normal].
    + apply Forall_flat_map. intros [| | | | |sd]; try constructor; [|constructor].
      split; [apply or_empty_stripped|apply opportunity_from_topic_normal].
Qed.

(** ** config.py: what [load_config] does to the merged settings *)

Lemma env_or getenv name fallback :
  match getenv_set getenv name with Some value => Some value | None => fallback end
  = first_set [getenv name] fallback.
Proof.
  unfold getenv_set. cbn [first_set]. destruct (getenv name) as [value|]; [|reflexivity].
  cbn [opt_truthy]. by destruct (Str.truthy value).
Qed.

(** X20. After [load_config] the agency filter ignores case: a record
    passes exactly when no agency is configured or its agency equals a
    configured one up to case. The normalisation changes nothing else the
    matcher reads: the whitelist test and the searchable text are those of
    the settings as typed. *)
Theorem X20_loaded_agency_filter_ignores_case {attrs : ClassAttrs} config o :
  (agency_rejected (normalized config) o = false <->
     MatchConfig.agencies (AppConfig.match_ config) = []
     \/ exists agency,
          agency ∈ MatchConfig.agencies (AppConfig.match_ config)
          /\ Str.upper agency = Str.upper (or_empty (Opportunity.agency o)))
  /\ whitelisted (normalized config) o = whitelisted config o
  /\ build_text o (normalized config) = build_text o config.
Proof.
  split; [|split].
  - unfold agency_rejected, normalized, _normalize_agencies.
    cbn [AppConfig.match_ MatchConfig.agencies].
    destruct (MatchConfig.agencies (AppConfig.match_ config)) as [|a agencies].
    + split; [by left|reflexivity].
    + change (map Str.upper (a :: agencies))
        with (Str.upper a :: map Str.upper agencies).
      change (Str.upper a :: map Str.upper agencies)
        with (map Str.upper (a :: agencies)).
      cbn [map]. rewrite negb_false_iff, bool_decide_eq_true.
      change (Str.upper a :: map Str.upper agencies)
        with (Str.upper <$> (a :: agencies)).
      rewrite list_elem_of_fmap. split.
      * intros (agency & Heq & Hin). right. by exists agency.
      * intros [[=]|(agency & Hin & Heq)]. by exists agency.
  - unfold whitelisted, cfg_always_include, normalized, _normalize_sources.
    cbn [AppConfig.match_ MatchConfig.always_include_sources].
    rewrite map_map.
    rewrite (map_ext _ Str.lower lower_idem). reflexivity.
  - reflexivity.
Qed.

(** X21. The environment overrides the file for the Discord settings, in
    a fixed order of precedence: the webhook URL is [DISCORD_WEBHOOK_URL]
    or else the file's; the channel is the first that is set and not empty
    among [DISCORD_CHANNEL_ID], the file, [DISCORD_ID] and
    [DISCORD_CHANNEL]; the token is the file's unless [DISCORD_TOKEN] is
    set, and a token from the environment has no white space at either
    end. The other notification settings are kept. *)
Theorem X21_environment_overrides_file getenv notify :
  let loaded := apply_env getenv notify in
  NotifyConfig.discord_webhook_url loaded
  = first_set [getenv "DISCORD_WEBHOOK_URL"] (NotifyConfig.discord_webhook_url notify)
  /\ NotifyConfig.discord_channel_id loaded
     = first_set [getenv "DISCORD_CHANNEL_ID"; NotifyConfig.discord_channel_id notify;
                  getenv "DISCORD_ID"; getenv "DISCORD_CHANNEL"]
                 (NotifyConfig.discord_channel_id notify)
  /\ match getenv_set getenv "DISCORD_TOKEN" with
     | Some env_bot_token =>
         exists token,
           NotifyConfig.discord_bot_token loaded = Some token
           /\ Str.strip token = token
           /\ (token = Str.strip env_bot_token
               \/ String.prefix "bot " (Str.lower (Str.strip env_bot_token)) = true)
     | None =>
         NotifyConfig.discord_bot_token loaded = NotifyConfig.discord_bot_token notify
     end
  /\ NotifyConfig.dry_run loaded = NotifyConfig.dry_run notify
  /\ NotifyConfig.discord_client_enabled loaded
     = NotifyConfig.discord_client_enabled notify.
Proof.
  cbv zeta. unfold apply_env.
  cbn [NotifyConfig.discord_webhook_url NotifyConfig.discord_channel_id
       NotifyConfig.discord_bot_token NotifyConfig.dry_run
       NotifyConfig.discord_client_enabled first_set].
  split; [|split; [|split; [|by split]]].
  - apply env_or.
  - rewrite !env_or. cbn [first_set].
    repeat match goal with
           | |- context [if opt_truthy ?x then _ else _] => destruct (opt_truthy x) eqn:?
           end; try reflexivity; congruence.
  - destruct (getenv_set getenv "DISCORD_TOKEN") as [raw|]; [|reflexivity].
    exists (clean_token raw). split; [reflexivity|]. unfold clean_token.
    destruct (String.prefix "bot " (Str.lower (Str.strip raw))).
    + split; [apply strip_idem|by right].
    + split; [apply strip_idem|by left].
Qed.

(** A record with agency "DoD" and an allow-list typed as "dod": without
    the normalisation of [load_config] the filter rejects it, with it the
    record passes. *)
Example agency_normalisation_example :
  let record :=
    Opportunity.mk "N241" (Some "sbir") "Robotics research" (Some "N241") (Some "DoD")
                   None None None None None None None None None [] in
  agency_rejected typed_config record = true
  /\ agency_rejected (normalized typed_config) record = false.
Proof. split; reflexivity. Qed.

(** ** sbir.py: the HTTP traffic of a whole fetch *)

Lemma fetch_page_attempts sleep config http :
  (1 <= FetchRun.attempts (_fetch_page sleep config http)
   <= Z.to_nat (Z.max 0 (MatchConfig.retry_max (AppConfig.match_ config))) + 1)%nat.
Proof.
  unfold _fetch_page. set (retries := Z.to_nat _). set (backoff := qmax _ _).
  destruct (fetch_loop_spec http sleep retries backoff (retries + 1) 0 [] 0 None)
    as (j & Hj & Hatt & _); [lia|lia|].
  rewrite Hatt. lia.
Qed.

Lemma attempts_from_bound sleep config server requests : forall n,
  (length requests <= attempts_from sleep config server n requests
   <= length requests
      * (Z.to_nat (Z.max 0 (MatchConfig.retry_max (AppConfig.match_ config))) + 1))%nat.
Proof.
  induction requests as [|request requests IH]; intros n; [cbn; lia|].
  cbn [attempts_from length].
  pose proof (fetch_page_attempts sleep config (server n request)).
  specialize (IH (S n)). lia.
Qed.

(** X22. The traffic of one [fetch_solicitations] is bounded: it calls
    [_fetch_page] at most once per configured address and once per allowed
    page, and so makes at most (addresses + max_pages) * (retries + 1) GET
    requests, retries included, and at least one per call. *)
Theorem X22_fetch_solicitations_traffic_bound py_repr sleep config server api :
  let run := fetch_solicitations py_repr (fetch_page_on sleep config server) api in
  let calls := (length (SbirApi.api_base_urls api)
                + Z.to_nat (SbirApi.max_pages api))%nat in
  let retries :=
    Z.to_nat (Z.max 0 (MatchConfig.retry_max (AppConfig.match_ config))) in
  (length (SbirRun.requests run) <= calls)%nat
  /\ (length (SbirRun.requests run)
      <= attempts_from sleep config server 0 (SbirRun.requests run)
      <= calls * (retries + 1))%nat.
Proof.
  cbv zeta.
  set (fetch_page := fetch_page_on sleep config server).
  assert (length (SbirRun.requests (fetch_solicitations py_repr fetch_page api))
          <= length (SbirApi.api_base_urls api) + Z.to_nat (SbirApi.max_pages api))%nat
    as Hcalls.
  { unfold fetch_solicitations, _select_base_url.
    pose proof (select_loop_spec py_repr fetch_page
                  (SbirApi.api_base_urls api) [] []) as Hsel.
    destruct (SbirRun.outcome (select_loop _ _ _ _ _)) as [base_url|exc].
    - destruct Hsel as (before & after & Hurls & Hreq & _).
      destruct (page_loop_spec fetch_page base_url (page_rows api)
                  (SbirApi.open_only api) (Z.to_nat (SbirApi.max_pages api)) 0 []
                  (SbirRun.requests
                     (select_loop py_repr fetch_page
                        (SbirApi.api_base_urls api) [] [])))
        as (k & -> & Hk & _).
      rewrite Hreq, Hurls, !length_app, !length_map, !length_app, length_seq.
      cbn [length app]. lia.
    - destruct Hsel as (_ & Hreq & _). cbn [SbirRun.requests].
      rewrite Hreq. cbn [app]. rewrite length_map. lia. }
  split; [exact Hcalls|].
  pose proof (attempts_from_bound sleep config server
                (SbirRun.requests (fetch_solicitations py_repr fetch_page api)) 0)
    as [Hlow Hhigh].
  split; [exact Hlow|]. etransitivity; [exact Hhigh|].
  apply Nat.mul_le_mono_r. exact Hcalls.
Qed.

(** ** sam.py: from SAM.gov records to opportunities *)

Lemma append_truthy_l s t : Str.truthy s = true -> Str.truthy (s +:+ t) = true.
Proof. destruct s; [discriminate|]. by rewrite append_cons. Qed.

Lemma or_empty_truthy value :
  opt_truthy value = true -> Str.truthy (or_empty value) = true.
Proof. by destruct value. Qed.

Lemma normal_truthy value :
  normal_text value -> opt_truthy value = true ->
  Str.truthy (or_empty value) = true /\ Str.strip (or_empty value) = or_empty value.
Proof. destruct value as [s|]; [|discriminate]. by intros [? ?] _. Qed.

Lemma or_of_normal (value : option string) (other : string) :
  normal_text value ->
  (if opt_truthy value then or_empty value else other)
  = match value with Some s => s | None => other end.
Proof. destruct value as [s|]; [|done]. intros [Hs _]. cbn. by rewrite Hs. Qed.

Lemma sam_to_opportunity_shape py_str record o :
  Sam._to_opportunity py_str record = Some o ->
  sam_shaped py_str o /\ Opportunity.raw o = record /\ titled py_str record = true.
Proof.
  unfold Sam._to_opportunity, titled.
  destruct (opt_truthy (Sam._to_str py_str (dict_get record "title"))) eqn:Ht;
    cbn [negb]; [|discriminate].
  intros [= <-].
  destruct (normal_truthy _ (to_str_normal py_str (dict_get record "title")) Ht)
    as [Htitle Hstrip].
  split; [|by split]. unfold sam_shaped, sam_identifier, notice_id.
  cbn [Opportunity.source Opportunity.id Opportunity.solicitation_title
       Opportunity.solicitation_number Opportunity.agency Opportunity.branch
       Opportunity.open_date Opportunity.close_date Opportunity.url
       Opportunity.topic_title Opportunity.topic_number Opportunity.subtopic_title
       Opportunity.topic_description Opportunity.subtopic_description Opportunity.raw].
  set (notice := Sam._to_str py_str (py_or [dict_get record "noticeId";
                                            dict_get record "noticeID"])).
  set (number := Sam._to_str py_str (dict_get record "solicitationNumber")).
  set (title := Sam._to_str py_str (dict_get record "title")) in *.
  set (posted := Sam._to_str py_str (dict_get record "postedDate")).
  assert (normal_text notice) as Hnotice by apply to_str_normal.
  assert (normal_text number) as Hnumber by apply to_str_normal.
  split; [reflexivity|]. split.
  { f_equal. rewrite (or_of_normal notice) by exact Hnotice.
    destruct notice; [reflexivity|].
    rewrite (or_of_normal number) by exact Hnumber. reflexivity. }
  split.
  { destruct notice as [n|]; [apply Hnotice|].
    destruct number as [n|]; [apply Hnumber|].
    by apply append_truthy_l. }
  split; [by destruct title|].
  split; [exact Htitle|]. split; [exact Hstrip|].
  split; [|by repeat split].
  repeat constructor; apply to_str_normal.
Qed.

Lemma sam_opportunities_of_spec py_str records :
  Forall (sam_shaped py_str) (Sam.opportunities_of py_str records)
  /\ map Opportunity.raw (Sam.opportunities_of py_str records)
     = filter (fun record => titled py_str record = true) records.
Proof.
  induction records as [|record records [IH1 IH2]]; [by split; [constructor|]|].
  cbn [Sam.opportunities_of]. rewrite filter_cons.
  destruct (Sam._to_opportunity py_str record) as [o|] eqn:Ho.
  - destruct (sam_to_opportunity_shape py_str record o Ho) as (Hshape & Hraw & Ht).
    rewrite decide_True by exact Ht. split; [by constructor|].
    cbn [map]. by rewrite Hraw, IH2.
  - assert (titled py_str record = false) as Ht.
    { unfold Sam._to_opportunity, titled in *.
      by destruct (opt_truthy (Sam._to_str py_str (dict_get record "title"))). }
    rewrite decide_False by (by rewrite Ht). by split.
Qed.

(** X23. The SAM.gov adapter returns one opportunity for each fetched
    record that has a title, in the order fetched, the record itself kept
    as [raw]. Each has source "sam"; an id made of "sam::" and the record's
    notice id, else its solicitation number, else its title and posted date
    around a colon, never empty; the record's title, stripped and not
    empty; solicitation number, agency, branch, dates and url in normal
    form, number and opening date being those of the record; no topic
    title, no topic number, no subtopic title and no subtopic description;
    and as topic description what [_build_description] makes of the record.
    The adapter raises only for a missing API key, as a [RuntimeError] and
    whatever the fetch would have done, or with the exception of the fetch
    itself. *)
Theorem X23_sam_opportunities_shape py_str api_key fetched :
  match Sam.fetch_sam_opportunities py_str api_key fetched with
  | Ok opportunities =>
      opt_truthy api_key = true
      /\ Forall (sam_shaped py_str) opportunities
      /\ exists records,
           fetched = Ok records
           /\ map Opportunity.raw opportunities
              = filter (fun record => titled py_str record = true) records
  | Raise exc =>
      (opt_truthy api_key = false /\ exn_cls exc = RuntimeError)
      \/ (opt_truthy api_key = true /\ fetched = Raise exc)
  end.
Proof.
  unfold Sam.fetch_sam_opportunities.
  destruct (opt_truthy api_key); cbn [negb]; [|by left].
  destruct fetched as [records|exc]; cbn [bind]; [|by right].
  destruct (sam_opportunities_of_spec py_str records) as [H1 H2].
  split; [reflexivity|]. split; [exact H1|]. by exists records.
Qed.

(** ** config.py: merging the file into the defaults *)

Lemma dict_get_set d key value key' :
  dict_get (dict_set d key value) key'
  = if String.eqb key key' then Some value else dict_get d key'.
Proof.
  unfold dict_set. induction d as [|[k v] d IH]; [reflexivity|].
  cbn [app dict_get]. rewrite IH. by destruct (String.eqb key key').
Qed.

Lemma merge_items_get merge defaults pairs : forall merged key,
  dict_get (merge_items merge defaults pairs merged) key
  = match dict_get pairs key with
    | Some value => Some (merge (from_option id JNull (dict_get defaults key)) value)
    | None => dict_get merged key
    end.
Proof.
  induction pairs as [|[k v] pairs IH]; intros merged key; [reflexivity|].
  cbn [merge_items dict_get]. rewrite IH, dict_get_set.
  destruct (dict_get pairs key); [reflexivity|].
  destruct (String.eqb k key) eqn:Hk; [|reflexivity].
  apply String.eqb_eq in Hk as ->. reflexivity.
Qed.

(** X24. Merging a configuration file into the defaults overrides only
    what the file names, at every level: in the merge of two tables a key
    of the file holds the merge of the default's value with the file's, and
    every other key keeps its default; a missing value of the file ([None])
    keeps the default; and a value of the file that is not a table, or that
    meets a default that is not a table, replaces the default outright. *)
Theorem X24_merge_overrides_only_named_keys :
  (forall defaults overrides,
     exists merged,
       _merge (JObj defaults) (JObj overrides) = JObj merged
       /\ forall key,
            dict_get merged key
            = match dict_get overrides key with
              | Some value =>
                  Some (_merge (from_option id JNull (dict_get defaults key)) value)
              | None => dict_get defaults key
              end)
  /\ (forall default_, _merge default_ JNull = default_)
  /\ (forall default_ override,
        override <> JNull ->
        is_dict default_ && is_dict override = false ->
        _merge default_ override = override).
Proof.
  split; [|split].
  - intros defaults overrides. eexists. split; [reflexivity|].
    intros key. apply merge_items_get.
  - by intros [].
  - intros default_ override Hnull Hdict.
    destruct default_, override; try reflexivity; try done.
Qed.

(** ** dod.py and nsf.py: the section of the page that is read *)

Section slicing_facts.
Variable opens : string -> bool.
Variable closes : string -> bool.

(** Once the section is open, the loop runs to the first closer. *)
Lemma slice_scan_open lines : forall idx start,
  (Forall (fun line => closer closes line = false) lines
   /\ slice_scan opens closes lines idx (Some start) = (Some start, None))
  \/ exists section closing after,
       lines = section ++ closing :: after
       /\ Forall (fun line => closer closes line = false) section
       /\ closer closes closing = true
       /\ slice_scan opens closes lines idx (Some start)
          = (Some start, Some (idx + length section)%nat).
Proof.
  induction lines as [|line lines IH]; intros idx start; [by left|].
  cbn [slice_scan]. fold (closer closes line).
  destruct (closer closes line) eqn:Hc.
  - right. exists [], line, lines. cbn [app length]. rewrite Nat.add_0_r.
    by repeat split.
  - destruct (IH (S idx) start) as [[Hall Hscan]|(section & closing & after & -> & Hall & Hcl & Hscan)].
    + left. split; [by constructor|exact Hscan].
    + right. exists (line :: section), closing, after.
      split; [reflexivity|]. split; [by constructor|]. split; [exact Hcl|].
      rewrite Hscan. cbn [length]. do 2 f_equal. lia.
Qed.

(** Before that, it runs to the first opener. *)
Lemma slice_scan_closed lines : forall idx,
  (Forall (fun line => opener opens line = false) lines
   /\ slice_scan opens closes lines idx None = (None, None))
  \/ exists before marker rest,
       lines = before ++ marker :: rest
       /\ Forall (fun line => opener opens line = false) before
       /\ opener opens marker = true
       /\ slice_scan opens closes lines idx None
          = slice_scan opens closes rest (idx + length before + 1)
                       (Some (idx + length before + 1)%nat).
Proof.
  induction lines as [|line lines IH]; intros idx; [by left|].
  cbn [slice_scan]. fold (opener opens line).
  destruct (opener opens line) eqn:Ho.
  - right. exists [], line, lines. cbn [app length].
    replace (idx + 0 + 1)%nat with (S idx) by lia. by repeat split.
  - destruct (IH (S idx)) as [[Hall Hscan]|(before & marker & rest & -> & Hall & Hop & Hscan)].
    + left. split; [by constructor|exact Hscan].
    + right. exists (line :: before), marker, rest.
      split; [reflexivity|]. split; [by constructor|]. split; [exact Hop|].
      rewrite Hscan. cbn [length].
      by replace (S idx + length before + 1)%nat
        with (idx + S (length before) + 1)%nat by lia.
Qed.

Lemma slice_section_sliced lines :
  sliced opens closes lines (slice_section opens closes lines).
Proof.
  unfold slice_section, sliced.
  destruct (slice_scan_closed lines 0)
    as [[Hall ->]|(before & marker & rest & -> & Hall & Hop & ->)]; [by left|].
  right. exists before, marker, rest.
  split; [reflexivity|]. split; [exact Hall|]. split; [exact Hop|].
  cbn [Nat.add].
  assert (length (before ++ [marker]) = (length before + 1)%nat) as Hlen
    by (rewrite length_app; reflexivity).
  destruct (slice_scan_open rest (length before + 1) (length before + 1))
    as [[Hno ->]|(section & closing & after & -> & Hno & Hcl & ->)].
  - left. split; [exact Hno|].
    rewrite (cons_middle marker before rest), app_assoc.
    by rewrite drop_app_length'.
  - right. exists closing, after.
    rewrite (cons_middle marker before), !app_assoc.
    rewrite take_app_length' by (rewrite !length_app; cbn [length]; lia).
    rewrite drop_app_length' by (rewrite !length_app; cbn [length]; lia).
    by repeat split.
Qed.
End slicing_facts.

(** X25. The scrapers read one section of the page: all of it when no
    line opens the section; otherwise the lines after the first opener
    ("active announcement topics" for DARPA, "solicitations" for NSF), up
    to but not including the first closer after it, or to the end of the
    page when none follows. Lines are compared stripped and in lower
    case. *)
Theorem X25_scrapers_read_one_section lines :
  sliced (String.eqb "active announcement topics")
         (fun text => startswith text "closed announcement topics")
         lines (Dod._slice_active_section lines)
  /\ sliced (String.eqb "solicitations")
            (fun text => one_of text ["return to top"; "america's seed fund"])
            lines (Nsf._slice_solicitations lines).
Proof. split; apply slice_section_sliced. Qed.

(** ** dod.py: the topics of the DARPA page *)

Lemma lower_char_colon c : Str.lower_char c = ":"%char -> c = ":"%char.
Proof. destruct c as [[] [] [] [] [] [] [] []]; vm_compute; congruence. Qed.

(** A lower-case prefix with a colon in it puts a colon in the text. *)
Lemma prefix_lower_colon prefix : forall text,
  startswith (Str.lower text) prefix = true ->
  after_colon prefix <> None -> after_colon text <> None.
Proof.
  unfold startswith.
  induction prefix as [|c prefix IH]; intros text Hp Hc; [done|].
  destruct text as [|d text]; [discriminate|].
  cbn [Str.lower Str.map String.prefix] in Hp.
  destruct (ascii_dec c (Str.lower_char d)) as [->|Hne]; [|discriminate].
  cbn [after_colon] in *.
  destruct (Ascii.eqb (Str.lower_char d) ":") eqn:Hd.
  - apply Ascii.eqb_eq, lower_char_colon in Hd as ->. by rewrite Ascii.eqb_refl.
  - destruct (Ascii.eqb d ":"); [done|]. by apply IH.
Qed.

Ltac case_chain :=
  repeat match goal with
         | |- context [if ?b then _ else _] => destruct b eqn:?
         end.

Lemma parse_line_kind st line :
  Dod.parse_line st line
  = match kind_of line with
    | Blank | Ignored => Ok st
    | Program =>
        Ok (Dod.mk_parsing (Dod.topics st) (Dod.current st) (Some (line_text line)))
    | Field key => Dod.set_field st key (line_text line)
    | Title =>
        Ok (Dod.mk_parsing
              (all_topics st)
              (Some [("title", JStr (line_text line));
                     ("program", Dod.json_of_option (Dod.current_program st));
                     ("url", Dod.json_of_option (_pick_url (ParsedLine.hrefs line)))])
              (Dod.current_program st))
    end.
Proof.
  unfold Dod.parse_line, kind_of, all_topics. fold (line_text line).
  cbv zeta. case_chain; reflexivity.
Qed.

Lemma kind_field_keys line key :
  kind_of line = Field key ->
  key ∈ ["objective"; "tech_office"; "topic_number"; "pre_release"; "open_date";
         "close_date"].
Proof.
  unfold kind_of. cbv zeta. case_chain; intros [= <-]; set_solver.
Qed.

Lemma field_has_colon line key :
  kind_of line = Field key -> key <> "topic_number" ->
  after_colon (line_text line) <> None.
Proof.
  unfold kind_of. cbv zeta. case_chain; intros [= <-] Hkey; try done;
    repeat match goal with
           | H : _ || _ = true |- _ => apply orb_true_iff in H as [H|H]
           end;
    match goal with
    | H : startswith (Str.lower _) ?p = true |- _ =>
        apply (prefix_lower_colon p _ H); vm_compute; discriminate
    end.
Qed.

Lemma title_is_not_blank line :
  kind_of line = Title -> Str.truthy (line_text line) = true.
Proof.
  unfold kind_of. cbv zeta. destruct (Str.truthy (line_text line)); [done|].
  cbn [negb]. discriminate.
Qed.

(** The step fails exactly on a topic number without colon while a topic
    is being filled. *)
Lemma parse_line_raises st line :
  raises (Dod.parse_line st line) = true <->
  is_Some (Dod.current st)
  /\ kind_of line = Field "topic_number"
  /\ after_colon (line_text line) = None.
Proof.
  rewrite parse_line_kind.
  destruct (kind_of line) as [| | |key|] eqn:Hk; cbn [raises];
    try (split; [discriminate|by intros (_ & [=] & _)]).
  unfold Dod.set_field.
  destruct (Dod.current st) as [topic|]; cbn [raises].
  2: { split; [discriminate|]. by intros ([? [=]] & _). }
  destruct (after_colon (line_text line)) eqn:Hc; cbn [raises].
  - split; [discriminate|]. by intros (_ & _ & [=]).
  - split; [|done]. intros _. split; [by eexists|]. split; [|reflexivity].
    destruct (decide (key = "topic_number")) as [->|Hne]; [reflexivity|].
    by destruct (field_has_colon line key Hk Hne).
Qed.

Lemma parse_line_current st line st' :
  Dod.parse_line st line = Ok st' ->
  (is_Some (Dod.current st') <-> is_Some (Dod.current st) \/ kind_of line = Title).
Proof.
  rewrite parse_line_kind.
  destruct (kind_of line) as [| | |key|] eqn:Hk.
  1-3: intros [= <-]; cbn [Dod.current]; split; [by left|by intros [?|[=]]].
  - unfold Dod.set_field. destruct (Dod.current st) as [topic|] eqn:Hcur.
    + destruct (after_colon _); [|discriminate]. intros [= <-]. cbn [Dod.current].
      split; [by left|by eexists].
    + intros [= <-]. rewrite Hcur. split; [by left|by intros [?|[=]]].
  - intros [= <-]. cbn [Dod.current]. split; [by right|by eexists].
Qed.

Lemma for_each_parse_raises lines : forall st,
  raises (for_each Dod.parse_line st lines) = true <->
  exists before bad after,
    lines = before ++ bad :: after
    /\ (is_Some (Dod.current st) \/ Exists (fun line => kind_of line = Title) before)
    /\ kind_of bad = Field "topic_number"
    /\ after_colon (line_text bad) = None.
Proof.
  induction lines as [|line lines IH]; intros st.
  - cbn. split; [discriminate|]. intros (before & bad & after & Heq & _).
    by destruct before.
  - cbn [for_each]. pose proof (parse_line_raises st line) as Hstep.
    destruct (Dod.parse_line st line) as [st'|exc] eqn:Hp; cbn [bind raises] in *.
    + rewrite IH. pose proof (parse_line_current st line st' Hp) as Hcur. split.
      * intros (before & bad & after & -> & Hopen & Hk & Hc).
        exists (line :: before), bad, after. split; [reflexivity|]. split; [|by split].
        destruct Hopen as [Hopen|Hex]; [|by right; apply Exists_cons_tl].
        apply Hcur in Hopen as [?|?]; [by left|right]. by apply Exists_cons_hd.
      * intros (before & bad & after & Heq & Hopen & Hk & Hc).
        destruct before as [|first before].
        { injection Heq as <- <-. destruct Hopen as [Hopen|Hex].
          - assert (false = true) as [=]. apply Hstep. by repeat split.
          - by apply Exists_nil in Hex. }
        injection Heq as <- ->. exists before, bad, after.
        split; [reflexivity|]. split; [|by split].
        destruct Hopen as [Hopen|Hex]; [left; apply Hcur; by left|].
        apply Exists_cons in Hex as [Ht|Hex]; [left; apply Hcur; by right|by right].
    + split; [|done]. intros _. destruct Hstep as [Hstep _].
      destruct (Hstep eq_refl) as (Hcur & Hk & Hc).
      exists [], line, lines. split; [reflexivity|]. split; [by left|by split].
Qed.

Lemma title_of_set topic key value :
  key <> "title" ->
  Dod.get_str (dict_set topic key value) "title" = Dod.get_str topic "title".
Proof.
  intros Hne. unfold Dod.get_str. rewrite dict_get_set.
  destruct (String.eqb key "title") eqn:Hk; [|reflexivity].
  by apply String.eqb_eq in Hk.
Qed.

Lemma parse_line_titles st line st' :
  Dod.parse_line st line = Ok st' ->
  map (fun topic => Dod.get_str topic "title") (all_topics st')
  = map (fun topic => Dod.get_str topic "title") (all_topics st) ++ titles_of [line].
Proof.
  rewrite parse_line_kind. unfold titles_of. rewrite filter_cons, filter_nil.
  destruct (kind_of line) as [| | |key|] eqn:Hk.
  1-3: intros [= <-]; rewrite decide_False by discriminate;
       cbn [map]; by rewrite app_nil_r.
  - rewrite decide_False by discriminate. cbn [map]. rewrite app_nil_r.
    unfold Dod.set_field, all_topics.
    destruct (Dod.current st) as [topic|] eqn:Hcur.
    + destruct (after_colon _); [|discriminate]. intros [= <-].
      cbn [Dod.topics Dod.current]. rewrite !map_app. cbn [map].
      rewrite title_of_set; [reflexivity|].
      intros ->. apply kind_field_keys in Hk.
      repeat (apply elem_of_cons in Hk as [[=]|Hk]). by apply elem_of_nil in Hk.
    + intros [= <-]. by rewrite Hcur.
  - intros [= <-]. rewrite decide_True by reflexivity.
    unfold all_topics at 1. cbn [Dod.topics Dod.current]. rewrite map_app.
    reflexivity.
Qed.

Lemma for_each_parse_titles lines : forall st st',
  for_each Dod.parse_line st lines = Ok st' ->
  map (fun topic => Dod.get_str topic "title") (all_topics st')
  = map (fun topic => Dod.get_str topic "title") (all_topics st) ++ titles_of lines.
Proof.
  induction lines as [|line lines IH]; intros st st'.
  - intros [= <-]. unfold titles_of. cbn. by rewrite app_nil_r.
  - cbn [for_each]. destruct (Dod.parse_line st line) as [st1|] eqn:Hp; cbn [bind];
      [|discriminate].
    intros Hrest. rewrite (IH _ _ Hrest), (parse_line_titles _ _ _ Hp), <- app_assoc.
    f_equal. unfold titles_of. rewrite <- map_app. f_equal.
    change (line :: lines) with ([line] ++ lines). by rewrite filter_app.
Qed.

Lemma parse_topics_titles lines topics :
  Dod._parse_topics lines = Ok topics ->
  map (fun topic => Dod.get_str topic "title") topics = titles_of lines.
Proof.
  unfold Dod._parse_topics.
  destruct (for_each Dod.parse_line _ lines) as [st|] eqn:Hloop; cbn [bind];
    [|discriminate].
  intros [= <-]. exact (for_each_parse_titles _ _ _ Hloop).
Qed.

Lemma parse_topics_raises lines :
  raises (Dod._parse_topics lines) = true <-> breaks_parse lines.
Proof.
  unfold Dod._parse_topics, breaks_parse.
  pose proof (for_each_parse_raises lines (Dod.mk_parsing [] None None)) as H.
  destruct (for_each Dod.parse_line _ lines) as [st|exc]; cbn [bind raises] in *.
  - rewrite H. split.
    + intros (before & bad & after & Heq & [[? [=]]|Hex] & Hk & Hc).
      by exists before, bad, after.
    + intros (before & bad & after & Heq & Hex & Hk & Hc).
      exists before, bad, after. split; [exact Heq|]. split; [by right|by split].
  - split; [intros _|done]. destruct H as [H _].
    destruct (H eq_refl) as (before & bad & after & Heq & [[? [=]]|Hex] & Hk & Hc).
    by exists before, bad, after.
Qed.

(** X26. [_parse_topics] opens one topic per line that none of its prefix
    rules takes, titled with the stripped line, in page order. It fails,
    with the index error of [split(":", 1)[1]], exactly when a topic
    number line without a colon ("Topic # 12") follows the title of some
    topic; every other field line has its colon by the prefix it was
    recognised by. *)
Theorem X26_parse_topics_titles_and_failure lines :
  match Dod._parse_topics lines with
  | Ok topics =>
      map (fun topic => Dod.get_str topic "title") topics = titles_of lines
      /\ ~ breaks_parse lines
  | Raise exc => exn_cls exc = OtherError /\ breaks_parse lines
  end.
Proof.
  pose proof (parse_topics_raises lines) as Hr.
  destruct (Dod._parse_topics lines) as [topics|exc] eqn:Hp; cbn [raises] in Hr.
  - split; [by apply parse_topics_titles|]. intros Hb. by apply Hr in Hb.
  - split; [|by apply Hr].
    unfold Dod._parse_topics in Hp.
    destruct (for_each Dod.parse_line _ lines) as [st|exc'] eqn:Hloop; cbn [bind] in Hp;
      [discriminate|].
    injection Hp as <-. clear Hr.
    generalize dependent (Dod.mk_parsing [] None None).
    induction lines as [|line lines IH]; intros st; [discriminate|].
    cbn [for_each]. destruct (Dod.parse_line st line) as [st1|exc1] eqn:Hstep;
      cbn [bind]; [apply IH|].
    intros [= <-]. rewrite parse_line_kind in Hstep.
    destruct (kind_of line); try discriminate.
    unfold Dod.set_field in Hstep.
    destruct (Dod.current st); [|discriminate].
    destruct (after_colon _); [discriminate|]. by injection Hstep as <-.
Qed.

Lemma titles_of_truthy lines :
  Forall (fun value => exists title, value = Some title /\ Str.truthy title = true)
         (titles_of lines).
Proof.
  unfold titles_of. apply Forall_map, Forall_forall. intros line Hin.
  apply list_elem_of_filter in Hin as [Hk _]. exists (line_text line).
  split; [reflexivity|by apply title_is_not_blank].
Qed.

Lemma opportunity_of_topic_shape urljoin url topic title :
  Dod.get_str topic "title" = Some title -> Str.truthy title = true ->
  dod_shaped (Dod.opportunity_of_topic urljoin url topic).
Proof.
  intros Ht Htruthy. unfold dod_shaped, Dod.opportunity_of_topic.
  cbn [Opportunity.source Opportunity.agency Opportunity.branch Opportunity.topic_title
       Opportunity.id Opportunity.solicitation_title Opportunity.url
       Opportunity.subtopic_title].
  cbn [Opportunity.topic_number].
  do 3 (split; [reflexivity|]).
  assert ((if opt_truthy (Dod.get_str topic "topic_number")
           then or_empty (Dod.get_str topic "topic_number")
           else Dod.py_format (Dod.get_str topic "title"))
          = match Dod.get_str topic "topic_number" with
            | Some "" | None => title
            | Some number => number
            end) as Hid.
  { rewrite Ht. by destruct (Dod.get_str topic "topic_number") as [[|c number]|]. }
  split; [exists title; by rewrite Hid|]. split; [|split; [|by split]].
  - rewrite Hid.
    destruct (Dod.get_str topic "topic_number") as [[|c number]|]; try done;
      by destruct title.
  - destruct (opt_truthy (Dod.get_str topic "program")) eqn:Hp; [|reflexivity].
    by apply or_empty_truthy.
Qed.

(** X27. The DARPA adapter turns the active section of the page into one
    opportunity per topic opened there, in page order, each titled by its
    line, with source "dod_darpa", agency "DOD", branch "DARPA", a non-empty
    solicitation title, a url, and an id made of "dod_darpa::" and the
    topic number or, failing that, the title. It fails only as
    [_parse_topics] does on the active section. *)
Theorem X27_darpa_opportunities_shape urljoin darpa_topics_url lines :
  match Dod.opportunities_of_lines urljoin darpa_topics_url lines with
  | Ok opportunities =>
      Forall dod_shaped opportunities
      /\ map Opportunity.topic_title opportunities
         = titles_of (Dod._slice_active_section lines)
  | Raise exc => breaks_parse (Dod._slice_active_section lines)
  end.
Proof.
  unfold Dod.opportunities_of_lines.
  pose proof (parse_topics_raises (Dod._slice_active_section lines)) as Hr.
  destruct (Dod._parse_topics (Dod._slice_active_section lines)) as [topics|exc] eqn:Hp;
    cbn [bind raises] in *; [|by apply Hr].
  apply parse_topics_titles in Hp.
  pose proof (titles_of_truthy (Dod._slice_active_section lines)) as Hall.
  rewrite <- Hp in Hall.
  apply (proj1 (Forall_map (fun topic => Dod.get_str topic "title") _ topics)) in Hall.
  split.
  - apply Forall_map. eapply Forall_impl; [exact Hall|].
    intros topic (title & Ht & Htruthy). cbv beta in *.
    by eapply opportunity_of_topic_shape.
  - rewrite map_map. exact Hp.
Qed.

(** The page of the example gives one opportunity, for the topic between
    the two section markers; a topic number line without its colon makes
    the parse fail. *)
Example darpa_page_example :
  Dod.opportunities_of_lines (fun base href => base +:+ href)
    "https://darpa.example/topics" darpa_page
  = Ok [Opportunity.mk "dod_darpa::HR0011-01" (Some "dod_darpa") "SBIR | Program A" None
          (Some "DOD") (Some "DARPA") None (Some "2026-01-01")
          (Some "Autonomous swarms") (Some "HR0011-01") None None None
          (Some "https://darpa.example/topics/topics/1")
          [("title", JStr "Autonomous swarms"); ("program", JStr "SBIR | Program A");
           ("url", JStr "/topics/1"); ("topic_number", JStr "HR0011-01");
           ("close_date", JStr "2026-01-01")]]
  /\ raises (Dod._parse_topics darpa_broken_page) = true.
Proof. split; vm_compute; reflexivity. Qed.

(** ** nsf.py: the opportunities of the solicitations section *)

Lemma pick_url_elem hrefs href : _pick_url hrefs = Some href -> href ∈ hrefs.
Proof.
  unfold _pick_url. destruct (List.find _ hrefs) as [found|] eqn:Hf.
  - intros [= <-]. apply find_some in Hf as [Hin _]. by apply list_elem_of_In.
  - destruct hrefs as [|first hrefs]; [discriminate|].
    intros [= <-]. apply elem_of_cons. by left.
Qed.

Lemma nsf_opportunity_of_line urljoin url section line o :
  line ∈ section ->
  Nsf.opportunity_of_line urljoin url line = Some o ->
  nsf_built_from urljoin url section o.
Proof.
  intros Hin. unfold Nsf.opportunity_of_line. fold (line_text line).
  destruct (Str.truthy (line_text line)) eqn:Ht; cbn [negb orb]; [|discriminate].
  destruct (is_empty (ParsedLine.hrefs line)); [discriminate|].
  destruct (Nsf._is_relevant_title (line_text line)) eqn:Hrel; cbn [negb];
    [|discriminate].
  destruct (Nsf._is_solicitation_link (_pick_url (ParsedLine.hrefs line))) eqn:Hlink;
    cbn [negb]; [|discriminate].
  unfold Nsf._is_solicitation_link in Hlink.
  destruct (_pick_url (ParsedLine.hrefs line)) as [href|] eqn:Hpick; [|discriminate].
  cbn [opt_truthy or_empty default] in *.
  destruct (Str.truthy href) eqn:Hh; cbn [negb] in Hlink; [|discriminate].
  intros [= <-]. exists line, href.
  split; [exact Hin|]. split; [by apply pick_url_elem|].
  by repeat split.
Qed.

(** X28. Every opportunity of the NSF adapter comes from a line of the
    solicitations section whose text names SBIR, STTR or a solicitation
    and which carries a link naming a solicitation: it is titled by the
    line, its id is "nsf_seedfund::" followed by that link (never by the
    title), its url is the link resolved against the page address, and its
    agency is "NSF". The adapter yields at most one opportunity per line,
    in page order. *)
Theorem X28_nsf_opportunities_come_from_links urljoin solicitations_url lines :
  Forall (nsf_built_from urljoin solicitations_url (Nsf._slice_solicitations lines))
         (Nsf.opportunities_of_lines urljoin solicitations_url lines)
  /\ map Opportunity.solicitation_title
         (Nsf.opportunities_of_lines urljoin solicitations_url lines)
     `sublist_of` map line_text (Nsf._slice_solicitations lines).
Proof.
  unfold Nsf.opportunities_of_lines. split.
  - apply Forall_flat_map_elem. intros line Hin.
    destruct (Nsf.opportunity_of_line urljoin solicitations_url line) as [o|] eqn:Ho;
      [|constructor].
    constructor; [|constructor]. by eapply nsf_opportunity_of_line.
  - induction (Nsf._slice_solicitations lines) as [|line section IH]; [constructor|].
    cbn [flat_map map].
    destruct (Nsf.opportunity_of_line urljoin solicitations_url line) as [o|] eqn:Ho.
    + cbn [app map].
      assert (Opportunity.solicitation_title o = line_text line) as ->.
      { unfold Nsf.opportunity_of_line in Ho. fold (line_text line) in Ho.
        repeat match type of Ho with
               | (if ?b then _ else _) = _ => destruct b; [discriminate|]
               end.
        by injection Ho as <-. }
      by apply sublist_skip.
    + cbn [app]. by apply sublist_cons.
Qed.

(** ** The line parser *)

Lemma fromkeys_spec (hrefs : list string) : forall keys : list string,
  NoDup keys ->
  NoDup (fold_left (fun (keys : list string) (href : string) =>
                      if bool_decide (href ∈ keys) then keys else keys ++ [href])
                   hrefs keys)
  /\ forall href,
       href ∈ fold_left (fun (keys : list string) (href : string) =>
                           if bool_decide (href ∈ keys) then keys else keys ++ [href])
                        hrefs keys ->
       href ∈ keys \/ href ∈ hrefs.
Proof.
  induction hrefs as [|h hrefs IH]; intros keys Hnd; [by split; [|left]|].
  cbn [fold_left]. destruct (bool_decide (h ∈ keys)) eqn:Hin.
  - destruct (IH keys Hnd) as [H1 H2]. split; [exact H1|].
    intros href Hh. destruct (H2 href Hh); [by left|right].
    apply elem_of_cons. by right.
  - apply bool_decide_eq_false in Hin.
    assert (NoDup (keys ++ [h])) as Hnd'.
    { apply NoDup_app. split; [exact Hnd|]. split; [|apply NoDup_singleton].
      intros x Hx Hx'. apply list_elem_of_singleton in Hx' as ->. contradiction. }
    destruct (IH (keys ++ [h]) Hnd') as [H1 H2]. split; [exact H1|].
    intros href Hh. destruct (H2 href Hh) as [Hk|Hr].
    + apply elem_of_app in Hk as [?|Hk]; [by left|right].
      apply list_elem_of_singleton in Hk as ->. apply elem_of_cons. by left.
    + right. apply elem_of_cons. by right.
Qed.

Lemma flush_ok self : parser_ok self -> parser_ok (LineParser._flush self).
Proof.
  intros [Hlines Hhrefs]. unfold LineParser._flush.
  destruct (LineParser._text_parts self) as [|part parts]; [by split|].
  split; [|constructor]. cbn [LineParser.lines].
  destruct (Str.truthy (Str.strip _)) eqn:Ht; [|exact Hlines].
  apply Forall_app. split; [exact Hlines|]. constructor; [|constructor].
  destruct (fromkeys_spec (LineParser._hrefs self) [] (NoDup_nil_2 (A:=string))) as [Hnd Hsub].
  unfold clean_line, fromkeys. cbn [ParsedLine.text ParsedLine.hrefs].
  split; [exact Ht|]. split; [apply strip_idem|]. split; [exact Hnd|].
  apply Forall_forall. intros href Hin.
  destruct (Hsub href Hin) as [Hnil|Hold]; [by apply elem_of_nil in Hnil|].
  exact (proj1 (Forall_forall _ _) Hhrefs href Hold).
Qed.

Lemma handle_ok self event : parser_ok self -> parser_ok (LineParser.handle self event).
Proof.
  intros Hok. destruct event as [tag attrs|tag|data]; cbn [LineParser.handle].
  - unfold LineParser.handle_starttag.
    assert (parser_ok (if one_of tag LineParser._block_tags
                       then LineParser._flush self else self)) as Hok'
      by (destruct (one_of _ _); [by apply flush_ok|exact Hok]).
    destruct (String.eqb tag "a"); [|exact Hok'].
    by destruct (List.find _ attrs) as [[]|].
  - unfold LineParser.handle_endtag.
    assert (parser_ok (if String.eqb tag "a"
                       then LineParser.mk (LineParser.lines self)
                              (LineParser._text_parts self) (LineParser._hrefs self) None
                       else self)) as Hok'
      by (by destruct (String.eqb tag "a")).
    destruct (one_of _ _); [by apply flush_ok|exact Hok'].
  - unfold LineParser.handle_data. destruct (Str.truthy (Str.strip data)); cbn [negb];
      [|exact Hok].
    destruct Hok as [Hlines Hhrefs]. split; [exact Hlines|]. cbn [LineParser._hrefs].
    destruct (opt_truthy (LineParser._current_href self)) eqn:Hc; [|exact Hhrefs].
    apply Forall_app. split; [exact Hhrefs|]. constructor; [|constructor].
    by apply or_empty_truthy.
Qed.

Lemma handle_all_ok events : forall self,
  parser_ok self -> parser_ok (fold_left LineParser.handle events self).
Proof.
  induction events as [|event events IH]; intros self Hok; [exact Hok|].
  cbn [fold_left]. by apply IH, handle_ok.
Qed.

(** X29. Whatever the page, the lines the parser hands over are clean:
    each has a non-empty text with no white space at either end, so that
    the scrapers never meet a blank line, and its links are non-empty and
    all different. *)
Theorem X29_parsed_lines_are_clean fed closing :
  Forall clean_line (LineParser._parse_lines fed closing).
Proof.
  unfold LineParser._parse_lines.
  apply handle_all_ok, flush_ok, handle_all_ok. by split.
Qed.

(** ** nih.py: from the entries of the NIH Guide feed to opportunities *)




